(** * wc-now: blueprint generation, product normalisation and blueprint merge

    A shallow embedding of the blueprint engine of wc-now:

    - [escapePHP], [generateProductImportScript],
      [generateWooCommerceBlueprint] and [transformWooCommerceProducts] of
      [src/blueprint/generator.ts] (module [Generator]);
    - the revision of the same generator that targets [@wp-playground/cli]
      (module [PlaygroundGenerator]): a core-readiness run step comes first,
      plugins are given as [pluginData], files live under
      [/wordpress/wp-content]; the test suite of the repository
      ([test/blueprint.test.ts]) is written against this revision;
    - [mergeBlueprints] of [src/cli/index.ts] (module [Cli]), which is the
      same function in both revisions of the command line;
    - the argument loop, [extractVersionArg] and [main] of [src/cli/index.ts]
      (module [CliMain]) and of its revision for [@wp-playground/cli]
      (module [PlaygroundCli]), with the store's answer, the blueprint file
      and the temporary path as inputs;
    - the types of [src/blueprint/types.ts] and the part of
      [src/wc-public-api/types.ts] that the normaliser reads.

    The properties are stated in a vocabulary of their own (module [Php] and
    the recognisers of steps): how a single-quoted PHP literal reads, what
    text of a script is executable, which file a run step loads or deletes.

    The source tree holds a third, older revision of the generator, which
    imports a WXR file of sample products and sets no [login]; it is not
    embedded.  [escapePHP], the entry template of the products array and
    [transformWooCommerceProducts] are the same text in all revisions.

    JavaScript strings are modelled as [string], the sequence of the bytes of
    their UTF-8 encoding.  The only character the code inspects is the ASCII
    single quote, which never occurs inside a multi-byte sequence.  A
    property that may be missing from an object is an [option]: [None] is
    JavaScript's [undefined]. *)

From Stdlib Require Import String Ascii List ZArith Bool Lia.
From stdpp Require Import base option list gmap strings.

Local Open Scope string_scope.
Local Open Scope list_scope.

#[local] Set Warnings "-register-all".


(** ** JavaScript helpers *)

Module Js.

(** The line feed and the double quote, which a string literal of this
    file cannot hold. *)
Definition nl : string := String "010"%char EmptyString.
Definition dq : string := String "034"%char EmptyString.

(** A multi-line template literal, one list element per line. *)
Definition unlines (lines : list string) : string := String.concat nl lines.

(** Truthiness of a value typed [string | undefined]: [undefined] and the
    empty string are falsy. *)
Definition truthy (v : option string) : bool :=
  match v with
  | Some s => negb (String.eqb s EmptyString)
  | None => false
  end.

(** [v || d] for a value typed [string | undefined] and a string [d]. *)
Definition or_else (v : option string) (d : string) : string :=
  match v with
  | Some s => if String.eqb s EmptyString then d else s
  | None => d
  end.

(** Truthiness of a value typed [boolean | undefined]. *)
Definition truthy_bool (v : option bool) : bool :=
  match v with
  | Some b => b
  | None => false
  end.

(** [a.indexOf(v)]: the index of the first element strictly equal to [v],
    or -1. *)
Fixpoint indexOf_from (a : list string) (v : string) (i : Z) : Z :=
  match a with
  | [] => (-1)%Z
  | x :: rest => if String.eqb x v then i else indexOf_from rest v (i + 1)%Z
  end.

Definition indexOf (a : list string) (v : string) : Z := indexOf_from a v 0%Z.

(** [a.filter((v, i, a) => f(v, i, a))]: the callback receives the element,
    its index and the array being filtered. *)
Fixpoint filter_from {A : Type} (f : A -> Z -> bool) (l : list A) (i : Z) : list A :=
  match l with
  | [] => []
  | x :: rest =>
      if f x i then x :: filter_from f rest (i + 1)%Z
      else filter_from f rest (i + 1)%Z
  end.

Definition filter_indexed {A : Type} (f : A -> Z -> list A -> bool) (a : list A) : list A :=
  filter_from (fun v i => f v i a) a 0%Z.

(** [s.endsWith(suffix)] and [s.includes(part)], used to recognise steps. *)
Definition endsWith (s suffix : string) : bool :=
  String.eqb
    (String.substring (String.length s - String.length suffix) (String.length suffix) s)
    suffix
  && Nat.leb (String.length suffix) (String.length s).

Definition includes (s part : string) : bool :=
  match String.index 0 part s with
  | Some _ => true
  | None => false
  end.

End Js.

Import Js.

(** ** Blueprint types ([src/blueprint/types.ts]) *)

(** A value typed [unknown] that comes from JSON or from an object literal.
    The only numbers the generator writes are the integers 2 and 0. *)
Inductive JSON : Type :=
| JNull
| JBool (b : bool)
| JNumber (n : Z)
| JString (s : string)
| JArray (items : list JSON)
| JObject (fields : list (string * JSON)).

(** [string | number | boolean], the values of [constants]. *)
Inductive Scalar : Type :=
| SString (s : string)
| SNumber (n : Z)
| SBool (b : bool).

Record PluginResource : Type := {
  resource : string;
  slug : option string;
  url : option string;
  path : option string
}.

Record ThemeResource : Type := {
  theme_resource : string;
  theme_slug : option string;
  theme_url : option string;
  theme_path : option string
}.

Record FileResource : Type := {
  file_resource : string;
  file_url : option string;
  file_path : option string
}.

(** [options?: { activate?: boolean }] of the install steps. *)
Record InstallOptions : Type := { activate : option bool }.

(** [BlueprintStep]: one constructor per member of the union, named after its
    [step] tag; the arguments are the properties of the interface, in the
    order of the declaration. *)
Inductive BlueprintStep : Type :=
| InstallPlugin (pluginZipFile pluginData : option PluginResource)
                (options : option InstallOptions)
| ActivatePlugin (pluginPath : string) (pluginName : option string)
| InstallTheme (themeData : option ThemeResource) (themeZipFile : option FileResource)
               (options : option InstallOptions)
| ActivateTheme (themeFolderName : string)
| Login (username password : option string)
| WriteFile (path : string) (data : string + FileResource)
| RunPHP (code : string)
| SetSiteOptions (options : gmap string JSON)
| ImportWxr (file : FileResource)
| DefineWpConfigConsts (consts : gmap string Scalar) (method : option string)
| RunSQL (sql : string + FileResource)
| Cp (fromPath toPath : string)
| Mv (fromPath toPath : string)
| Rm (path : string)
| Mkdir (path : string)
| Unzip (zipFile : FileResource) (extractToPath : string).

Record PreferredVersions : Type := {
  pv_php : option string;
  pv_wp : option string
}.

Record Features : Type := { networking : option bool }.

(** [login?: boolean | { username?: string; password?: string }]. *)
Inductive LoginSetting : Type :=
| LoginBool (b : bool)
| LoginCredentials (username password : option string).

(** An entry of [plugins] or [themes]: a slug or a resource. *)
Inductive PluginRef : Type :=
| PluginSlug (s : string)
| PluginRes (r : PluginResource).

Inductive ThemeRef : Type :=
| ThemeSlug (s : string)
| ThemeRes (r : ThemeResource).

(** [Blueprint]: every property is optional.  [schema] is [$schema]. *)
Record Blueprint : Type := {
  schema : option string;
  landingPage : option string;
  preferredVersions : option PreferredVersions;
  phpExtensionBundles : option (list string);
  features : option Features;
  login : option LoginSetting;
  steps : option (list BlueprintStep);
  constants : option (gmap string Scalar);
  plugins : option (list PluginRef);
  themes : option (list ThemeRef);
  siteOptions : option (gmap string JSON)
}.

(** ** Product records *)

Record AttributeTerm : Type := {
  term_id : Z;
  term_name : string;
  term_slug : string
}.

Record ProductAttribute : Type := {
  attr_id : Z;
  attr_name : string;
  attr_taxonomy : string;
  attr_has_variations : bool;
  attr_terms : list AttributeTerm
}.

Record VariationAttribute : Type := {
  va_name : string;
  va_value : option string
}.

Record ProductVariation : Type := {
  var_id : Z;
  var_attributes : list VariationAttribute
}.

(** [ProductImport] of [generator.ts], as the generator consumes it. *)
Record ProductImport : Type := {
  name : string;
  description : string;
  short_description : string;
  price : string;
  regular_price : string;
  sale_price : string;
  sku : string;
  stock_status : string;
  categories : list string;
  images : list string;
  attributes : list ProductAttribute;
  variations : list ProductVariation
}.

Record BlueprintGeneratorOptions : Type := {
  opt_siteName : option string;
  opt_products : option (list ProductImport);
  opt_landingPage : option string;
  opt_php : option string;
  opt_wp : option string;
  opt_additionalPlugins : option (list string);
  opt_additionalSteps : option (list BlueprintStep)
}.

(** The object [{}], the default argument of the generator. *)
Definition noOptions : BlueprintGeneratorOptions :=
  {| opt_siteName := None; opt_products := None; opt_landingPage := None;
     opt_php := None; opt_wp := None; opt_additionalPlugins := None;
     opt_additionalSteps := None |}.

(** ** Remote products ([src/wc-public-api/types.ts])

    Only the properties [transformWooCommerceProducts] reads are kept.  The
    declared type makes all of them required; the function guards most of
    them with [||] and [?.], so the records it receives at run time (parsed
    JSON, or the [Partial] records of the test suite) may lack any of them. *)

Record WooCommercePrice : Type := {
  prices_price : option string;
  prices_regular_price : option string;
  prices_sale_price : option string
}.

Record WooCommerceImage : Type := { img_src : option string }.

Record WooCommerceCategory : Type := { cat_name : string }.

Record PublicWooCommerceProduct : Type := {
  r_name : option string;
  r_description : option string;
  r_short_description : option string;
  r_prices : option WooCommercePrice;
  r_sku : option string;
  r_is_in_stock : option bool;
  r_categories : option (list WooCommerceCategory);
  r_images : option (list WooCommerceImage);
  r_attributes : option (list ProductAttribute);
  r_variations : option (list ProductVariation)
}.

(** The object literal [transformWooCommerceProducts] builds for one product.
    [name] and [description] hold whatever the property read returned, so
    they are [None] when the remote record lacks the property; every other
    property has gone through a default. *)
Record TransformedProduct : Type := {
  t_name : option string;
  t_description : option string;
  t_short_description : string;
  t_price : string;
  t_regular_price : string;
  t_sale_price : string;
  t_sku : string;
  t_stock_status : string;
  t_categories : list string;
  t_images : list string;
  t_attributes : list ProductAttribute;
  t_variations : list ProductVariation
}.

(** A transformed product is a well-typed [ProductImport] when its name and
    description are strings. *)
Definition asProductImport (t : TransformedProduct) : option ProductImport :=
  match t_name t, t_description t with
  | Some n, Some d =>
      Some {| name := n; description := d;
              short_description := t_short_description t;
              price := t_price t; regular_price := t_regular_price t;
              sale_price := t_sale_price t; sku := t_sku t;
              stock_status := t_stock_status t;
              categories := t_categories t; images := t_images t;
              attributes := t_attributes t; variations := t_variations t |}
  | _, _ => None
  end.

(** ** [generator.ts]: the parts shared by both revisions *)

(** [str.replace(/'/g, "\\'")]: every single quote becomes backslash, quote. *)
Fixpoint escapePHP (str : string) : string :=
  match str with
  | EmptyString => EmptyString
  | String c rest =>
      if Ascii.eqb c "'"%char
      then String "092"%char (String "'"%char (escapePHP rest))
      else String c (escapePHP rest)
  end.

(** One element of [productsPhpArray]: the template literal of the [map]
    callback in [generateProductImportScript]. *)
Definition productPhpEntry (product : ProductImport) : string :=
  unlines
    [ "array("
    ; "        'name' => '" +:+ escapePHP (name product) +:+ "',"
    ; "        'description' => '" +:+ escapePHP (description product) +:+ "',"
    ; "        'short_description' => '" +:+ escapePHP (short_description product) +:+ "',"
    ; "        'regular_price' => '" +:+ escapePHP (regular_price product) +:+ "',"
    ; "        'sale_price' => '" +:+ escapePHP (sale_price product) +:+ "',"
    ; "        'sku' => '" +:+ escapePHP (sku product) +:+ "',"
    ; "        'stock_status' => '" +:+ escapePHP (stock_status product) +:+ "',"
    ; "        'categories' => array("
        +:+ String.concat ", " (map (fun cat => "'" +:+ escapePHP cat +:+ "'") (categories product))
        +:+ "),"
    ; "        'images' => array("
        +:+ String.concat ", " (map (fun img => "'" +:+ escapePHP img +:+ "'") (images product))
        +:+ ")"
    ; "      )"
    ].

Definition productsPhpArray (products : list ProductImport) : string :=
  String.concat ("," +:+ nl) (map productPhpEntry products).

(** [transformWooCommerceProducts]: the body of the [map] callback, then the
    function. *)
Definition transformProduct (product : PublicWooCommerceProduct) : TransformedProduct :=
  {| t_name := r_name product;
     t_description := r_description product;
     t_short_description := or_else (r_short_description product) EmptyString;
     t_price := or_else (r_prices product ≫= prices_price) "0";
     t_regular_price := or_else (r_prices product ≫= prices_regular_price) "0";
     t_sale_price := or_else (r_prices product ≫= prices_sale_price) EmptyString;
     t_sku := or_else (r_sku product) EmptyString;
     t_stock_status := if truthy_bool (r_is_in_stock product) then "instock" else "outofstock";
     t_categories := default [] (map cat_name <$> r_categories product);
     t_images :=
       default []
         ((fun imgs =>
             List.filter (fun s => negb (String.eqb s EmptyString))
               (map (fun img => or_else (img_src img) EmptyString) imgs))
            <$> r_images product);
     t_attributes := default [] (r_attributes product);
     t_variations := default [] (r_variations product) |}.

Definition transformWooCommerceProducts
    (products : list PublicWooCommerceProduct) : list TransformedProduct :=
  map transformProduct products.

(** ** PHP payloads shared by both revisions of the generator *)

(** Data of the write-file step for rewrite.php. *)
Definition rewritePhp : string :=
  unlines
    [ "<?php"
    ; "/* Use pretty permalinks */"
    ; "add_action( 'after_setup_theme', function() {"
    ; "    global $wp_rewrite;"
    ; "    $wp_rewrite->set_permalink_structure('/%postname%/');"
    ; "    $wp_rewrite->flush_rules();"
    ; "} );"
    ].

(** Data of the write-file step for debug-config.php. *)
Definition debugConfigPhp : string :=
  unlines
    [ "<?php"
    ; "/**"
    ; " * Debug configuration for development"
    ; " * Using mu-plugin to ensure these are set after wp-config.php"
    ; " */"
    ; EmptyString
    ; "// Only define constants if they haven't been defined already"
    ; "if (!defined('WP_DEBUG')) {"
    ; "    define('WP_DEBUG', true);"
    ; "}"
    ; EmptyString
    ; "if (!defined('WP_DEBUG_LOG')) {"
    ; "    define('WP_DEBUG_LOG', true);"
    ; "}"
    ; EmptyString
    ; "if (!defined('WP_DEBUG_DISPLAY')) {"
    ; "    define('WP_DEBUG_DISPLAY', false);"
    ; "}"
    ; EmptyString
    ; "if (!defined('SCRIPT_DEBUG')) {"
    ; "    define('SCRIPT_DEBUG', true);"
    ; "}"
    ; EmptyString
    ; "if (!defined('WP_ENVIRONMENT_TYPE')) {"
    ; "    define('WP_ENVIRONMENT_TYPE', 'development');"
    ; "}"
    ; EmptyString
    ; "// Additional debug helpers"
    ; "if (WP_DEBUG) {"
    ; "    // Ensure error reporting is enabled"
    ; "    error_reporting(E_ALL);"
    ; "    ini_set('display_errors', 0);"
    ; "    ini_set('log_errors', 1);"
    ; EmptyString
    ; "    // Set error log location if not already set"
    ; "    if (!ini_get('error_log')) {"
    ; "        ini_set('error_log', WP_CONTENT_DIR . '/debug.log');"
    ; "    }"
    ; "}"
    ; EmptyString
    ].

(** Data of the final write-file step for playground-helpers.php. *)
Definition playgroundHelpersPhp : string :=
  unlines
    [ "<?php"
    ; "/**"
    ; " * WordPress Playground Development Helpers"
    ; " */"
    ; EmptyString
    ; "// Show admin bar for all users"
    ; "add_filter('show_admin_bar', '__return_true');"
    ; EmptyString
    ; "// Disable update checks to improve performance"
    ; "add_filter('automatic_updater_disabled', '__return_true');"
    ; "remove_action('init', 'wp_schedule_update_checks');"
    ; EmptyString
    ; "// Add development notice"
    ; "add_action('admin_notices', function() {"
    ; ("    echo '<div class=" +:+ dq +:+ "notice notice-info" +:+ dq +:+ "><p>🎮 Running in WordPress Playground with WooCommerce defaults</p></div>';")
    ; "});"
    ; EmptyString
    ; "// Log all errors to debug.log"
    ; "if (WP_DEBUG_LOG) {"
    ; "    ini_set('log_errors', 1);"
    ; "    ini_set('error_log', WP_CONTENT_DIR . '/debug.log');"
    ; "}"
    ; EmptyString
    ].


(** The [options] object of the set-site-options step; [blogname] is the
    only entry that depends on the generator's options. *)
Definition wooCommerceSiteOptions (siteName : string) : gmap string JSON :=
  list_to_map
    [ ("blogname", JString siteName)
    ; ("woocommerce_store_city", JString "New York")
    ; ("woocommerce_store_address", JString "123 Main St")
    ; ("woocommerce_store_postcode", JString "10001")
    ; ("woocommerce_default_country", JString "US:NY")
    ; ("woocommerce_onboarding_profile", JObject [("skipped", JBool true)])
    ; ("woocommerce_currency", JString "USD")
    ; ("woocommerce_weight_unit", JString "lbs")
    ; ("woocommerce_dimension_unit", JString "in")
    ; ("woocommerce_allow_tracking", JString "no")
    ; ("woocommerce_cheque_settings", JObject [("enabled", JString "yes")])
    ; ("woocommerce_cod_settings", JObject [("enabled", JString "yes")])
    ; ("woocommerce_bacs_settings", JObject [("enabled", JString "yes")])
    ; ("woocommerce_calc_taxes", JString "yes")
    ; ("woocommerce_enable_coupons", JString "yes")
    ; ("woocommerce_enable_reviews", JString "yes")
    ; ("woocommerce_enable_review_rating", JString "yes")
    ; ("woocommerce_manage_stock", JString "yes")
    ; ("woocommerce_notify_low_stock", JString "yes")
    ; ("woocommerce_notify_no_stock", JString "yes")
    ; ("woocommerce_stock_email_recipient", JString "admin@example.com")
    ; ("woocommerce_notify_low_stock_amount", JNumber 2)
    ; ("woocommerce_notify_no_stock_amount", JNumber 0)
    ; ("woocommerce_enable_guest_checkout", JString "yes")
    ; ("woocommerce_enable_checkout_login_reminder", JString "yes")
    ; ("woocommerce_enable_signup_and_login_from_checkout", JString "yes")
    ; ("woocommerce_enable_myaccount_registration", JString "yes")
    ; ("woocommerce_registration_generate_username", JString "yes")
    ; ("woocommerce_registration_generate_password", JString "yes")
    ].

(** The resource of a plugin of the wordpress.org directory. *)
Definition directoryPlugin (s : string) : PluginResource :=
  {| resource := "wordpress.org/plugins"; slug := Some s; url := None; path := None |}.

(** ** [src/blueprint/generator.ts] *)

Module Generator.


(** The PHP text of the template literal returned by generateProductImportScript (the text before the products array). *)
Definition importScriptHeader : string :=
  unlines
    [ "<?php"
    ; "// Ensure WordPress is loaded"
    ; "if (!defined('ABSPATH')) {"
    ; "    // Try to load WordPress - this handles different environments"
    ; "    if (file_exists('/wordpress/wp-load.php')) {"
    ; "        require_once('/wordpress/wp-load.php');"
    ; "    } elseif (file_exists(dirname(__FILE__) . '/../../wp-load.php')) {"
    ; "        require_once(dirname(__FILE__) . '/../../wp-load.php');"
    ; "    } elseif (file_exists(dirname(__FILE__) . '/../../../wp-load.php')) {"
    ; "        require_once(dirname(__FILE__) . '/../../../wp-load.php');"
    ; "    } else {"
    ; "        error_log('Could not find wp-load.php');"
    ; "        exit(1);"
    ; "    }"
    ; "}"
    ; EmptyString
    ; "// Wait for WooCommerce to be fully loaded"
    ; "if (!class_exists('WC_Product')) {"
    ; "    error_log('WooCommerce is not active, skipping product import');"
    ; "    exit(0);"
    ; "}"
    ; EmptyString
    ; "// Include WordPress media functions"
    ; "require_once(ABSPATH . 'wp-admin/includes/media.php');"
    ; "require_once(ABSPATH . 'wp-admin/includes/file.php');"
    ; "require_once(ABSPATH . 'wp-admin/includes/image.php');"
    ; EmptyString
    ; "// Function to download and attach image to product"
    ; "function attach_product_image($image_url, $product_id, $set_as_featured = true) {"
    ; "    if (empty($image_url)) {"
    ; "        return false;"
    ; "    }"
    ; EmptyString
    ; "    // Download image from URL"
    ; "    $tmp = download_url($image_url);"
    ; EmptyString
    ; "    if (is_wp_error($tmp)) {"
    ; "        error_log('Failed to download image: ' . $tmp->get_error_message());"
    ; "        return false;"
    ; "    }"
    ; EmptyString
    ; "    // Get the filename from the URL"
    ; "    $file_array = array();"
    ; "    $file_array['name'] = basename($image_url);"
    ; "    $file_array['tmp_name'] = $tmp;"
    ; EmptyString
    ; "    // If the URL doesn't have a proper extension, try to determine it"
    ; "    if (!preg_match('/\.(jpg|jpeg|png|gif|webp)$/i', $file_array['name'])) {"
    ; "        $file_info = wp_check_filetype_and_ext($tmp, $file_array['name']);"
    ; "        if ($file_info['ext']) {"
    ; "            $file_array['name'] = 'product-image-' . $product_id . '.' . $file_info['ext'];"
    ; "        }"
    ; "    }"
    ; EmptyString
    ; "    // Upload the image"
    ; "    $attachment_id = media_handle_sideload($file_array, $product_id);"
    ; EmptyString
    ; "    // Check for errors"
    ; "    if (is_wp_error($attachment_id)) {"
    ; "        @unlink($file_array['tmp_name']);"
    ; "        error_log('Failed to create attachment: ' . $attachment_id->get_error_message());"
    ; "        return false;"
    ; "    }"
    ; EmptyString
    ; "    // Set as featured image if requested"
    ; "    if ($set_as_featured) {"
    ; "        set_post_thumbnail($product_id, $attachment_id);"
    ; "    }"
    ; EmptyString
    ; "    return $attachment_id;"
    ; "}"
    ; EmptyString
    ; "$products_data = array("
    ].


(** The PHP text of the template literal returned by generateProductImportScript (the text after the products array). *)
Definition importScriptFooter : string :=
  unlines
    [ ");"
    ; EmptyString
    ; "$imported_count = 0;"
    ; "$images_imported = 0;"
    ; EmptyString
    ; "foreach ($products_data as $product_data) {"
    ; "    try {"
    ; "        $product = new WC_Product_Simple();"
    ; EmptyString
    ; "        $product->set_name($product_data['name']);"
    ; "        $product->set_description($product_data['description']);"
    ; "        $product->set_short_description($product_data['short_description']);"
    ; "        $product->set_regular_price($product_data['regular_price']);"
    ; EmptyString
    ; "        if (!empty($product_data['sale_price'])) {"
    ; "            $product->set_sale_price($product_data['sale_price']);"
    ; "        }"
    ; EmptyString
    ; "        if (!empty($product_data['sku'])) {"
    ; "            $product->set_sku($product_data['sku']);"
    ; "        }"
    ; EmptyString
    ; "        $product->set_stock_status($product_data['stock_status']);"
    ; EmptyString
    ; "        // Set categories"
    ; "        if (!empty($product_data['categories'])) {"
    ; "            $category_ids = array();"
    ; "            foreach ($product_data['categories'] as $category_name) {"
    ; "                $term = get_term_by('name', $category_name, 'product_cat');"
    ; "                if (!$term) {"
    ; "                    $term = wp_insert_term($category_name, 'product_cat');"
    ; "                    if (!is_wp_error($term)) {"
    ; "                        $category_ids[] = $term['term_id'];"
    ; "                    }"
    ; "                } else {"
    ; "                    $category_ids[] = $term->term_id;"
    ; "                }"
    ; "            }"
    ; "            $product->set_category_ids($category_ids);"
    ; "        }"
    ; EmptyString
    ; "        // Save the product first to get the ID"
    ; "        $product_id = $product->save();"
    ; "        if ($product_id) {"
    ; "            $imported_count++;"
    ; EmptyString
    ; "            // Import images"
    ; "            if (!empty($product_data['images'])) {"
    ; "                $gallery_ids = array();"
    ; "                $is_first = true;"
    ; EmptyString
    ; "                foreach ($product_data['images'] as $image_url) {"
    ; "                    if (empty($image_url)) continue;"
    ; EmptyString
    ; "                    // Set first image as featured, others as gallery"
    ; "                    $attachment_id = attach_product_image($image_url, $product_id, $is_first);"
    ; EmptyString
    ; "                    if ($attachment_id && !$is_first) {"
    ; "                        $gallery_ids[] = $attachment_id;"
    ; "                    }"
    ; EmptyString
    ; "                    if ($attachment_id) {"
    ; "                        $images_imported++;"
    ; "                    }"
    ; EmptyString
    ; "                    $is_first = false;"
    ; EmptyString
    ; "                    // Limit to 5 images per product to avoid timeout"
    ; "                    if (count($gallery_ids) >= 4) {"
    ; "                        break;"
    ; "                    }"
    ; "                }"
    ; EmptyString
    ; "                // Set gallery images"
    ; "                if (!empty($gallery_ids)) {"
    ; "                    $product = wc_get_product($product_id);"
    ; "                    $product->set_gallery_image_ids($gallery_ids);"
    ; "                    $product->save();"
    ; "                }"
    ; "            }"
    ; "        }"
    ; "    } catch (Exception $e) {"
    ; "        error_log('Failed to import product: ' . $e->getMessage());"
    ; "    }"
    ; "}"
    ; EmptyString
    ; ("echo " +:+ dq +:+ "Successfully imported $imported_count products with $images_imported images!" +:+ dq +:+ ";")
    ; "?>"
    ].



(** [generateProductImportScript]: the products array spliced into the
    script template. *)
Definition generateProductImportScript (products : list ProductImport) : string :=
  importScriptHeader +:+ nl +:+ productsPhpArray products +:+ nl +:+ importScriptFooter.

(** Code of the run step that creates the built-in sample products. *)
Definition sampleProductsCode : string :=
  unlines
    [ "<?php"
    ; "// This script creates sample WooCommerce products without requiring WXR import"
    ; "// It runs after WooCommerce is activated and ready"
    ; EmptyString
    ; "// Ensure WooCommerce is active"
    ; "if (!class_exists('WC_Product')) {"
    ; "    echo 'WooCommerce is not active. Skipping product creation.';"
    ; "    exit(0);"
    ; "}"
    ; EmptyString
    ; "// Load required WordPress functions for media handling"
    ; "require_once(ABSPATH . 'wp-admin/includes/media.php');"
    ; "require_once(ABSPATH . 'wp-admin/includes/file.php');"
    ; "require_once(ABSPATH . 'wp-admin/includes/image.php');"
    ; EmptyString
    ; "// Helper function to download and attach image to product"
    ; "function attach_product_thumbnail($image_url, $product_id, $filename = '') {"
    ; "    if (empty($image_url)) {"
    ; "        return false;"
    ; "    }"
    ; EmptyString
    ; "    // Download the image"
    ; "    $tmp = download_url($image_url);"
    ; "    if (is_wp_error($tmp)) {"
    ; "        return false;"
    ; "    }"
    ; EmptyString
    ; "    // Set up file array"
    ; "    $file_array = array("
    ; "        'name' => $filename ?: basename($image_url),"
    ; "        'tmp_name' => $tmp"
    ; "    );"
    ; EmptyString
    ; "    // If filename doesn't have an extension, add one based on mime type"
    ; "    if (!preg_match('/.(jpg|jpeg|png|gif|webp)$/i', $file_array['name'])) {"
    ; "        $file_array['name'] = $file_array['name'] . '.jpg';"
    ; "    }"
    ; EmptyString
    ; "    // Upload the image and attach it to the product"
    ; "    $attachment_id = media_handle_sideload($file_array, $product_id);"
    ; EmptyString
    ; "    // Clean up temp file"
    ; "    @unlink($tmp);"
    ; EmptyString
    ; "    if (is_wp_error($attachment_id)) {"
    ; "        return false;"
    ; "    }"
    ; EmptyString
    ; "    // Set as product thumbnail"
    ; "    set_post_thumbnail($product_id, $attachment_id);"
    ; EmptyString
    ; "    return $attachment_id;"
    ; "}"
    ; EmptyString
    ; "// Sample product data"
    ; "$sample_products = array("
    ; "    array("
    ; "        'name' => 'Premium Quality T-Shirt',"
    ; "        'description' => 'This premium quality t-shirt is made from 100% organic cotton. Comfortable, durable, and stylish.',"
    ; "        'short_description' => 'Comfortable organic cotton t-shirt',"
    ; "        'regular_price' => '29.99',"
    ; "        'sale_price' => '24.99',"
    ; "        'sku' => 'TSHIRT-001',"
    ; "        'stock_status' => 'instock',"
    ; "        'categories' => array('Clothing', 'T-Shirts'),"
    ; "        'image_url' => 'https://images.unsplash.com/photo-1521572163474-6864f9cf17ab?w=800',"
    ; "        'image_name' => 'premium-tshirt.jpg'"
    ; "    ),"
    ; "    array("
    ; "        'name' => 'Wireless Bluetooth Headphones',"
    ; "        'description' => 'Experience crystal-clear audio with these premium wireless Bluetooth headphones. Features noise cancellation and 30-hour battery life.',"
    ; "        'short_description' => 'Premium wireless headphones with noise cancellation',"
    ; "        'regular_price' => '149.99',"
    ; "        'sale_price' => '119.99',"
    ; "        'sku' => 'HEADPHONES-001',"
    ; "        'stock_status' => 'instock',"
    ; "        'categories' => array('Electronics', 'Audio'),"
    ; "        'image_url' => 'https://images.unsplash.com/photo-1505740420928-5e560c06d30e?w=800',"
    ; "        'image_name' => 'wireless-headphones.jpg'"
    ; "    ),"
    ; "    array("
    ; "        'name' => 'Organic Coffee Beans - 1kg',"
    ; "        'description' => 'Premium organic coffee beans sourced from sustainable farms. Medium roast with notes of chocolate and caramel.',"
    ; "        'short_description' => 'Premium organic coffee beans',"
    ; "        'regular_price' => '34.99',"
    ; "        'sale_price' => '',"
    ; "        'sku' => 'COFFEE-001',"
    ; "        'stock_status' => 'instock',"
    ; "        'categories' => array('Food & Beverage', 'Coffee'),"
    ; "        'image_url' => 'https://images.unsplash.com/photo-1559056199-641a0ac8b55e?w=800',"
    ; "        'image_name' => 'organic-coffee-beans.jpg'"
    ; "    ),"
    ; "    array("
    ; "        'name' => 'Yoga Mat - Extra Thick',"
    ; "        'description' => 'Professional-grade yoga mat with extra thickness for maximum comfort. Non-slip surface and eco-friendly materials.',"
    ; "        'short_description' => 'Extra thick professional yoga mat',"
    ; "        'regular_price' => '49.99',"
    ; "        'sale_price' => '39.99',"
    ; "        'sku' => 'YOGA-MAT-001',"
    ; "        'stock_status' => 'instock',"
    ; "        'categories' => array('Sports & Fitness', 'Yoga'),"
    ; "        'image_url' => 'https://images.unsplash.com/photo-1601925260368-ae2f83cf8b7f?w=800',"
    ; "        'image_name' => 'yoga-mat.jpg'"
    ; "    ),"
    ; "    array("
    ; "        'name' => 'Stainless Steel Water Bottle',"
    ; "        'description' => 'Keep your drinks cold for 24 hours or hot for 12 hours with this premium stainless steel water bottle.',"
    ; "        'short_description' => 'Insulated stainless steel water bottle',"
    ; "        'regular_price' => '24.99',"
    ; "        'sale_price' => '',"
    ; "        'sku' => 'BOTTLE-001',"
    ; "        'stock_status' => 'instock',"
    ; "        'categories' => array('Home & Kitchen', 'Drinkware'),"
    ; "        'image_url' => 'https://images.unsplash.com/photo-1602143407151-7111542de6e8?w=800',"
    ; "        'image_name' => 'water-bottle.jpg'"
    ; "    ),"
    ; "    array("
    ; "        'name' => 'Leather Wallet - RFID Protected',"
    ; "        'description' => 'Genuine leather wallet with RFID protection. Multiple card slots and bill compartments.',"
    ; "        'short_description' => 'RFID protected leather wallet',"
    ; "        'regular_price' => '59.99',"
    ; "        'sale_price' => '49.99',"
    ; "        'sku' => 'WALLET-001',"
    ; "        'stock_status' => 'instock',"
    ; "        'categories' => array('Accessories', 'Wallets'),"
    ; "        'image_url' => 'https://images.unsplash.com/photo-1627123424574-724758594e93?w=800',"
    ; "        'image_name' => 'leather-wallet.jpg'"
    ; "    )"
    ; ");"
    ; EmptyString
    ; "// Create product categories first"
    ; "$default_categories = array("
    ; "    'Clothing' => 'Fashion and apparel',"
    ; "    'Electronics' => 'Electronic devices and accessories',"
    ; "    'Food & Beverage' => 'Food and drink products',"
    ; "    'Sports & Fitness' => 'Sports equipment and fitness gear',"
    ; "    'Home & Kitchen' => 'Home and kitchen essentials',"
    ; "    'Accessories' => 'Fashion and tech accessories',"
    ; "    'T-Shirts' => 'Comfortable t-shirts',"
    ; "    'Audio' => 'Audio equipment',"
    ; "    'Coffee' => 'Coffee products',"
    ; "    'Yoga' => 'Yoga equipment',"
    ; "    'Drinkware' => 'Bottles and cups',"
    ; "    'Wallets' => 'Wallets and cardholders'"
    ; ");"
    ; EmptyString
    ; "foreach ($default_categories as $name => $description) {"
    ; "    if (!term_exists($name, 'product_cat')) {"
    ; "        wp_insert_term($name, 'product_cat', array("
    ; "            'description' => $description"
    ; "        ));"
    ; "    }"
    ; "}"
    ; EmptyString
    ; "$created_count = 0;"
    ; "$failed_count = 0;"
    ; "$images_attached = 0;"
    ; EmptyString
    ; "foreach ($sample_products as $product_data) {"
    ; "    try {"
    ; "        // Create product"
    ; "        $product = new WC_Product_Simple();"
    ; EmptyString
    ; "        $product->set_name($product_data['name']);"
    ; "        $product->set_description($product_data['description']);"
    ; "        $product->set_short_description($product_data['short_description']);"
    ; "        $product->set_regular_price($product_data['regular_price']);"
    ; EmptyString
    ; "        if (!empty($product_data['sale_price'])) {"
    ; "            $product->set_sale_price($product_data['sale_price']);"
    ; "        }"
    ; EmptyString
    ; "        $product->set_sku($product_data['sku']);"
    ; "        $product->set_stock_status($product_data['stock_status']);"
    ; "        $product->set_manage_stock(false);"
    ; "        $product->set_status('publish');"
    ; EmptyString
    ; "        // Set categories"
    ; "        $category_ids = array();"
    ; "        foreach ($product_data['categories'] as $category_name) {"
    ; "            $term = get_term_by('name', $category_name, 'product_cat');"
    ; "            if (!$term) {"
    ; "                $term_data = wp_insert_term($category_name, 'product_cat');"
    ; "                if (!is_wp_error($term_data)) {"
    ; "                    $category_ids[] = $term_data['term_id'];"
    ; "                }"
    ; "            } else {"
    ; "                $category_ids[] = $term->term_id;"
    ; "            }"
    ; "        }"
    ; "        $product->set_category_ids($category_ids);"
    ; EmptyString
    ; "        // Save product first to get ID"
    ; "        $product_id = $product->save();"
    ; EmptyString
    ; "        if ($product_id) {"
    ; "            $created_count++;"
    ; EmptyString
    ; "            // Download and attach the image"
    ; "            if (!empty($product_data['image_url'])) {"
    ; "                $attachment_id = attach_product_thumbnail("
    ; "                    $product_data['image_url'],"
    ; "                    $product_id,"
    ; "                    $product_data['image_name']"
    ; "                );"
    ; EmptyString
    ; "                if ($attachment_id) {"
    ; "                    $images_attached++;"
    ; EmptyString
    ; "                    // Also set it as the product image in WooCommerce"
    ; "                    $product = wc_get_product($product_id);"
    ; "                    $product->set_image_id($attachment_id);"
    ; "                    $product->save();"
    ; "                }"
    ; "            }"
    ; "        }"
    ; EmptyString
    ; "    } catch (Exception $e) {"
    ; "        $failed_count++;"
    ; "        error_log('Failed to create product: ' . $e->getMessage());"
    ; "    }"
    ; "}"
    ; EmptyString
    ; ("echo " +:+ dq +:+ "Sample product import completed. Created $created_count products with $images_attached images attached." +:+ dq +:+ ";")
    ; EmptyString
    ; "if ($failed_count > 0) {"
    ; ("    echo " +:+ dq +:+ " Failed to create $failed_count products." +:+ dq +:+ ";")
    ; "}"
    ; EmptyString
    ; "// Flush rewrite rules to ensure product permalinks work"
    ; "flush_rewrite_rules();"
    ; "?>"
    ].


Definition importHelperPath : string := "/wp-content/mu-plugins/import-products.php".

(** The [steps] array of the object literal [blueprint]. *)
Definition initialSteps (siteName : string) (additionalPlugins : list string)
    : list BlueprintStep :=
  [ InstallPlugin (Some (directoryPlugin "woocommerce")) None None
  ; InstallPlugin (Some (directoryPlugin "query-monitor")) None None ]
  ++ map (fun plugin => InstallPlugin (Some (directoryPlugin plugin)) None None)
       additionalPlugins
  ++ [ ActivatePlugin "woocommerce/woocommerce.php" None
     ; ActivatePlugin "query-monitor/query-monitor.php" None ]
  ++ map (fun plugin => ActivatePlugin (plugin +:+ "/" +:+ plugin +:+ ".php") None)
       additionalPlugins
  ++ [ Mkdir "/wp-content/mu-plugins"
     ; WriteFile "/wp-content/mu-plugins/rewrite.php" (inl rewritePhp)
     ; SetSiteOptions (wooCommerceSiteOptions siteName)
     ; WriteFile "/wp-content/mu-plugins/debug-config.php" (inl debugConfigPhp) ].

(** The three steps pushed when products are provided. *)
Definition productImportSteps (products : list ProductImport) : list BlueprintStep :=
  [ WriteFile importHelperPath (inl (generateProductImportScript products))
  ; RunPHP "<?php require_once(ABSPATH . 'wp-content/mu-plugins/import-products.php'); ?>"
  ; RunPHP "<?php unlink(ABSPATH . 'wp-content/mu-plugins/import-products.php'); ?>" ].

(** The step pushed last. *)
Definition playgroundHelpersStep : BlueprintStep :=
  WriteFile "/wp-content/mu-plugins/playground-helpers.php" (inl playgroundHelpersPhp).

(** [generateWooCommerceBlueprint]: the destructuring defaults, the object
    literal, then the [push] stages on [blueprint.steps]. *)
Definition generateWooCommerceBlueprint (options : BlueprintGeneratorOptions) : Blueprint :=
  let siteName := default "My WooCommerce Store" (opt_siteName options) in
  let products := default [] (opt_products options) in
  let landingPage := default "/wp-admin/" (opt_landingPage options) in
  let php := default "8.0" (opt_php options) in
  let wp := default "latest" (opt_wp options) in
  let additionalPlugins := default [] (opt_additionalPlugins options) in
  let additionalSteps := default [] (opt_additionalSteps options) in
  let steps := initialSteps siteName additionalPlugins in
  (* Add product import steps if products are provided *)
  let steps :=
    if (0 <? Z.of_nat (length products))%Z
    then steps ++ productImportSteps products
    else steps ++ [ RunPHP sampleProductsCode ] in
  (* Add any additional custom steps *)
  let steps :=
    if (0 <? Z.of_nat (length additionalSteps))%Z
    then steps ++ additionalSteps
    else steps in
  (* Add a helpful mu-plugin for development *)
  let steps := steps ++ [ playgroundHelpersStep ] in
  {| schema := Some "https://playground.wordpress.net/blueprint-schema.json";
     landingPage := Some landingPage;
     login := Some (LoginBool true);
     preferredVersions := Some {| pv_php := Some php; pv_wp := Some wp |};
     phpExtensionBundles := Some ["kitchen-sink"];
     features := Some {| networking := Some true |};
     steps := Some steps;
     constants := None;
     plugins := None;
     themes := None;
     siteOptions := None |}.

End Generator.

(** ** The generator revision for [@wp-playground/cli]

    The same module at a later revision: a core-readiness run step comes
    first, plugins are given as [pluginData], query-monitor is gone, files
    live under [/wordpress/wp-content], and a table-creation run step follows
    the initial steps. *)

Module PlaygroundGenerator.


(** The PHP text of the template literal returned by generateProductImportScript (the text before the products array). *)
Definition importScriptHeader : string :=
  unlines
    [ "<?php"
    ; "// Ensure WordPress is loaded"
    ; "if (!defined('ABSPATH')) {"
    ; "    // Try to load WordPress - this handles different environments"
    ; "    if (file_exists('/wordpress/wp-load.php')) {"
    ; "        require_once('/wordpress/wp-load.php');"
    ; "    } elseif (file_exists(dirname(__FILE__) . '/../../wp-load.php')) {"
    ; "        require_once(dirname(__FILE__) . '/../../wp-load.php');"
    ; "    } elseif (file_exists(dirname(__FILE__) . '/../../../wp-load.php')) {"
    ; "        require_once(dirname(__FILE__) . '/../../../wp-load.php');"
    ; "    } else {"
    ; "        error_log('Could not find wp-load.php');"
    ; "        exit(1);"
    ; "    }"
    ; "}"
    ; EmptyString
    ; "// Wait for WooCommerce to be fully loaded"
    ; "if (!class_exists('WC_Product')) {"
    ; "    error_log('WooCommerce is not active, skipping product import');"
    ; "    exit(0);"
    ; "}"
    ; EmptyString
    ; "// Include WordPress media functions"
    ; "require_once(ABSPATH . 'wp-admin/includes/media.php');"
    ; "require_once(ABSPATH . 'wp-admin/includes/file.php');"
    ; "require_once(ABSPATH . 'wp-admin/includes/image.php');"
    ; EmptyString
    ; "// Helper function to download and attach image to product"
    ; "function attach_product_thumbnail($image_url, $product_id, $filename = '') {"
    ; "    if (empty($image_url)) {"
    ; "        return false;"
    ; "    }"
    ; EmptyString
    ; "    // Try to download the image"
    ; "    $tmp = download_url($image_url);"
    ; EmptyString
    ; "    // If download_url fails, try using curl as fallback"
    ; "    if (is_wp_error($tmp)) {"
    ; "        error_log('download_url failed for ' . $image_url . ': ' . $tmp->get_error_message());"
    ; EmptyString
    ; "        // Try curl as fallback"
    ; "        if (function_exists('curl_init')) {"
    ; "            $tmp_file = wp_tempnam($filename);"
    ; "            $ch = curl_init($image_url);"
    ; "            $fp = fopen($tmp_file, 'wb');"
    ; EmptyString
    ; "            curl_setopt($ch, CURLOPT_FILE, $fp);"
    ; "            curl_setopt($ch, CURLOPT_HEADER, 0);"
    ; "            curl_setopt($ch, CURLOPT_FOLLOWLOCATION, true);"
    ; "            curl_setopt($ch, CURLOPT_SSL_VERIFYPEER, false);"
    ; "            curl_setopt($ch, CURLOPT_SSL_VERIFYHOST, false);"
    ; "            curl_setopt($ch, CURLOPT_TIMEOUT, 60);"
    ; EmptyString
    ; "            $result = curl_exec($ch);"
    ; "            $http_code = curl_getinfo($ch, CURLINFO_HTTP_CODE);"
    ; "            curl_close($ch);"
    ; "            fclose($fp);"
    ; EmptyString
    ; "            if ($result === false || $http_code !== 200) {"
    ; "                @unlink($tmp_file);"
    ; "                error_log('Curl download failed for ' . $image_url);"
    ; "                return false;"
    ; "            }"
    ; EmptyString
    ; "            $tmp = $tmp_file;"
    ; "        } else {"
    ; "            error_log('No curl available, skipping image download');"
    ; "            return false;"
    ; "        }"
    ; "    }"
    ; EmptyString
    ; "    // Set up file array"
    ; "    $file_array = array("
    ; "        'name' => $filename ?: basename($image_url),"
    ; "        'tmp_name' => $tmp"
    ; "    );"
    ; EmptyString
    ; "    // If filename doesn't have an extension, add one based on mime type"
    ; "    if (!preg_match('/.(jpg|jpeg|png|gif|webp)$/i', $file_array['name'])) {"
    ; "        $file_array['name'] = $file_array['name'] . '.jpg';"
    ; "    }"
    ; EmptyString
    ; "    // Upload the image and attach it to the product"
    ; "    $attachment_id = media_handle_sideload($file_array, $product_id);"
    ; EmptyString
    ; "    // Clean up temp file"
    ; "    @unlink($tmp);"
    ; EmptyString
    ; "    if (is_wp_error($attachment_id)) {"
    ; "        error_log('Failed to create attachment: ' . $attachment_id->get_error_message());"
    ; "        return false;"
    ; "    }"
    ; EmptyString
    ; "    // Set as product thumbnail"
    ; "    set_post_thumbnail($product_id, $attachment_id);"
    ; EmptyString
    ; "    return $attachment_id;"
    ; "}"
    ; EmptyString
    ; "$products_data = array("
    ].


(** The PHP text of the template literal returned by generateProductImportScript (the text after the products array). *)
Definition importScriptFooter : string :=
  unlines
    [ ");"
    ; EmptyString
    ; "$imported_count = 0;"
    ; "$images_imported = 0;"
    ; EmptyString
    ; "foreach ($products_data as $product_data) {"
    ; "    try {"
    ; "        $product = new WC_Product_Simple();"
    ; EmptyString
    ; "        $product->set_name($product_data['name']);"
    ; "        $product->set_description($product_data['description']);"
    ; "        $product->set_short_description($product_data['short_description']);"
    ; "        $product->set_regular_price($product_data['regular_price']);"
    ; EmptyString
    ; "        if (!empty($product_data['sale_price'])) {"
    ; "            $product->set_sale_price($product_data['sale_price']);"
    ; "        }"
    ; EmptyString
    ; "        if (!empty($product_data['sku'])) {"
    ; "            $product->set_sku($product_data['sku']);"
    ; "        }"
    ; EmptyString
    ; "        $product->set_stock_status($product_data['stock_status']);"
    ; EmptyString
    ; "        // Set categories"
    ; "        if (!empty($product_data['categories'])) {"
    ; "            $category_ids = array();"
    ; "            foreach ($product_data['categories'] as $category_name) {"
    ; "                $term = get_term_by('name', $category_name, 'product_cat');"
    ; "                if (!$term) {"
    ; "                    $term = wp_insert_term($category_name, 'product_cat');"
    ; "                    if (!is_wp_error($term)) {"
    ; "                        $category_ids[] = $term['term_id'];"
    ; "                    }"
    ; "                } else {"
    ; "                    $category_ids[] = $term->term_id;"
    ; "                }"
    ; "            }"
    ; "            $product->set_category_ids($category_ids);"
    ; "        }"
    ; EmptyString
    ; "        // Save the product first to get the ID"
    ; "        $product_id = $product->save();"
    ; "        if ($product_id) {"
    ; "            $imported_count++;"
    ; EmptyString
    ; "            // Import images"
    ; "            if (!empty($product_data['images'])) {"
    ; "                $gallery_ids = array();"
    ; "                $is_first = true;"
    ; EmptyString
    ; "                foreach ($product_data['images'] as $image_url) {"
    ; "                    if (empty($image_url)) continue;"
    ; EmptyString
    ; "                    // Set first image as featured, others as gallery"
    ; "                    $attachment_id = attach_product_thumbnail($image_url, $product_id, $is_first ? 'product-featured.jpg' : 'product-gallery.jpg');"
    ; EmptyString
    ; "                    if ($attachment_id && !$is_first) {"
    ; "                        $gallery_ids[] = $attachment_id;"
    ; "                    }"
    ; EmptyString
    ; "                    if ($attachment_id) {"
    ; "                        $images_imported++;"
    ; "                    }"
    ; EmptyString
    ; "                    $is_first = false;"
    ; EmptyString
    ; "                    // Limit to 5 images per product to avoid timeout"
    ; "                    if (count($gallery_ids) >= 4) {"
    ; "                        break;"
    ; "                    }"
    ; "                }"
    ; EmptyString
    ; "                // Set gallery images"
    ; "                if (!empty($gallery_ids)) {"
    ; "                    $product = wc_get_product($product_id);"
    ; "                    $product->set_gallery_image_ids($gallery_ids);"
    ; "                    $product->save();"
    ; "                }"
    ; "            }"
    ; "        }"
    ; "    } catch (Exception $e) {"
    ; "        error_log('Failed to import product: ' . $e->getMessage());"
    ; "    }"
    ; "}"
    ; EmptyString
    ; ("echo " +:+ dq +:+ "Successfully imported $imported_count products with $images_imported images!" +:+ dq +:+ ";")
    ; "?>"
    ].



(** [generateProductImportScript]: the products array spliced into the
    script template. *)
Definition generateProductImportScript (products : list ProductImport) : string :=
  importScriptHeader +:+ nl +:+ productsPhpArray products +:+ nl +:+ importScriptFooter.

(** Code of the first run step, which checks that WordPress core is loaded. *)
Definition coreReadyCode : string :=
  unlines
    [ "<?php"
    ; "// This ensures WordPress core is fully loaded before we proceed"
    ; "// with plugin installations and activations"
    ; EmptyString
    ; "// Load WordPress if not already loaded"
    ; "if (!defined('ABSPATH')) {"
    ; "    if (file_exists('/wordpress/wp-load.php')) {"
    ; "        require_once '/wordpress/wp-load.php';"
    ; "    } else {"
    ; ("        echo " +:+ dq +:+ "WordPress not found at expected location." +:+ dq +:+ ";")
    ; "        exit(1);"
    ; "    }"
    ; "}"
    ; EmptyString
    ; "// Verify database connection"
    ; "global $wpdb;"
    ; "if (!$wpdb->check_connection()) {"
    ; ("    echo " +:+ dq +:+ "Database connection failed." +:+ dq +:+ ";")
    ; "    exit(1);"
    ; "}"
    ; EmptyString
    ; "// Ensure basic WordPress tables exist"
    ; "$required_tables = ['posts', 'users', 'options', 'terms', 'term_taxonomy', 'term_relationships'];"
    ; "foreach ($required_tables as $table) {"
    ; "    $table_name = $wpdb->prefix . $table;"
    ; ("    $result = $wpdb->get_var(" +:+ dq +:+ "SHOW TABLES LIKE '$table_name'" +:+ dq +:+ ");")
    ; "    if (!$result) {"
    ; ("        echo " +:+ dq +:+ "Required table $table_name is missing." +:+ dq +:+ ";")
    ; "        exit(1);"
    ; "    }"
    ; "}"
    ; EmptyString
    ; ("echo " +:+ dq +:+ "WordPress core initialized and database verified." +:+ dq +:+ ";")
    ; "?>"
    ].


(** Code of the run step that creates the WooCommerce tables. *)
Definition wcTablesCode : string :=
  unlines
    [ "<?php"
    ; "// Ensure WooCommerce database tables are created"
    ; "require_once '/wordpress/wp-load.php';"
    ; EmptyString
    ; "// Check if WooCommerce is active"
    ; "if (!class_exists('WooCommerce')) {"
    ; "    echo 'WooCommerce not found, skipping table creation.';"
    ; "    exit(0);"
    ; "}"
    ; EmptyString
    ; "// Get WooCommerce instance"
    ; "$woocommerce = WC();"
    ; EmptyString
    ; "// Install WooCommerce tables if needed"
    ; "if (class_exists('WC_Install')) {"
    ; "    WC_Install::check_version();"
    ; "    WC_Install::install();"
    ; "    echo 'WooCommerce tables checked/created.';"
    ; "}"
    ; EmptyString
    ; "// Ensure product taxonomies are registered"
    ; "if (function_exists('wc_register_default_taxonomies')) {"
    ; "    wc_register_default_taxonomies();"
    ; "    echo ' Taxonomies registered.';"
    ; "}"
    ; EmptyString
    ; "// Flush rewrite rules"
    ; "flush_rewrite_rules();"
    ; "echo ' Ready for products.';"
    ; "?>"
    ].


(** Code of the run step that creates the built-in sample products. *)
Definition sampleProductsCode : string :=
  unlines
    [ "<?php"
    ; "// This script creates sample WooCommerce products without requiring WXR import"
    ; "// It runs after WooCommerce is activated and ready"
    ; EmptyString
    ; "// Load WordPress"
    ; "require_once '/wordpress/wp-load.php';"
    ; EmptyString
    ; "// Wait for WooCommerce to be fully loaded"
    ; "if (!class_exists('WC_Product')) {"
    ; "    // Try to load WooCommerce manually if not already loaded"
    ; "    $wc_plugin_file = '/wordpress/wp-content/plugins/woocommerce/woocommerce.php';"
    ; "    if (file_exists($wc_plugin_file)) {"
    ; "        require_once $wc_plugin_file;"
    ; "    }"
    ; "}"
    ; EmptyString
    ; "// Double-check WooCommerce is active"
    ; "if (!class_exists('WC_Product')) {"
    ; "    echo 'WooCommerce is not active. Skipping product creation.';"
    ; "    exit(0);"
    ; "}"
    ; EmptyString
    ; "// Load required WordPress functions for media handling"
    ; "require_once(ABSPATH . 'wp-admin/includes/media.php');"
    ; "require_once(ABSPATH . 'wp-admin/includes/file.php');"
    ; "require_once(ABSPATH . 'wp-admin/includes/image.php');"
    ; EmptyString
    ; "// Helper function to download and attach image to product"
    ; "function attach_product_thumbnail($image_url, $product_id, $filename = '') {"
    ; "    if (empty($image_url)) {"
    ; "        return false;"
    ; "    }"
    ; EmptyString
    ; "    // Download the image"
    ; "    $tmp = download_url($image_url);"
    ; "    if (is_wp_error($tmp)) {"
    ; "        return false;"
    ; "    }"
    ; EmptyString
    ; "    // Set up file array"
    ; "    $file_array = array("
    ; "        'name' => $filename ?: basename($image_url),"
    ; "        'tmp_name' => $tmp"
    ; "    );"
    ; EmptyString
    ; "    // If filename doesn't have an extension, add one based on mime type"
    ; "    if (!preg_match('/.(jpg|jpeg|png|gif|webp)$/i', $file_array['name'])) {"
    ; "        $file_array['name'] = $file_array['name'] . '.jpg';"
    ; "    }"
    ; EmptyString
    ; "    // Upload the image and attach it to the product"
    ; "    $attachment_id = media_handle_sideload($file_array, $product_id);"
    ; EmptyString
    ; "    // Clean up temp file"
    ; "    @unlink($tmp);"
    ; EmptyString
    ; "    if (is_wp_error($attachment_id)) {"
    ; "        return false;"
    ; "    }"
    ; EmptyString
    ; "    // Set as product thumbnail"
    ; "    set_post_thumbnail($product_id, $attachment_id);"
    ; EmptyString
    ; "    return $attachment_id;"
    ; "}"
    ; EmptyString
    ; "// Sample product data"
    ; "$sample_products = array("
    ; "    array("
    ; "        'name' => 'Premium Quality T-Shirt',"
    ; "        'description' => 'This premium quality t-shirt is made from 100% organic cotton. Comfortable, durable, and stylish.',"
    ; "        'short_description' => 'Comfortable organic cotton t-shirt',"
    ; "        'regular_price' => '29.99',"
    ; "        'sale_price' => '24.99',"
    ; "        'sku' => 'TSHIRT-001',"
    ; "        'stock_status' => 'instock',"
    ; "        'categories' => array('Clothing', 'T-Shirts'),"
    ; "        'image_url' => 'https://via.placeholder.com/800x800/4A90E2/FFFFFF?text=T-Shirt',"
    ; "        'image_name' => 'premium-tshirt.jpg'"
    ; "    ),"
    ; "    array("
    ; "        'name' => 'Wireless Bluetooth Headphones',"
    ; "        'description' => 'Experience crystal-clear audio with these premium wireless Bluetooth headphones. Features noise cancellation and 30-hour battery life.',"
    ; "        'short_description' => 'Premium wireless headphones with noise cancellation',"
    ; "        'regular_price' => '149.99',"
    ; "        'sale_price' => '119.99',"
    ; "        'sku' => 'HEADPHONES-001',"
    ; "        'stock_status' => 'instock',"
    ; "        'categories' => array('Electronics', 'Audio'),"
    ; "        'image_url' => 'https://via.placeholder.com/800x800/E24A4A/FFFFFF?text=Headphones',"
    ; "        'image_name' => 'wireless-headphones.jpg'"
    ; "    ),"
    ; "    array("
    ; "        'name' => 'Organic Coffee Beans - 1kg',"
    ; "        'description' => 'Premium organic coffee beans sourced from sustainable farms. Medium roast with notes of chocolate and caramel.',"
    ; "        'short_description' => 'Premium organic coffee beans',"
    ; "        'regular_price' => '34.99',"
    ; "        'sale_price' => '',"
    ; "        'sku' => 'COFFEE-001',"
    ; "        'stock_status' => 'instock',"
    ; "        'categories' => array('Food & Beverage', 'Coffee'),"
    ; "        'image_url' => 'https://via.placeholder.com/800x800/8B4513/FFFFFF?text=Coffee',"
    ; "        'image_name' => 'organic-coffee-beans.jpg'"
    ; "    ),"
    ; "    array("
    ; "        'name' => 'Yoga Mat - Extra Thick',"
    ; "        'description' => 'Professional-grade yoga mat with extra thickness for maximum comfort. Non-slip surface and eco-friendly materials.',"
    ; "        'short_description' => 'Extra thick professional yoga mat',"
    ; "        'regular_price' => '49.99',"
    ; "        'sale_price' => '39.99',"
    ; "        'sku' => 'YOGA-MAT-001',"
    ; "        'stock_status' => 'instock',"
    ; "        'categories' => array('Sports & Fitness', 'Yoga'),"
    ; "        'image_url' => 'https://via.placeholder.com/800x800/4AE290/FFFFFF?text=Yoga+Mat',"
    ; "        'image_name' => 'yoga-mat.jpg'"
    ; "    ),"
    ; "    array("
    ; "        'name' => 'Stainless Steel Water Bottle',"
    ; "        'description' => 'Keep your drinks cold for 24 hours or hot for 12 hours with this premium stainless steel water bottle.',"
    ; "        'short_description' => 'Insulated stainless steel water bottle',"
    ; "        'regular_price' => '24.99',"
    ; "        'sale_price' => '',"
    ; "        'sku' => 'BOTTLE-001',"
    ; "        'stock_status' => 'instock',"
    ; "        'categories' => array('Home & Kitchen', 'Drinkware'),"
    ; "        'image_url' => 'https://via.placeholder.com/800x800/4AC7E2/FFFFFF?text=Water+Bottle',"
    ; "        'image_name' => 'water-bottle.jpg'"
    ; "    ),"
    ; "    array("
    ; "        'name' => 'Leather Wallet - RFID Protected',"
    ; "        'description' => 'Genuine leather wallet with RFID protection. Multiple card slots and bill compartments.',"
    ; "        'short_description' => 'RFID protected leather wallet',"
    ; "        'regular_price' => '59.99',"
    ; "        'sale_price' => '49.99',"
    ; "        'sku' => 'WALLET-001',"
    ; "        'stock_status' => 'instock',"
    ; "        'categories' => array('Accessories', 'Wallets'),"
    ; "        'image_url' => 'https://via.placeholder.com/800x800/8B6914/FFFFFF?text=Wallet',"
    ; "        'image_name' => 'leather-wallet.jpg'"
    ; "    )"
    ; ");"
    ; EmptyString
    ; "// Create product categories first"
    ; "$default_categories = array("
    ; "    'Clothing' => 'Fashion and apparel',"
    ; "    'Electronics' => 'Electronic devices and accessories',"
    ; "    'Food & Beverage' => 'Food and drink products',"
    ; "    'Sports & Fitness' => 'Sports equipment and fitness gear',"
    ; "    'Home & Kitchen' => 'Home and kitchen essentials',"
    ; "    'Accessories' => 'Fashion and tech accessories',"
    ; "    'T-Shirts' => 'Comfortable t-shirts',"
    ; "    'Audio' => 'Audio equipment',"
    ; "    'Coffee' => 'Coffee products',"
    ; "    'Yoga' => 'Yoga equipment',"
    ; "    'Drinkware' => 'Bottles and cups',"
    ; "    'Wallets' => 'Wallets and cardholders'"
    ; ");"
    ; EmptyString
    ; "foreach ($default_categories as $name => $description) {"
    ; "    if (!term_exists($name, 'product_cat')) {"
    ; "        wp_insert_term($name, 'product_cat', array("
    ; "            'description' => $description"
    ; "        ));"
    ; "    }"
    ; "}"
    ; EmptyString
    ; "$created_count = 0;"
    ; "$failed_count = 0;"
    ; "$images_attached = 0;"
    ; EmptyString
    ; "foreach ($sample_products as $product_data) {"
    ; "    try {"
    ; "        // Create product"
    ; "        $product = new WC_Product_Simple();"
    ; EmptyString
    ; "        $product->set_name($product_data['name']);"
    ; "        $product->set_description($product_data['description']);"
    ; "        $product->set_short_description($product_data['short_description']);"
    ; "        $product->set_regular_price($product_data['regular_price']);"
    ; EmptyString
    ; "        if (!empty($product_data['sale_price'])) {"
    ; "            $product->set_sale_price($product_data['sale_price']);"
    ; "        }"
    ; EmptyString
    ; "        $product->set_sku($product_data['sku']);"
    ; "        $product->set_stock_status($product_data['stock_status']);"
    ; "        $product->set_manage_stock(false);"
    ; "        $product->set_status('publish');"
    ; EmptyString
    ; "        // Set categories"
    ; "        $category_ids = array();"
    ; "        foreach ($product_data['categories'] as $category_name) {"
    ; "            $term = get_term_by('name', $category_name, 'product_cat');"
    ; "            if (!$term) {"
    ; "                $term_data = wp_insert_term($category_name, 'product_cat');"
    ; "                if (!is_wp_error($term_data)) {"
    ; "                    $category_ids[] = $term_data['term_id'];"
    ; "                }"
    ; "            } else {"
    ; "                $category_ids[] = $term->term_id;"
    ; "            }"
    ; "        }"
    ; "        $product->set_category_ids($category_ids);"
    ; EmptyString
    ; "        // Save product first to get ID"
    ; "        $product_id = $product->save();"
    ; EmptyString
    ; "        if ($product_id) {"
    ; "            $created_count++;"
    ; EmptyString
    ; "            // Download and attach the image"
    ; "            if (!empty($product_data['image_url'])) {"
    ; "                $attachment_id = attach_product_thumbnail("
    ; "                    $product_data['image_url'],"
    ; "                    $product_id,"
    ; "                    $product_data['image_name']"
    ; "                );"
    ; EmptyString
    ; "                if ($attachment_id) {"
    ; "                    $images_attached++;"
    ; EmptyString
    ; "                    // Also set it as the product image in WooCommerce"
    ; "                    $product = wc_get_product($product_id);"
    ; "                    $product->set_image_id($attachment_id);"
    ; "                    $product->save();"
    ; "                }"
    ; "            }"
    ; "        }"
    ; EmptyString
    ; "    } catch (Exception $e) {"
    ; "        $failed_count++;"
    ; "        error_log('Failed to create product: ' . $e->getMessage());"
    ; "    }"
    ; "}"
    ; EmptyString
    ; ("echo " +:+ dq +:+ "Sample product import completed. Created $created_count products with $images_attached images attached." +:+ dq +:+ ";")
    ; EmptyString
    ; "if ($failed_count > 0) {"
    ; ("    echo " +:+ dq +:+ " Failed to create $failed_count products." +:+ dq +:+ ";")
    ; "}"
    ; EmptyString
    ; "// Flush rewrite rules to ensure product permalinks work"
    ; "flush_rewrite_rules();"
    ; "?>"
    ].



Definition importHelperPath : string := "/wordpress/wp-content/mu-plugins/import-products.php".

(** The [steps] array of the object literal [blueprint]. *)
Definition initialSteps (siteName : string) (additionalPlugins : list string)
    : list BlueprintStep :=
  [ RunPHP coreReadyCode
  ; InstallPlugin None (Some (directoryPlugin "woocommerce")) None ]
  ++ map (fun plugin => InstallPlugin None (Some (directoryPlugin plugin)) None)
       additionalPlugins
  ++ [ ActivatePlugin "woocommerce/woocommerce.php" None ]
  ++ map (fun plugin => ActivatePlugin (plugin +:+ "/" +:+ plugin +:+ ".php") None)
       additionalPlugins
  ++ [ Mkdir "/wordpress/wp-content/mu-plugins"
     ; WriteFile "/wordpress/wp-content/mu-plugins/rewrite.php" (inl rewritePhp)
     ; SetSiteOptions (wooCommerceSiteOptions siteName)
     ; WriteFile "/wordpress/wp-content/mu-plugins/debug-config.php" (inl debugConfigPhp) ].

(** The three steps pushed when products are provided. *)
Definition productImportSteps (products : list ProductImport) : list BlueprintStep :=
  [ WriteFile importHelperPath (inl (generateProductImportScript products))
  ; RunPHP "<?php require_once('/wordpress/wp-content/mu-plugins/import-products.php'); ?>"
  ; RunPHP "<?php unlink('/wordpress/wp-content/mu-plugins/import-products.php'); ?>" ].

(** The step pushed last. *)
Definition playgroundHelpersStep : BlueprintStep :=
  WriteFile "/wordpress/wp-content/mu-plugins/playground-helpers.php"
    (inl playgroundHelpersPhp).

Definition generateWooCommerceBlueprint (options : BlueprintGeneratorOptions) : Blueprint :=
  let siteName := default "My WooCommerce Store" (opt_siteName options) in
  let products := default [] (opt_products options) in
  let landingPage := default "/wp-admin/" (opt_landingPage options) in
  let php := default "8.0" (opt_php options) in
  let wp := default "latest" (opt_wp options) in
  let additionalPlugins := default [] (opt_additionalPlugins options) in
  let additionalSteps := default [] (opt_additionalSteps options) in
  let steps := initialSteps siteName additionalPlugins in
  (* Ensure WooCommerce tables are created *)
  let steps := steps ++ [ RunPHP wcTablesCode ] in
  (* Add product import steps if products are provided *)
  let steps :=
    if (0 <? Z.of_nat (length products))%Z
    then steps ++ productImportSteps products
    else steps ++ [ RunPHP sampleProductsCode ] in
  (* Add any additional custom steps *)
  let steps :=
    if (0 <? Z.of_nat (length additionalSteps))%Z
    then steps ++ additionalSteps
    else steps in
  (* Add a helpful mu-plugin for development *)
  let steps := steps ++ [ playgroundHelpersStep ] in
  {| schema := Some "https://playground.wordpress.net/blueprint-schema.json";
     landingPage := Some landingPage;
     login := Some (LoginBool true);
     preferredVersions := Some {| pv_php := Some php; pv_wp := Some wp |};
     phpExtensionBundles := Some ["kitchen-sink"];
     features := Some {| networking := Some true |};
     steps := Some steps;
     constants := None;
     plugins := None;
     themes := None;
     siteOptions := None |}.

End PlaygroundGenerator.


(** ** [src/cli/index.ts]: [mergeBlueprints] *)

Module Cli.

(** Assignments [merged.field = v] on the copy [{ ...base }]. *)
Definition set_schema (v : option string) (b : Blueprint) : Blueprint :=
  {| schema := v; landingPage := landingPage b;
     preferredVersions := preferredVersions b;
     phpExtensionBundles := phpExtensionBundles b; features := features b;
     login := login b; steps := steps b; constants := constants b;
     plugins := plugins b; themes := themes b; siteOptions := siteOptions b |}.

Definition set_landingPage (v : option string) (b : Blueprint) : Blueprint :=
  {| schema := schema b; landingPage := v;
     preferredVersions := preferredVersions b;
     phpExtensionBundles := phpExtensionBundles b; features := features b;
     login := login b; steps := steps b; constants := constants b;
     plugins := plugins b; themes := themes b; siteOptions := siteOptions b |}.

Definition set_preferredVersions (v : option PreferredVersions) (b : Blueprint) : Blueprint :=
  {| schema := schema b; landingPage := landingPage b;
     preferredVersions := v;
     phpExtensionBundles := phpExtensionBundles b; features := features b;
     login := login b; steps := steps b; constants := constants b;
     plugins := plugins b; themes := themes b; siteOptions := siteOptions b |}.

Definition set_phpExtensionBundles (v : option (list string)) (b : Blueprint) : Blueprint :=
  {| schema := schema b; landingPage := landingPage b;
     preferredVersions := preferredVersions b;
     phpExtensionBundles := v; features := features b;
     login := login b; steps := steps b; constants := constants b;
     plugins := plugins b; themes := themes b; siteOptions := siteOptions b |}.

Definition set_features (v : option Features) (b : Blueprint) : Blueprint :=
  {| schema := schema b; landingPage := landingPage b;
     preferredVersions := preferredVersions b;
     phpExtensionBundles := phpExtensionBundles b; features := v;
     login := login b; steps := steps b; constants := constants b;
     plugins := plugins b; themes := themes b; siteOptions := siteOptions b |}.

Definition set_login (v : option LoginSetting) (b : Blueprint) : Blueprint :=
  {| schema := schema b; landingPage := landingPage b;
     preferredVersions := preferredVersions b;
     phpExtensionBundles := phpExtensionBundles b; features := features b;
     login := v; steps := steps b; constants := constants b;
     plugins := plugins b; themes := themes b; siteOptions := siteOptions b |}.

Definition set_plugins (v : option (list PluginRef)) (b : Blueprint) : Blueprint :=
  {| schema := schema b; landingPage := landingPage b;
     preferredVersions := preferredVersions b;
     phpExtensionBundles := phpExtensionBundles b; features := features b;
     login := login b; steps := steps b; constants := constants b;
     plugins := v; themes := themes b; siteOptions := siteOptions b |}.

Definition set_themes (v : option (list ThemeRef)) (b : Blueprint) : Blueprint :=
  {| schema := schema b; landingPage := landingPage b;
     preferredVersions := preferredVersions b;
     phpExtensionBundles := phpExtensionBundles b; features := features b;
     login := login b; steps := steps b; constants := constants b;
     plugins := plugins b; themes := v; siteOptions := siteOptions b |}.

Definition set_siteOptions (v : option (gmap string JSON)) (b : Blueprint) : Blueprint :=
  {| schema := schema b; landingPage := landingPage b;
     preferredVersions := preferredVersions b;
     phpExtensionBundles := phpExtensionBundles b; features := features b;
     login := login b; steps := steps b; constants := constants b;
     plugins := plugins b; themes := themes b; siteOptions := v |}.

Definition set_constants (v : option (gmap string Scalar)) (b : Blueprint) : Blueprint :=
  {| schema := schema b; landingPage := landingPage b;
     preferredVersions := preferredVersions b;
     phpExtensionBundles := phpExtensionBundles b; features := features b;
     login := login b; steps := steps b; constants := v;
     plugins := plugins b; themes := themes b; siteOptions := siteOptions b |}.

Definition set_steps (v : option (list BlueprintStep)) (b : Blueprint) : Blueprint :=
  {| schema := schema b; landingPage := landingPage b;
     preferredVersions := preferredVersions b;
     phpExtensionBundles := phpExtensionBundles b; features := features b;
     login := login b; steps := v; constants := constants b;
     plugins := plugins b; themes := themes b; siteOptions := siteOptions b |}.

(** [{ ...base, ...custom }] on a property that may be missing: the value of
    [custom] when it has the property, else the value of [base]. *)
Definition spreadProperty {A : Type} (base custom : option A) : option A :=
  match custom with
  | Some v => Some v
  | None => base
  end.

(** [{ ...base.preferredVersions, ...custom.preferredVersions }]; spreading
    [undefined] adds nothing. *)
Definition spreadVersions (base : option PreferredVersions) (custom : PreferredVersions)
    : PreferredVersions :=
  {| pv_php := spreadProperty (base ≫= pv_php) (pv_php custom);
     pv_wp := spreadProperty (base ≫= pv_wp) (pv_wp custom) |}.

Definition spreadFeatures (base : option Features) (custom : Features) : Features :=
  {| networking := spreadProperty (base ≫= networking) (networking custom) |}.

(** [{ ...base, ...custom }] on records used as maps: the entries of [base],
    then the entries of [custom] written over them. *)
Definition spreadMap {V : Type} (base : option (gmap string V)) (custom : gmap string V)
    : gmap string V :=
  custom ∪ default ∅ base.

(** The callback [(v, i, a) => a.indexOf(v) === i]. *)
Definition firstOccurrence (v : string) (i : Z) (a : list string) : bool :=
  (indexOf a v =? i)%Z.

Definition mergeBlueprints (base custom : Blueprint) : Blueprint :=
  let merged := base in
  (* Simple merge for top-level properties *)
  let merged :=
    if truthy (schema custom) then set_schema (schema custom) merged else merged in
  let merged :=
    if truthy (landingPage custom) then set_landingPage (landingPage custom) merged
    else merged in
  (* Merge preferredVersions *)
  let merged :=
    match preferredVersions custom with
    | Some cv =>
        set_preferredVersions (Some (spreadVersions (preferredVersions base) cv)) merged
    | None => merged
    end in
  (* Merge phpExtensionBundles *)
  let merged :=
    match phpExtensionBundles custom with
    | Some cb =>
        set_phpExtensionBundles
          (Some (filter_indexed firstOccurrence
                   (default [] (phpExtensionBundles base) ++ cb)))
          merged
    | None => merged
    end in
  (* Merge features *)
  let merged :=
    match features custom with
    | Some cf => set_features (Some (spreadFeatures (features base) cf)) merged
    | None => merged
    end in
  (* Override login *)
  let merged :=
    match login custom with
    | Some l => set_login (Some l) merged
    | None => merged
    end in
  (* Merge plugins *)
  let merged :=
    match plugins custom with
    | Some cp => set_plugins (Some (default [] (plugins base) ++ cp)) merged
    | None => merged
    end in
  (* Merge themes *)
  let merged :=
    match themes custom with
    | Some ct => set_themes (Some (default [] (themes base) ++ ct)) merged
    | None => merged
    end in
  (* Merge siteOptions *)
  let merged :=
    match siteOptions custom with
    | Some co => set_siteOptions (Some (spreadMap (siteOptions base) co)) merged
    | None => merged
    end in
  (* Merge constants *)
  let merged :=
    match constants custom with
    | Some cc => set_constants (Some (spreadMap (constants base) cc)) merged
    | None => merged
    end in
  (* Append steps *)
  let merged :=
    match steps custom with
    | Some cs => set_steps (Some (default [] (steps base) ++ cs)) merged
    | None => merged
    end in
  merged.

End Cli.

(** ** Vocabulary of the specification *)

(** The step sequence of a document; a document without [steps] has none. *)
Definition stepsOf (b : Blueprint) : list BlueprintStep := default [] (steps b).

(** *** PHP texts *)

Module Php.

(** Reading a single-quoted string literal from just after its opening
    quote: the value the literal denotes and the text that follows its
    closing quote.  Inside the literal backslash-quote denotes a quote,
    backslash-backslash a backslash, and any other backslash stands for
    itself; a text without a closing quote is no literal. *)
Fixpoint singleQuoted (s : string) : option (string * string) :=
  match s with
  | EmptyString => None
  | String c rest =>
      if Ascii.eqb c "'"%char then Some (EmptyString, rest)
      else if Ascii.eqb c "092"%char then
        match rest with
        | EmptyString => None
        | String c' rest' =>
            if Ascii.eqb c' "'"%char || Ascii.eqb c' "092"%char
            then prod_map (String c') id <$> singleQuoted rest'
            else prod_map (String c) id <$> singleQuoted rest
        end
      else prod_map (String c) id <$> singleQuoted rest
  end.

(** The modes of a scan over a script: in the text outside the PHP tags,
    in code, after a slash in code, in a comment that ends with the line, in
    a block comment (and after a star in one), in a single-quoted or
    double-quoted literal (and after a backslash in one). *)
Inductive Mode : Type :=
| Text | Code | Slash | LineComment | BlockComment | BlockStar
| Single | SingleEscape | Double | DoubleEscape.

(** The mode after the character [c], which [rest] follows, is read in code. *)
Definition afterCode (c : ascii) (rest : string) : Mode :=
  if Ascii.eqb c "/"%char then Slash
  else if Ascii.eqb c "#"%char then LineComment
  else if Ascii.eqb c "'"%char then Single
  else if Ascii.eqb c "034"%char then Double
  else if Ascii.eqb c "?"%char && String.prefix ">" rest then Text
  else Code.

(** One character of the scan: the mode after [c], which [rest] follows, is
    read in mode [m].  The opening tag starts the code, the closing tag ends
    it, also from inside a comment that ends with the line. *)
Definition next (m : Mode) (c : ascii) (rest : string) : Mode :=
  match m with
  | Text => if Ascii.eqb c "<"%char && String.prefix "?php" rest then Code else Text
  | Code => afterCode c rest
  | Slash =>
      if Ascii.eqb c "/"%char then LineComment
      else if Ascii.eqb c "*"%char then BlockComment
      else afterCode c rest
  | LineComment =>
      if Ascii.eqb c "010"%char then Code
      else if Ascii.eqb c "?"%char && String.prefix ">" rest then Text
      else LineComment
  | BlockComment => if Ascii.eqb c "*"%char then BlockStar else BlockComment
  | BlockStar =>
      if Ascii.eqb c "/"%char then Code
      else if Ascii.eqb c "*"%char then BlockStar
      else BlockComment
  | Single =>
      if Ascii.eqb c "092"%char then SingleEscape
      else if Ascii.eqb c "'"%char then Code
      else Single
  | SingleEscape => Single
  | Double =>
      if Ascii.eqb c "092"%char then DoubleEscape
      else if Ascii.eqb c "034"%char then Code
      else Double
  | DoubleEscape => Double
  end.

Definition isCode (m : Mode) : bool :=
  match m with
  | Code => true
  | _ => false
  end.

Fixpoint occursFrom (m : Mode) (statement s : string) : bool :=
  match s with
  | EmptyString => false
  | String c rest =>
      isCode m && String.prefix statement s || occursFrom (next m c rest) statement rest
  end.

(** The script holds [statement] as code: the text of [statement] stands in
    the script from a place that is code, not inside a comment, a string
    literal or the text outside the PHP tags. *)
Definition inCode (statement script : string) : bool := occursFrom Text statement script.

(** The path expressions of the run steps: a single-quoted literal, or the
    constant [ABSPATH] joined to one. *)
Inductive PathExpr : Type :=
| Literal (text : string)
| UnderRoot (rel : string).

(** The path an expression denotes when [ABSPATH] is [abspath]. *)
Definition pathValue (abspath : string) (e : PathExpr) : string :=
  match e with
  | Literal text => text
  | UnderRoot rel => abspath +:+ rel
  end.

(** The literal of an expression. *)
Definition pathText (e : PathExpr) : string :=
  match e with
  | Literal text => text
  | UnderRoot rel => rel
  end.

Definition PathExpr_eqb (a b : PathExpr) : bool :=
  match a, b with
  | Literal x, Literal y => String.eqb x y
  | UnderRoot x, UnderRoot y => String.eqb x y
  | _, _ => false
  end.

Fixpoint stripPrefix (p s : string) : option string :=
  match p with
  | EmptyString => Some s
  | String a p' =>
      match s with
      | EmptyString => None
      | String b s' => if Ascii.eqb a b then stripPrefix p' s' else None
      end
  end.

Definition stripSuffix (suffix s : string) : option string :=
  if endsWith s suffix
  then Some (String.substring 0 (String.length s - String.length suffix) s)
  else None.

(** A text that needs no escaping inside a single-quoted literal. *)
Fixpoint plainText (s : string) : bool :=
  match s with
  | EmptyString => true
  | String c rest =>
      negb (Ascii.eqb c "'"%char) && negb (Ascii.eqb c "092"%char) && plainText rest
  end.

Definition parsePath (s : string) : option PathExpr :=
  match stripPrefix "ABSPATH . '" s ≫= stripSuffix "'" with
  | Some rel => if plainText rel then Some (UnderRoot rel) else None
  | None =>
      match stripPrefix "'" s ≫= stripSuffix "'" with
      | Some text => if plainText text then Some (Literal text) else None
      | None => None
      end
  end.

(** The text before the first [c] and the text after it. *)
Fixpoint breakAt (c : ascii) (s : string) : option (string * string) :=
  match s with
  | EmptyString => None
  | String a rest =>
      if Ascii.eqb a c then Some (EmptyString, rest)
      else prod_map (String a) id <$> breakAt c rest
  end.

(** A script that is one call of a function on a path expression and
    nothing else: the function and the expression. *)
Definition parseCall (code : string) : option (string * PathExpr) :=
  match stripPrefix "<?php " code ≫= stripSuffix "); ?>" with
  | Some call =>
      match breakAt "("%char call with
      | Some (fn, arg) =>
          match parsePath arg with
          | Some e => Some (fn, e)
          | None => None
          end
      | None => None
      end
  | None => None
  end.

End Php.

(** *** Steps *)

(** The slug of the wordpress.org plugin directory that an install step
    names, in its [pluginData] or else in its [pluginZipFile]. *)
Definition installedSlug (s : BlueprintStep) : option string :=
  match s with
  | InstallPlugin zip data _ =>
      match (match data with Some d => Some d | None => zip end) with
      | Some r => if String.eqb (resource r) "wordpress.org/plugins" then slug r else None
      | None => None
      end
  | _ => None
  end.

(** A core-readiness run step: its code loads WordPress and checks the
    connection to the database. *)
Definition isCoreReadinessStep (s : BlueprintStep) : bool :=
  match s with
  | RunPHP code =>
      Php.inCode "require_once '/wordpress/wp-load.php';" code
      && Php.inCode "$wpdb->check_connection()" code
  | _ => false
  end.

(** The script of the developer helper: admin bar always on, update checks
    off, a banner in the admin pages, errors logged. *)
Definition developerHelperScript (data : string) : bool :=
  Php.inCode "add_filter('show_admin_bar', '__return_true');" data
  && Php.inCode "add_filter('automatic_updater_disabled', '__return_true');" data
  && Php.inCode "add_action('admin_notices', function() {" data
  && Php.inCode "ini_set('log_errors', 1);" data.

(** The developer-helper write: the playground-helpers mu-plugin. *)
Definition isDeveloperHelperWrite (s : BlueprintStep) : bool :=
  match s with
  | WriteFile p (inl data) =>
      endsWith p "/mu-plugins/playground-helpers.php" && developerHelperScript data
  | _ => false
  end.

(** The file name of the transient import helper. *)
Definition importHelperName : string := "import-products.php".

(** A write-file step whose path ends in the import-helper file name. *)
Definition isImportHelperWrite (s : BlueprintStep) : bool :=
  match s with
  | WriteFile p _ => endsWith p importHelperName
  | _ => false
  end.

(** The path expression on which a run step calls [fn], when the step does
    that and nothing else. *)
Definition calledOn (fn : string) (s : BlueprintStep) : option Php.PathExpr :=
  match s with
  | RunPHP code =>
      match Php.parseCall code with
      | Some (f, e) => if String.eqb f fn then Some e else None
      | None => None
      end
  | _ => None
  end.

(** The file a run step loads; the file a run step deletes. *)
Definition requiredPath (s : BlueprintStep) : option Php.PathExpr := calledOn "require_once" s.
Definition unlinkedPath (s : BlueprintStep) : option Php.PathExpr := calledOn "unlink" s.

(** The transient import helper, relative to the WordPress root. *)
Definition importHelperFile : string := "wp-content/mu-plugins/import-products.php".

(** Three steps next to each other that are a product-import-helper block:
    a write of the helper file, a run step that loads the helper from the
    mu-plugins directory, a run step that deletes the file named by the same
    expression. *)
Definition importHelperBlock (w r d : BlueprintStep) : bool :=
  isImportHelperWrite w
  && match requiredPath r, unlinkedPath d with
     | Some e, Some e' =>
         Php.PathExpr_eqb e e' && endsWith (Php.pathText e) importHelperFile
     | _, _ => false
     end.

(** The same, on one file: when [ABSPATH] is [abspath], the file loaded and
    the file deleted are the file written. *)
Definition importHelperBlockOn (abspath : string) (w r d : BlueprintStep) : bool :=
  isImportHelperWrite w
  && match w, requiredPath r, unlinkedPath d with
     | WriteFile p _, Some e, Some e' =>
         String.eqb (Php.pathValue abspath e) p && String.eqb (Php.pathValue abspath e') p
     | _, _, _ => false
     end.

(** [P] on the three steps that start a sequence. *)
Definition firstWindow (P : BlueprintStep -> BlueprintStep -> BlueprintStep -> bool)
    (l : list BlueprintStep) : bool :=
  match l with
  | w :: r :: d :: _ => P w r d
  | _ => false
  end.

(** Some three steps next to each other satisfy [P]. *)
Fixpoint existsWindow (P : BlueprintStep -> BlueprintStep -> BlueprintStep -> bool)
    (l : list BlueprintStep) : bool :=
  match l with
  | [] => false
  | w :: rest =>
      match rest with
      | r :: d :: _ => P w r d
      | _ => false
      end
      || existsWindow P rest
  end.

Definition hasImportHelperBlock (l : list BlueprintStep) : bool :=
  existsWindow importHelperBlock l.

Definition hasImportHelperBlockOn (abspath : string) (l : list BlueprintStep) : bool :=
  existsWindow (importHelperBlockOn abspath) l.

(** The code of a run step that creates products from a catalogue built into
    the code itself. *)
Definition createsSampleCatalogue (code : string) : bool :=
  Php.inCode "$sample_products = array(" code
  && Php.inCode "foreach ($sample_products as $product_data) {" code
  && Php.inCode "$product = new WC_Product_Simple();" code
  && Php.inCode "$product->save();" code.

(** A default-sample-data step: a run step that creates the built-in
    catalogue, or a step of tag [importWxr]. *)
Definition isSampleDataStep (s : BlueprintStep) : bool :=
  match s with
  | RunPHP code => createsSampleCatalogue code
  | ImportWxr _ => true
  | _ => false
  end.

(** Deduplication that keeps the first occurrence of every name, as the
    specification words it; [seen] holds the names already kept. *)
Fixpoint dedupFirstFrom (seen l : list string) : list string :=
  match l with
  | [] => []
  | x :: rest =>
      if existsb (String.eqb x) seen then dedupFirstFrom seen rest
      else x :: dedupFirstFrom (x :: seen) rest
  end.

Definition dedupFirst (l : list string) : list string := dedupFirstFrom [] l.

(** Undoing the quote escaping, as the specification words it: every
    backslash-quote pair becomes a quote, scanning from the left. *)
Fixpoint unescapePHP (s : string) : string :=
  match s with
  | EmptyString => EmptyString
  | String c rest =>
      match rest with
      | String c' rest' =>
          if Ascii.eqb c "092"%char && Ascii.eqb c' "'"%char
          then String "'"%char (unescapePHP rest')
          else String c (unescapePHP rest)
      | EmptyString => String c EmptyString
      end
  end.

(** The number of single quotes of a string. *)
Fixpoint countQuotes (s : string) : nat :=
  match s with
  | EmptyString => 0
  | String c rest => (if Ascii.eqb c "'"%char then 1 else 0) + countQuotes rest
  end.


(** ** The claims of the specification that the code does not meet, as stated *)

(** The scalar policy of the merge as the specification states it: the
    override's value whenever the override has the field, the base's value
    otherwise. *)
Definition overrideWinsWhenPresent {A : Type} (field : Blueprint -> option A)
    (base custom : Blueprint) : Prop :=
  field (Cli.mergeBlueprints base custom)
  = match field custom with
    | Some v => Some v
    | None => field base
    end.

(** The normaliser as the specification states it: [name] and [description]
    fall back to the empty string like [short_description] does. *)
Definition normalisedWithDefaults (products : list PublicWooCommerceProduct) : Prop :=
  length (transformWooCommerceProducts products) = length products
  /\ forall (i : nat) (p : PublicWooCommerceProduct),
       products !! i = Some p ->
       exists t : TransformedProduct,
         transformWooCommerceProducts products !! i = Some t
         /\ t_name t = Some (default EmptyString (r_name p))
         /\ t_description t = Some (default EmptyString (r_description p))
         /\ t_short_description t = default EmptyString (r_short_description p)
         /\ t_stock_status t
            = (if truthy_bool (r_is_in_stock p) then "instock" else "outofstock").

(** Mutual exclusion as the specification states it, over a whole step
    sequence: the import block is there exactly when products are given, a
    sample-data step exactly when they are not. *)
Definition importXorSample (products : list ProductImport) (l : list BlueprintStep) : Prop :=
  (hasImportHelperBlock l = true <-> products <> [])
  /\ (existsb isSampleDataStep l = true <-> products = []).

(** What the additional steps must not bring of their own: an import block
    when there are no products, a sample-data step when there are. *)
Definition additionsKeepExclusive (products : list ProductImport)
    (additional : list BlueprintStep) : Prop :=
  (products = [] -> hasImportHelperBlock additional = false)
  /\ (products <> [] -> existsb isSampleDataStep additional = false).

(** The scenario of the empty options object as the specification states
    it: the versions, the second step, the last step. *)
Definition defaultBlueprintAsStated (b : Blueprint) : Prop :=
  preferredVersions b = Some {| pv_php := Some "8.0"; pv_wp := Some "latest" |}
  /\ stepsOf b !! 1 ≫= installedSlug = Some "woocommerce"
  /\ isDeveloperHelperWrite <$> last (stepsOf b) = Some true.

(** The scenario of [{ products }] as the specification states it, in a
    runtime whose [ABSPATH] is [abspath]: no sample-data step, one write of
    the helper file, followed at once by the run step that loads that file
    and the run step that deletes that same file. *)
Definition importBlockAsStated (abspath : string) (l : list BlueprintStep) : Prop :=
  existsb isSampleDataStep l = false
  /\ length (List.filter isImportHelperWrite l) = 1
  /\ hasImportHelperBlockOn abspath l = true.

(** ** Example inputs *)

Definition emptyBlueprint : Blueprint :=
  {| schema := None; landingPage := None; preferredVersions := None;
     phpExtensionBundles := None; features := None; login := None;
     steps := None; constants := None; plugins := None; themes := None;
     siteOptions := None |}.

Definition exampleBase : Blueprint :=
  {| schema := Some "https://playground.wordpress.net/blueprint-schema.json";
     landingPage := Some "/wp-admin/";
     preferredVersions := Some {| pv_php := Some "8.0"; pv_wp := Some "latest" |};
     phpExtensionBundles := Some ["kitchen-sink"; "light"];
     features := Some {| networking := Some true |};
     login := Some (LoginBool true);
     steps := None; constants := None; plugins := None; themes := None;
     siteOptions :=
       Some (list_to_map [ ("blogname", JString "Base"); ("timezone", JString "UTC") ]) |}.

Definition exampleOverrideOptions : gmap string JSON :=
  list_to_map [ ("blogname", JString "Override"); ("permalink", JString "plain") ].

Definition exampleOverride : Blueprint :=
  {| schema := None; landingPage := None; preferredVersions := None;
     phpExtensionBundles := Some ["light"; "intl"; "light"];
     features := None; login := Some (LoginBool false);
     steps := None; constants := None; plugins := None; themes := None;
     siteOptions := Some exampleOverrideOptions |}.

(** An override whose landing page is present and empty. *)
Definition emptyLandingOverride : Blueprint :=
  Cli.set_landingPage (Some EmptyString) emptyBlueprint.

Definition exampleProduct : ProductImport :=
  {| name := "Joe's Tea"; description := "A 'fine' tea";
     short_description := "Tea"; price := "10.00"; regular_price := "10.00";
     sale_price := EmptyString; sku := "TEA-001"; stock_status := "instock";
     categories := ["Drinks"]; images := ["https://example.com/tea.jpg"];
     attributes := []; variations := [] |}.

(** A remote record without [name], out of stock, without [short_description]. *)
Definition namelessRemoteProduct : PublicWooCommerceProduct :=
  {| r_name := None; r_description := Some "<p>Tea</p>";
     r_short_description := None; r_prices := None; r_sku := None;
     r_is_in_stock := Some false; r_categories := None; r_images := None;
     r_attributes := None; r_variations := None |}.

(** [{ products }]. *)
Definition withProducts (products : list ProductImport) : BlueprintGeneratorOptions :=
  {| opt_siteName := None; opt_products := Some products; opt_landingPage := None;
     opt_php := None; opt_wp := None; opt_additionalPlugins := None;
     opt_additionalSteps := None |}.

(** [{ additionalPlugins: ["akismet", "jetpack"] }]. *)
Definition twoPluginsOptions : BlueprintGeneratorOptions :=
  {| opt_siteName := None; opt_products := None; opt_landingPage := None;
     opt_php := None; opt_wp := None;
     opt_additionalPlugins := Some ["akismet"; "jetpack"];
     opt_additionalSteps := None |}.

(** Products together with an additional step that is the sample-data run
    step itself. *)
Definition productsAndSampleOptions : BlueprintGeneratorOptions :=
  {| opt_siteName := None; opt_products := Some [exampleProduct];
     opt_landingPage := None; opt_php := None; opt_wp := None;
     opt_additionalPlugins := None;
     opt_additionalSteps := Some [ RunPHP Generator.sampleProductsCode ] |}.

(** Products together with a harmless additional step. *)
Definition productsAndLoginOptions : BlueprintGeneratorOptions :=
  {| opt_siteName := Some "Tea Shop"; opt_products := Some [exampleProduct];
     opt_landingPage := None; opt_php := None; opt_wp := None;
     opt_additionalPlugins := Some ["akismet"];
     opt_additionalSteps := Some [ Login None None ] |}.

(** No products, and additional steps that are an import block of their
    own. *)
Definition importBlockOptions : BlueprintGeneratorOptions :=
  {| opt_siteName := None; opt_products := None; opt_landingPage := None;
     opt_php := None; opt_wp := None; opt_additionalPlugins := None;
     opt_additionalSteps := Some (Generator.productImportSteps [exampleProduct]) |}.

(** A product whose name is a backslash, a quote and PHP code. *)
Definition quoteBreakingName : string := String "092"%char "'; echo 1; //".

Definition quoteBreakingProduct : ProductImport :=
  {| name := quoteBreakingName; description := "Tea";
     short_description := "Tea"; price := "10.00"; regular_price := "10.00";
     sale_price := EmptyString; sku := "TEA-002"; stock_status := "instock";
     categories := []; images := []; attributes := []; variations := [] |}.

(** The options after the destructuring defaults. *)
Definition siteNameOf (options : BlueprintGeneratorOptions) : string :=
  default "My WooCommerce Store" (opt_siteName options).

Definition productsOf (options : BlueprintGeneratorOptions) : list ProductImport :=
  default [] (opt_products options).

Definition additionalPluginsOf (options : BlueprintGeneratorOptions) : list string :=
  default [] (opt_additionalPlugins options).

Definition additionalStepsOf (options : BlueprintGeneratorOptions) : list BlueprintStep :=
  default [] (opt_additionalSteps options).

(** ** [src/cli/index.ts]: the arguments and the document handed to wp-now *)

Module JsString.

(** [s.startsWith(prefix)]. *)
Definition startsWith (s prefix : string) : bool := String.prefix prefix s.

(** [s.split(sep)] for a separator of one character: the segments between
    the separators, of which there is always at least one. *)
Fixpoint split (sep : ascii) (s : string) : list string :=
  match s with
  | EmptyString => [EmptyString]
  | String c rest =>
      if Ascii.eqb c sep then EmptyString :: split sep rest
      else match split sep rest with
           | segment :: segments => String c segment :: segments
           | [] => [String c EmptyString]
           end
  end.

(** [args.includes(v)]. *)
Definition includesArg (args : list string) (v : string) : bool :=
  existsb (String.eqb v) args.

End JsString.

Module CliMain.

Import JsString.

(** [arg.split("=")[1]]: the text between the first and the second equals
    sign, [undefined] when the argument has no equals sign. *)
Definition valueOf (arg : string) : option string := split "="%char arg !! 1.

(** [extractVersionArg]. *)
Definition extractVersionArg (args : list string) (prefix : string) : option string :=
  match List.find (fun a => startsWith a prefix) args with
  | Some arg => if String.eqb arg EmptyString then None else valueOf arg
  | None => None
  end.

(** The variables the argument loop of [main] assigns. *)
Record ParsedArgs : Type := {
  customBlueprintPath : option string;
  sourceUrl : option string;
  siteName : option string;
  wpNowArgs : list string
}.

Definition initialArgs : ParsedArgs :=
  {| customBlueprintPath := None; sourceUrl := None;
     siteName := Some "My WooCommerce Store"; wpNowArgs := [] |}.

(** One turn of the loop over [args]. *)
Definition parseArg (st : ParsedArgs) (arg : string) : ParsedArgs :=
  if startsWith arg "--blueprint=" then
    {| customBlueprintPath := valueOf arg; sourceUrl := sourceUrl st;
       siteName := siteName st; wpNowArgs := wpNowArgs st |}
  else if startsWith arg "--source-url=" then
    {| customBlueprintPath := customBlueprintPath st; sourceUrl := valueOf arg;
       siteName := siteName st; wpNowArgs := wpNowArgs st |}
  else if startsWith arg "--site-name=" then
    {| customBlueprintPath := customBlueprintPath st; sourceUrl := sourceUrl st;
       siteName := valueOf arg; wpNowArgs := wpNowArgs st |}
  else
    {| customBlueprintPath := customBlueprintPath st; sourceUrl := sourceUrl st;
       siteName := siteName st; wpNowArgs := wpNowArgs st ++ [arg] |}.

Definition parseArgs (args : list string) : ParsedArgs :=
  fold_left parseArg args initialArgs.

(** What [main] reads from the outside: the [data] of the response of
    [getProducts] for a store URL ([None] when the response has none, as
    after a failed request), the custom blueprint parsed from a path ([None]
    when the file is missing or is not JSON: both paths end in
    [process.exit(1)]), and the path of the temporary file. *)
Record Environment : Type := {
  getProductsData : string -> option (list PublicWooCommerceProduct);
  readBlueprint : string -> option Blueprint;
  tempBlueprintPath : string
}.

(** How [main] ends: [process.exit(code)], or the spawn of wp-now with its
    arguments, after [blueprint] was written to the temporary file. *)
Inductive Outcome : Type :=
| Exit (code : Z)
| SpawnWpNow (arguments : list string) (blueprint : Blueprint).

(** [generateWooCommerceBlueprint({ siteName })]. *)
Definition defaultBlueprint (p : ParsedArgs) : Blueprint :=
  Generator.generateWooCommerceBlueprint
    {| opt_siteName := siteName p; opt_products := None; opt_landingPage := None;
       opt_php := None; opt_wp := None; opt_additionalPlugins := None;
       opt_additionalSteps := None |}.

(** The body of the [if] on the response: transform, then regenerate.
    [None] stands for the [TypeError] that [escapePHP] throws on a product
    whose name or description is [undefined]. *)
Definition regenerate (p : ParsedArgs) (data : list PublicWooCommerceProduct)
    : option Blueprint :=
  products ← mapM asProductImport (transformWooCommerceProducts data);
  Some (Generator.generateWooCommerceBlueprint
          {| opt_siteName := siteName p; opt_products := Some products;
             opt_landingPage := None;
             opt_php := extractVersionArg (wpNowArgs p) "--php";
             opt_wp := extractVersionArg (wpNowArgs p) "--wp";
             opt_additionalPlugins := None; opt_additionalSteps := None |}).

(** The blueprint after the [if (sourceUrl)] block; the [catch] keeps the
    default blueprint. *)
Definition withFetchedProducts (env : Environment) (p : ParsedArgs) : Blueprint :=
  let blueprint := defaultBlueprint p in
  if truthy (sourceUrl p) then
    match getProductsData env (default EmptyString (sourceUrl p)) with
    | Some data =>
        if (0 <? Z.of_nat (length data))%Z
        then match regenerate p data with
             | Some regenerated => regenerated
             | None => blueprint
             end
        else blueprint
    | None => blueprint
    end
  else blueprint.

(** [main], up to the spawn of wp-now. *)
Definition main (env : Environment) (args : list string) : Outcome :=
  let p := parseArgs args in
  let blueprint := withFetchedProducts env p in
  let spawn (blueprint : Blueprint) :=
    SpawnWpNow (wpNowArgs p ++ ["--blueprint=" +:+ tempBlueprintPath env]) blueprint in
  if truthy (customBlueprintPath p) then
    match readBlueprint env (default EmptyString (customBlueprintPath p)) with
    | Some customBlueprint => spawn (Cli.mergeBlueprints blueprint customBlueprint)
    | None => Exit 1
    end
  else spawn blueprint.

(** The module as a whole: the help text comes before [main]. *)
Definition run (env : Environment) (args : list string) : Outcome :=
  if includesArg args "--help" || includesArg args "-h" then Exit 0
  else main env args.

End CliMain.

(** ** Recognisers and example inputs for the properties beyond the claims *)

Definition isInstallPlugin (s : BlueprintStep) : bool :=
  match s with
  | InstallPlugin _ _ _ => true
  | _ => false
  end.

Definition isActivatePlugin (s : BlueprintStep) : bool :=
  match s with
  | ActivatePlugin _ _ => true
  | _ => false
  end.

(** The number of backslashes of a string. *)
Fixpoint countBackslashes (s : string) : nat :=
  match s with
  | EmptyString => 0
  | String c rest => (if Ascii.eqb c "092"%char then 1 else 0) + countBackslashes rest
  end.

(** The arguments that the loop of [main] keeps for itself. *)
Definition isOwnArgument (arg : string) : bool :=
  JsString.startsWith arg "--blueprint="
  || JsString.startsWith arg "--source-url="
  || JsString.startsWith arg "--site-name=".

(** A text without an equals sign. *)
Fixpoint noEquals (s : string) : bool :=
  match s with
  | EmptyString => true
  | String c rest => negb (Ascii.eqb c "="%char) && noEquals rest
  end.

(** A remote record with every property the normaliser reads. *)
Definition teaRemoteProduct : PublicWooCommerceProduct :=
  {| r_name := Some "Joe's Tea"; r_description := Some "<p>Tea</p>";
     r_short_description := Some "Tea";
     r_prices :=
       Some {| prices_price := Some "1000"; prices_regular_price := Some "1200";
               prices_sale_price := Some "1000" |};
     r_sku := Some "TEA-001"; r_is_in_stock := Some true;
     r_categories := Some [ {| cat_name := "Drinks" |} ];
     r_images :=
       Some [ {| img_src := Some "https://example.com/tea.jpg" |};
              {| img_src := None |}; {| img_src := Some EmptyString |} ];
     r_attributes := Some []; r_variations := Some [] |}.

(** A store that answers with one product, a custom blueprint file with one
    step, and a store whose only product has no name. *)
Definition exampleCustomBlueprint : Blueprint :=
  {| schema := None; landingPage := Some "/shop/"; preferredVersions := None;
     phpExtensionBundles := None; features := None; login := None;
     steps := Some [ Login (Some "admin") (Some "password") ];
     constants := None; plugins := None; themes := None; siteOptions := None |}.

Definition exampleEnvironment : CliMain.Environment :=
  {| CliMain.getProductsData := fun _ => Some [teaRemoteProduct];
     CliMain.readBlueprint :=
       fun p => if String.eqb p "custom.json" then Some exampleCustomBlueprint else None;
     CliMain.tempBlueprintPath := "/tmp/wp-wc-blueprint-0011223344556677.json" |}.

Definition namelessEnvironment : CliMain.Environment :=
  {| CliMain.getProductsData := fun _ => Some [namelessRemoteProduct];
     CliMain.readBlueprint := fun _ => None;
     CliMain.tempBlueprintPath := "/tmp/wp-wc-blueprint-0011223344556677.json" |}.

Definition exampleArgs : list string :=
  [ "start"; "--php=7.4"; "--site-name=Tea Shop"; "--source-url=https://tea.example";
    "--wp=6.4" ].

(** ** The command line revision for [@wp-playground/cli]

    The later revision of [src/cli/index.ts]: a command word comes first,
    the loop also reads --port=, --php=, --wp=, --mount= and the auto-mount
    flag, and both calls of the generator receive the PHP and WordPress
    versions.  [Number.parseInt(text, 10)] and the conversion of a number to
    text are JavaScript built-ins, taken as parameters. *)

Module PlaygroundCli.

Import JsString.

(** A JavaScript number as [port] can hold it. *)
Inductive JsNumber : Type :=
| Num (n : Z)
| NaN.

Section Builtins.

Variable parseInt10 : option string -> JsNumber.
Variable numberToString : JsNumber -> string.

Definition knownCommands : list string := ["server"; "build-snapshot"; "run-blueprint"].

(** The command and the arguments left after [args.shift()]. *)
Definition extractCommand (args : list string) : string * list string :=
  match args with
  | firstArg :: rest =>
      if negb (String.eqb firstArg EmptyString) && negb (startsWith firstArg "--")
      then if includesArg knownCommands firstArg then (firstArg, rest)
           else ("server", args)
      else ("server", args)
  | [] => ("server", args)
  end.

(** The variables the argument loop assigns. *)
Record ParsedArgs : Type := {
  customBlueprintPath : option string;
  sourceUrl : option string;
  siteName : option string;
  port : JsNumber;
  phpVersion : option string;
  wpVersion : option string;
  autoMount : bool;
  mounts : list (option string);
  playgroundArgs : list string
}.

Definition initialArgs (command : string) : ParsedArgs :=
  {| customBlueprintPath := None; sourceUrl := None;
     siteName := Some "My WooCommerce Store"; port := Num 9400;
     phpVersion := Some "8.0"; wpVersion := Some "latest";
     autoMount := false; mounts := []; playgroundArgs := [command] |}.

(** One turn of the loop over [args]. *)
Definition parseArg (st : ParsedArgs) (arg : string) : ParsedArgs :=
  if startsWith arg "--blueprint=" then
    {| customBlueprintPath := CliMain.valueOf arg; sourceUrl := sourceUrl st;
       siteName := siteName st; port := port st; phpVersion := phpVersion st;
       wpVersion := wpVersion st; autoMount := autoMount st; mounts := mounts st;
       playgroundArgs := playgroundArgs st |}
  else if startsWith arg "--source-url=" then
    {| customBlueprintPath := customBlueprintPath st; sourceUrl := CliMain.valueOf arg;
       siteName := siteName st; port := port st; phpVersion := phpVersion st;
       wpVersion := wpVersion st; autoMount := autoMount st; mounts := mounts st;
       playgroundArgs := playgroundArgs st |}
  else if startsWith arg "--site-name=" then
    {| customBlueprintPath := customBlueprintPath st; sourceUrl := sourceUrl st;
       siteName := CliMain.valueOf arg; port := port st; phpVersion := phpVersion st;
       wpVersion := wpVersion st; autoMount := autoMount st; mounts := mounts st;
       playgroundArgs := playgroundArgs st |}
  else if startsWith arg "--port=" then
    {| customBlueprintPath := customBlueprintPath st; sourceUrl := sourceUrl st;
       siteName := siteName st; port := parseInt10 (CliMain.valueOf arg);
       phpVersion := phpVersion st; wpVersion := wpVersion st;
       autoMount := autoMount st; mounts := mounts st;
       playgroundArgs := playgroundArgs st ++ [arg] |}
  else if startsWith arg "--php=" then
    {| customBlueprintPath := customBlueprintPath st; sourceUrl := sourceUrl st;
       siteName := siteName st; port := port st;
       phpVersion := CliMain.valueOf arg; wpVersion := wpVersion st;
       autoMount := autoMount st; mounts := mounts st;
       playgroundArgs := playgroundArgs st ++ [arg] |}
  else if startsWith arg "--wp=" then
    {| customBlueprintPath := customBlueprintPath st; sourceUrl := sourceUrl st;
       siteName := siteName st; port := port st;
       phpVersion := phpVersion st; wpVersion := CliMain.valueOf arg;
       autoMount := autoMount st; mounts := mounts st;
       playgroundArgs := playgroundArgs st ++ [arg] |}
  else if startsWith arg "--mount=" then
    {| customBlueprintPath := customBlueprintPath st; sourceUrl := sourceUrl st;
       siteName := siteName st; port := port st;
       phpVersion := phpVersion st; wpVersion := wpVersion st;
       autoMount := autoMount st; mounts := mounts st ++ [CliMain.valueOf arg];
       playgroundArgs := playgroundArgs st ++ [arg] |}
  else if String.eqb arg "--autoMount" || String.eqb arg "--auto-mount" then
    {| customBlueprintPath := customBlueprintPath st; sourceUrl := sourceUrl st;
       siteName := siteName st; port := port st;
       phpVersion := phpVersion st; wpVersion := wpVersion st;
       autoMount := true; mounts := mounts st;
       playgroundArgs := playgroundArgs st ++ ["--autoMount"] |}
  else
    {| customBlueprintPath := customBlueprintPath st; sourceUrl := sourceUrl st;
       siteName := siteName st; port := port st;
       phpVersion := phpVersion st; wpVersion := wpVersion st;
       autoMount := autoMount st; mounts := mounts st;
       playgroundArgs := playgroundArgs st ++ [arg] |}.

Definition parseArgs (args : list string) : ParsedArgs :=
  fold_left parseArg (extractCommand args).2 (initialArgs (extractCommand args).1).

(** How [main] ends: [process.exit(code)], or the spawn of the playground
    command line with its arguments, after [blueprint] was written to the
    temporary file. *)
Inductive Outcome : Type :=
| Exit (code : Z)
| SpawnPlayground (arguments : list string) (blueprint : Blueprint).

(** The options of the two calls of the generator. *)
Definition generatorOptions (p : ParsedArgs) (products : option (list ProductImport))
    : BlueprintGeneratorOptions :=
  {| opt_siteName := siteName p; opt_products := products; opt_landingPage := None;
     opt_php := phpVersion p; opt_wp := wpVersion p;
     opt_additionalPlugins := None; opt_additionalSteps := None |}.

Definition defaultBlueprint (p : ParsedArgs) : Blueprint :=
  PlaygroundGenerator.generateWooCommerceBlueprint (generatorOptions p None).

Definition regenerate (p : ParsedArgs) (data : list PublicWooCommerceProduct)
    : option Blueprint :=
  products ← mapM asProductImport (transformWooCommerceProducts data);
  Some (PlaygroundGenerator.generateWooCommerceBlueprint
          (generatorOptions p (Some products))).

Definition withFetchedProducts (env : CliMain.Environment) (p : ParsedArgs) : Blueprint :=
  let blueprint := defaultBlueprint p in
  if truthy (sourceUrl p) then
    match CliMain.getProductsData env (default EmptyString (sourceUrl p)) with
    | Some data =>
        if (0 <? Z.of_nat (length data))%Z
        then match regenerate p data with
             | Some regenerated => regenerated
             | None => blueprint
             end
        else blueprint
    | None => blueprint
    end
  else blueprint.

(** The argument pushed last: the default port, for the server command
    when no argument starts with --port. *)
Definition portArgument (command : string) (args : list string) (p : ParsedArgs)
    : list string :=
  if String.eqb command "server" && negb (existsb (fun arg => startsWith arg "--port") args)
  then ["--port=" +:+ numberToString (port p)]
  else [].

(** [main], up to the spawn of the playground command line. *)
Definition main (env : CliMain.Environment) (args : list string) : Outcome :=
  let command := (extractCommand args).1 in
  let args' := (extractCommand args).2 in
  let p := parseArgs args in
  let blueprint := withFetchedProducts env p in
  let spawn (blueprint : Blueprint) :=
    SpawnPlayground
      (playgroundArgs p
       ++ ["--blueprint=" +:+ CliMain.tempBlueprintPath env]
       ++ portArgument command args' p)
      blueprint in
  if truthy (customBlueprintPath p) then
    match CliMain.readBlueprint env (default EmptyString (customBlueprintPath p)) with
    | Some customBlueprint => spawn (Cli.mergeBlueprints blueprint customBlueprint)
    | None => Exit 1
    end
  else spawn blueprint.

End Builtins.

End PlaygroundCli.


(** A [parseInt] that reads the two port numbers of the examples. *)
Definition exampleParseInt10 (text : option string) : PlaygroundCli.JsNumber :=
  match text with
  | Some "8080" => PlaygroundCli.Num 8080
  | Some "9400" => PlaygroundCli.Num 9400
  | _ => PlaygroundCli.NaN
  end.

(** * Properties *)

Import Cli.

(** ** Strings *)

Section Strings.

Lemma string_app_cons (x : ascii) (a b : string) :
  String x a +:+ b = String x (a +:+ b).
Proof. reflexivity. Qed.

Lemma string_app_assoc (a b c : string) : (a +:+ b) +:+ c = a +:+ (b +:+ c).
Proof.
  induction a as [|x a IH]; [reflexivity|].
  rewrite !string_app_cons. now f_equal.
Qed.


Lemma string_app_empty_r (a : string) : a +:+ EmptyString = a.
Proof.
  induction a as [|x a IH]; [reflexivity|].
  rewrite string_app_cons. now f_equal.
Qed.

Lemma prefix_app (p s : string) : String.prefix p (p +:+ s) = true.
Proof.
  induction p as [|x p IH]; [now destruct s|].
  rewrite string_app_cons. simpl.
  destruct (ascii_dec x x) as [_|N]; [exact IH | now destruct N].
Qed.

(** A text that holds [part] between two texts includes it. *)
Lemma includes_intro (pre part post : string) :
  includes (pre +:+ part +:+ post) part = true.
Proof.
  unfold includes.
  assert (H : exists n, String.index 0 part (pre +:+ part +:+ post) = Some n);
    [|now destruct H as [n ->]].
  induction pre as [|c pre [n IH]].
  - change (EmptyString +:+ part +:+ post) with (part +:+ post).
    destruct (part +:+ post) eqn:E.
    + destruct part; [simpl; eauto | discriminate].
    + cbn [String.index]. rewrite <- E, prefix_app. eauto.
  - rewrite string_app_cons. cbn [String.index].
    destruct (String.prefix part (String c (pre +:+ part +:+ post))); [eauto|].
    rewrite IH. eauto.
Qed.

Lemma concat_member (sep : string) (f : ProductImport -> string)
    (l : list ProductImport) (p : ProductImport) :
  In p l -> exists pre post, String.concat sep (map f l) = pre +:+ f p +:+ post.
Proof.
  induction l as [|x l IH]; [intros []|].
  intros [->|Hin].
  - destruct l as [|y l].
    + exists EmptyString, EmptyString. simpl.
      change (EmptyString +:+ f p +:+ EmptyString) with (f p +:+ EmptyString).
      now rewrite string_app_empty_r.
    + exists EmptyString, (sep +:+ String.concat sep (map f (y :: l))). reflexivity.
  - destruct (IH Hin) as (pre & post & E).
    destruct l as [|y l]; [destruct Hin|].
    exists (f x +:+ sep +:+ pre), post.
    change (String.concat sep (map f (x :: y :: l)))
      with (f x +:+ sep +:+ String.concat sep (map f (y :: l))).
    rewrite E. now rewrite !string_app_assoc.
Qed.

End Strings.

(** ** Quote escaping *)

Section Escaping.

Lemma unescapePHP_cons (c c' : ascii) (rest' : string) :
  unescapePHP (String c (String c' rest')) =
    if Ascii.eqb c "092"%char && Ascii.eqb c' "'"%char
    then String "'"%char (unescapePHP rest')
    else String c (unescapePHP (String c' rest')).
Proof. reflexivity. Qed.

(** The escaped text never starts with a bare quote. *)
Lemma escapePHP_head (s : string) (c : ascii) (rest : string) :
  escapePHP s = String c rest -> Ascii.eqb c "'"%char = false.
Proof.
  destruct s as [|a s]; simpl; [discriminate|].
  destruct (Ascii.eqb a "'"%char) eqn:E; intros H; injection H as <- _.
  - reflexivity.
  - exact E.
Qed.

Lemma unescape_escape (s : string) : unescapePHP (escapePHP s) = s.
Proof.
  induction s as [|a s IH]; [reflexivity|].
  simpl escapePHP.
  destruct (Ascii.eqb a "'"%char) eqn:E.
  - apply Ascii.eqb_eq in E. subst a.
    rewrite unescapePHP_cons. simpl andb. cbv iota. now rewrite IH.
  - destruct (escapePHP s) as [|c' rest'] eqn:Es.
    + simpl in IH. subst s. reflexivity.
    + rewrite unescapePHP_cons.
      rewrite (escapePHP_head _ _ _ Es), andb_false_r.
      now rewrite IH.
Qed.

(** Backslashes are copied as they are: only quotes get a backslash. *)
Example escapePHP_example : escapePHP "Joe's \ 'mug'" = "Joe\'s \ \'mug\'".
Proof. reflexivity. Qed.

End Escaping.

(** ** Deduplication of the extension bundles *)

Section Dedup.

Lemma indexOf_from_absent (l : list string) (v : string) (k : Z) :
  existsb (String.eqb v) l = false -> indexOf_from l v k = (-1)%Z.
Proof.
  revert k. induction l as [|x l IH]; intros k H; [reflexivity|].
  simpl in *. apply orb_false_elim in H as [Hx Hl].
  rewrite String.eqb_sym, Hx. now apply IH.
Qed.

Lemma indexOf_from_present (l : list string) (v : string) (k : Z) :
  existsb (String.eqb v) l = true ->
  (k <= indexOf_from l v k < k + Z.of_nat (length l))%Z.
Proof.
  revert k. induction l as [|x l IH]; intros k H; [discriminate|].
  simpl in H. cbn [indexOf_from length].
  rewrite (String.eqb_sym x v).
  destruct (String.eqb v x); [lia|].
  simpl in H. specialize (IH (k + 1)%Z H). lia.
Qed.

Lemma indexOf_from_app_fresh (pre rest : list string) (x : string) (k : Z) :
  existsb (String.eqb x) pre = false ->
  indexOf_from (pre ++ x :: rest) x k = (k + Z.of_nat (length pre))%Z.
Proof.
  revert k. induction pre as [|y pre IH]; intros k H.
  - simpl. rewrite String.eqb_refl. lia.
  - simpl in H. apply orb_false_elim in H as [Hy Hp].
    cbn [app indexOf_from length]. rewrite String.eqb_sym, Hy.
    rewrite IH by assumption. lia.
Qed.

Lemma indexOf_from_app_seen (pre rest : list string) (x : string) (k : Z) :
  existsb (String.eqb x) pre = true ->
  (k <= indexOf_from (pre ++ rest) x k < k + Z.of_nat (length pre))%Z.
Proof.
  revert k. induction pre as [|y pre IH]; intros k H; [discriminate|].
  simpl in H. cbn [app indexOf_from length].
  rewrite (String.eqb_sym y x).
  destruct (String.eqb x y); [lia|].
  simpl in H. specialize (IH (k + 1)%Z H). lia.
Qed.

(** The test of the callback at position [length pre]: the element is kept
    exactly when it does not occur before. *)
Lemma firstOccurrence_spec (pre rest : list string) (x : string) :
  firstOccurrence x (Z.of_nat (length pre)) (pre ++ x :: rest)
  = negb (existsb (String.eqb x) pre).
Proof.
  unfold firstOccurrence, indexOf.
  destruct (existsb (String.eqb x) pre) eqn:E; simpl.
  - pose proof (indexOf_from_app_seen pre (x :: rest) x 0 E). lia.
  - rewrite indexOf_from_app_fresh by assumption. lia.
Qed.

Lemma filter_from_dedup (pre seen rest : list string) :
  (forall v, existsb (String.eqb v) seen = existsb (String.eqb v) pre) ->
  filter_from (fun v i => firstOccurrence v i (pre ++ rest)) rest (Z.of_nat (length pre))
  = dedupFirstFrom seen rest.
Proof.
  revert pre seen. induction rest as [|x rest IH]; intros pre seen Hs; [reflexivity|].
  cbn [filter_from dedupFirstFrom].
  rewrite firstOccurrence_spec, Hs.
  assert (E : pre ++ x :: rest = (pre ++ [x]) ++ rest) by now rewrite <- app_assoc.
  assert (L : (Z.of_nat (length pre) + 1)%Z = Z.of_nat (length (pre ++ [x])))
    by (rewrite length_app; simpl; lia).
  rewrite E, L.
  destruct (existsb (String.eqb x) pre) eqn:Ex; simpl.
  - apply IH. intros v. rewrite Hs, existsb_app. simpl.
    destruct (String.eqb v x) eqn:Evx.
    + apply String.eqb_eq in Evx. subst v. rewrite Ex. reflexivity.
    + now rewrite !orb_false_r.
  - f_equal. apply IH. intros v. rewrite existsb_app. simpl.
    rewrite Hs. destruct (existsb (String.eqb v) pre), (String.eqb v x); reflexivity.
Qed.

Lemma filter_indexed_dedup (a : list string) :
  filter_indexed firstOccurrence a = dedupFirst a.
Proof.
  unfold filter_indexed, dedupFirst.
  exact (filter_from_dedup [] [] a (fun v => eq_refl)).
Qed.

Lemma dedupFirstFrom_elem (seen l : list string) (x : string) :
  In x (dedupFirstFrom seen l) <-> In x l /\ existsb (String.eqb x) seen = false.
Proof.
  revert seen. induction l as [|y l IH]; intros seen; simpl.
  - tauto.
  - destruct (existsb (String.eqb y) seen) eqn:Ey.
    + rewrite IH. split.
      * tauto.
      * intros [[->|Hin] Hx]; [congruence | tauto].
    + simpl. rewrite IH. simpl.
      destruct (String.eqb x y) eqn:Exy.
      * apply String.eqb_eq in Exy. subst y. simpl. split.
        -- intros [_|[_ H]]; [tauto | discriminate].
        -- tauto.
      * simpl. assert (y <> x).
        { intros ->. now rewrite String.eqb_refl in Exy. }
        tauto.
Qed.

Lemma dedupFirstFrom_NoDup (seen l : list string) : List.NoDup (dedupFirstFrom seen l).
Proof.
  revert seen. induction l as [|y l IH]; intros seen; simpl.
  - constructor.
  - destruct (existsb (String.eqb y) seen) eqn:Ey; [apply IH|].
    constructor; [|apply IH].
    rewrite dedupFirstFrom_elem. simpl. rewrite String.eqb_refl. simpl.
    intros [_ H]. discriminate.
Qed.

End Dedup.

(** ** Merging two documents *)

Section Merge.

Variables base custom : Blueprint.

(** A projection of the merged document: the stages that assign other
    fields are skipped one at a time, the stage of the field is split. *)
Ltac merge_field :=
  unfold mergeBlueprints; cbv zeta;
  repeat first
    [ reflexivity
    | match goal with
      | |- ?f (match ?o with Some _ => _ | None => ?M end) = _ =>
          transitivity (f M); [destruct o; reflexivity|]
      | |- ?f (if ?c then _ else ?M) = _ =>
          transitivity (f M); [destruct c; reflexivity|]
      end
    | match goal with
      | |- _ (match ?o with Some _ => _ | None => _ end) = _ => destruct o
      | |- _ (if ?c then _ else _) = _ => destruct c
      end ].

Lemma merge_schema :
  schema (mergeBlueprints base custom)
  = if truthy (schema custom) then schema custom else schema base.
Proof. merge_field. Qed.

Lemma merge_landingPage :
  landingPage (mergeBlueprints base custom)
  = if truthy (landingPage custom) then landingPage custom else landingPage base.
Proof. merge_field. Qed.

Lemma merge_login :
  login (mergeBlueprints base custom) = spreadProperty (login base) (login custom).
Proof. merge_field. Qed.

Lemma merge_phpExtensionBundles :
  phpExtensionBundles (mergeBlueprints base custom)
  = match phpExtensionBundles custom with
    | Some cb =>
        Some (filter_indexed firstOccurrence (default [] (phpExtensionBundles base) ++ cb))
    | None => phpExtensionBundles base
    end.
Proof. merge_field. Qed.

Lemma merge_siteOptions :
  siteOptions (mergeBlueprints base custom)
  = match siteOptions custom with
    | Some co => Some (spreadMap (siteOptions base) co)
    | None => siteOptions base
    end.
Proof. merge_field. Qed.

End Merge.

(** ** The claims about the merge *)

Section MergeClaims.

(** C3, as stated, fails: an override whose landing page is present and empty
    does not replace the base's landing page. *)
Lemma scalar_override_counterexample :
  ~ overrideWinsWhenPresent landingPage exampleBase emptyLandingOverride.
Proof.
  unfold overrideWinsWhenPresent. rewrite merge_landingPage.
  simpl. discriminate.
Qed.

(** C3, amended: [$schema] and [landingPage] of the merged document are the
    override's value when the override has a non-empty one and the base's
    value otherwise (also when the override holds the empty string); [login]
    is the override's value whenever the override has the property, [false]
    included, and the base's value otherwise. *)
Theorem merge_scalar_fields (base custom : Blueprint) :
  schema (mergeBlueprints base custom)
  = match schema custom with
    | Some s => if String.eqb s EmptyString then schema base else Some s
    | None => schema base
    end
  /\ landingPage (mergeBlueprints base custom)
     = match landingPage custom with
       | Some s => if String.eqb s EmptyString then landingPage base else Some s
       | None => landingPage base
       end
  /\ login (mergeBlueprints base custom)
     = match login custom with
       | Some l => Some l
       | None => login base
       end.
Proof.
  rewrite merge_schema, merge_landingPage, merge_login.
  repeat split.
  - destruct (schema custom) as [s|]; simpl; [destruct (String.eqb s EmptyString)|]; reflexivity.
  - destruct (landingPage custom) as [s|]; simpl; [destruct (String.eqb s EmptyString)|];
      reflexivity.
Qed.

(** C6: when the override has [siteOptions], the merged [siteOptions] give
    every key of the override the override's value and every other key the
    value it has in the base (none when the base lacks it too). *)
Theorem merge_siteOptions_keys (base custom : Blueprint) (co : gmap string JSON) :
  siteOptions custom = Some co ->
  exists merged : gmap string JSON,
    siteOptions (mergeBlueprints base custom) = Some merged
    /\ (forall (k : string) (v : JSON), co !! k = Some v -> merged !! k = Some v)
    /\ (forall k : string,
          co !! k = None -> merged !! k = default ∅ (siteOptions base) !! k).
Proof.
  intros Hco. exists (spreadMap (siteOptions base) co).
  rewrite merge_siteOptions, Hco. split; [reflexivity|].
  unfold spreadMap. split.
  - intros k v Hk. now apply lookup_union_Some_l.
  - intros k Hk. now apply lookup_union_r.
Qed.

Lemma merge_siteOptions_keys_witness :
  siteOptions exampleOverride = Some exampleOverrideOptions
  /\ exists merged : gmap string JSON,
       siteOptions (mergeBlueprints exampleBase exampleOverride) = Some merged
       /\ (forall (k : string) (v : JSON),
             exampleOverrideOptions !! k = Some v -> merged !! k = Some v)
       /\ (forall k : string,
             exampleOverrideOptions !! k = None ->
             merged !! k = default ∅ (siteOptions exampleBase) !! k).
Proof.
  split; [reflexivity|].
  apply (merge_siteOptions_keys exampleBase exampleOverride exampleOverrideOptions).
  reflexivity.
Defined.

(** The example, evaluated: the override's title wins, the base's time zone
    stays, the override's new key is added. *)
Example merge_siteOptions_example :
  forall m, siteOptions (mergeBlueprints exampleBase exampleOverride) = Some m ->
  m !! "blogname" = Some (JString "Override")
  /\ m !! "timezone" = Some (JString "UTC")
  /\ m !! "permalink" = Some (JString "plain").
Proof.
  intros m. rewrite merge_siteOptions. simpl. intros [= <-].
  repeat split; reflexivity.
Qed.

(** C7: when the override has [phpExtensionBundles], the merged list has no
    duplicates and is the base's list followed by the override's list with
    every name kept at its first occurrence only. *)
Theorem merge_bundles_dedup (base custom : Blueprint) (cb : list string) :
  phpExtensionBundles custom = Some cb ->
  exists merged : list string,
    phpExtensionBundles (mergeBlueprints base custom) = Some merged
    /\ List.NoDup merged
    /\ merged = dedupFirst (default [] (phpExtensionBundles base) ++ cb)
    /\ (forall x : string,
          In x merged <-> In x (default [] (phpExtensionBundles base) ++ cb)).
Proof.
  intros Hcb. rewrite merge_phpExtensionBundles, Hcb.
  eexists. split; [reflexivity|].
  rewrite filter_indexed_dedup. split; [apply dedupFirstFrom_NoDup|].
  split; [reflexivity|].
  intros x. unfold dedupFirst. rewrite dedupFirstFrom_elem. simpl. tauto.
Qed.

Lemma merge_bundles_dedup_witness :
  phpExtensionBundles exampleOverride = Some ["light"; "intl"; "light"]
  /\ exists merged : list string,
       phpExtensionBundles (mergeBlueprints exampleBase exampleOverride) = Some merged
       /\ List.NoDup merged
       /\ merged = dedupFirst (default [] (phpExtensionBundles exampleBase)
                               ++ ["light"; "intl"; "light"])
       /\ (forall x : string,
             In x merged
             <-> In x (default [] (phpExtensionBundles exampleBase)
                       ++ ["light"; "intl"; "light"])).
Proof.
  split; [reflexivity|].
  apply (merge_bundles_dedup exampleBase exampleOverride ["light"; "intl"; "light"]).
  reflexivity.
Defined.

Example merge_bundles_example :
  phpExtensionBundles (mergeBlueprints exampleBase exampleOverride)
  = Some ["kitchen-sink"; "light"; "intl"].
Proof. rewrite merge_phpExtensionBundles. reflexivity. Qed.

End MergeClaims.

(** ** The claims about the normaliser *)

Section Normaliser.

(** What holds of the claim about the normaliser: the result has the length
    and the order of the input (its i-th record is the image of the i-th
    remote record); [name] and [description] are whatever the remote record
    has, with no default; [short_description] is the remote value, the empty
    string when missing; [stock_status] is "instock" when [is_in_stock] is
    true and "outofstock" in every other case. *)
Lemma transformWooCommerceProducts_spec (products : list PublicWooCommerceProduct) :
  length (transformWooCommerceProducts products) = length products
  /\ (forall i : nat,
        transformWooCommerceProducts products !! i = transformProduct <$> products !! i)
  /\ (forall p : PublicWooCommerceProduct,
        t_name (transformProduct p) = r_name p
        /\ t_description (transformProduct p) = r_description p
        /\ t_short_description (transformProduct p)
           = default EmptyString (r_short_description p)
        /\ t_stock_status (transformProduct p)
           = match r_is_in_stock p with
             | Some true => "instock"
             | _ => "outofstock"
             end).
Proof.
  unfold transformWooCommerceProducts. split; [apply length_map|].
  split; [intros i; apply list_lookup_fmap|].
  intros p. repeat split.
  - simpl. destruct (r_short_description p) as [s|]; simpl; [|reflexivity].
    destruct (String.eqb s EmptyString) eqn:E; [|reflexivity].
    apply String.eqb_eq in E. now subst s.
  - simpl. destruct (r_is_in_stock p) as [[|]|]; reflexivity.
Qed.

(** C2: the code does not do what the claim says.  For a remote record
    without a name the normaliser yields a record without a name, where the
    claim (and the fallback of the sibling properties [short_description]
    and [sku]) gives the empty string.  The record is no [ProductImport]:
    [escapePHP] fails on its name, and [main] drops the fetched product and
    keeps the default document. *)
Theorem normaliser_missing_name :
  ~ normalisedWithDefaults [namelessRemoteProduct]
  /\ (exists t : TransformedProduct,
        transformWooCommerceProducts [namelessRemoteProduct] = [t]
        /\ t_name t = None
        /\ t_short_description t = EmptyString
        /\ t_sku t = EmptyString
        /\ t_stock_status t = "outofstock"
        /\ asProductImport t = None)
  /\ CliMain.withFetchedProducts namelessEnvironment
       (CliMain.parseArgs ["--source-url=https://tea.example"])
     = CliMain.defaultBlueprint (CliMain.parseArgs ["--source-url=https://tea.example"]).
Proof.
  split; [|split].
  - intros [_ H].
    destruct (H 0 namelessRemoteProduct eq_refl) as (t & Ht & Hname & _).
    simpl in Ht. injection Ht as <-. discriminate Hname.
  - eexists. split; [reflexivity|]. repeat split.
  - reflexivity.
Qed.

End Normaliser.

(** ** The claim about quote escaping *)

(** C8: the code does not do what the claim says.  [escapePHP] puts a
    backslash before every quote and copies every backslash, so in the
    escaped form of a name that holds backslash-quote the quote follows an
    escaped backslash: read as a single-quoted PHP literal, the escaped name
    ends at that quote with the value of one backslash, and the rest of the
    name stands in the script as code.  Undoing the escaping by replacing
    each backslash-quote pair still gives the name back. *)
Theorem escapePHP_backslash_quote :
  escapePHP quoteBreakingName
  = String "092"%char (String "092"%char "'; echo 1; //")
  /\ Php.singleQuoted (escapePHP quoteBreakingName +:+ "',")
     = Some (String "092"%char EmptyString, "; echo 1; //',")
  /\ includes (Generator.generateProductImportScript [quoteBreakingProduct])
       ("'name' => '" +:+ escapePHP quoteBreakingName +:+ "',") = true
  /\ unescapePHP (escapePHP quoteBreakingName) = quoteBreakingName.
Proof.
  split; [reflexivity|]. split; [reflexivity|].
  split; [vm_compute; reflexivity | apply unescape_escape].
Qed.

(** The product name reaches the helper script through [escapePHP]. *)
Example escaped_name_in_script :
  includes (Generator.generateProductImportScript [exampleProduct])
    "'name' => 'Joe\'s Tea'," = true
  /\ unescapePHP (escapePHP (name exampleProduct)) = name exampleProduct.
Proof. split; [vm_compute; reflexivity | apply unescape_escape]. Qed.
(** ** Step sequences *)

Section Steps.

Lemma push_all {A : Type} (l extra : list A) :
  (if (0 <? Z.of_nat (length extra))%Z then l ++ extra else l) = l ++ extra.
Proof. destruct extra; simpl; [now rewrite app_nil_r | reflexivity]. Qed.

Lemma existsb_map_false {A B : Type} (f : B -> bool) (g : A -> B) (l : list A) :
  (forall a, f (g a) = false) -> existsb f (map g l) = false.
Proof.
  intros H. induction l as [|a l IH]; simpl; [reflexivity|]. now rewrite H, IH.
Qed.

Lemma filter_none {A : Type} (f : A -> bool) (l : list A) :
  existsb f l = false -> List.filter f l = [].
Proof.
  induction l as [|s l IH]; simpl; [reflexivity|].
  intros H. apply orb_false_elim in H as [-> H]. now apply IH.
Qed.

Variable P : BlueprintStep -> BlueprintStep -> BlueprintStep -> bool.

Lemma existsWindow_cons (w : BlueprintStep) (rest : list BlueprintStep) :
  existsWindow P (w :: rest) = firstWindow P (w :: rest) || existsWindow P rest.
Proof. destruct rest as [|r [|d rest]]; reflexivity. Qed.

Variable Q : BlueprintStep -> bool.
Hypothesis starts_with : forall w r d, P w r d = true -> Q w = true.

Lemma firstWindow_starts (w : BlueprintStep) (rest : list BlueprintStep) :
  Q w = false -> firstWindow P (w :: rest) = false.
Proof.
  intros H. destruct rest as [|r [|d rest]]; try reflexivity. simpl.
  destruct (P w r d) eqn:E; [|reflexivity].
  apply starts_with in E. congruence.
Qed.

(** No window starts where no step can start one. *)
Lemma existsWindow_skip (pre rest : list BlueprintStep) :
  existsb Q pre = false -> existsWindow P (pre ++ rest) = existsWindow P rest.
Proof.
  induction pre as [|x pre IH]; [reflexivity|].
  simpl existsb. intros H. apply orb_false_elim in H as [Hx Hp].
  change ((x :: pre) ++ rest) with (x :: (pre ++ rest)).
  rewrite existsWindow_cons, (firstWindow_starts _ _ Hx). simpl. now apply IH.
Qed.

(** A last step that can stand neither second nor third in a window adds no
    window. *)
Lemma existsWindow_snoc (l : list BlueprintStep) (h : BlueprintStep) :
  (forall w r, P w r h = false) -> (forall w d, P w h d = false) ->
  existsWindow P (l ++ [h]) = existsWindow P l.
Proof.
  intros H3 H2. induction l as [|a t IH].
  - reflexivity.
  - change ((a :: t) ++ [h]) with (a :: (t ++ [h])).
    rewrite !existsWindow_cons, IH. f_equal.
    destruct t as [|b [|c t]]; simpl; [reflexivity | apply H3 | reflexivity].
Qed.

End Steps.

(** The recognisers of the import block on the steps that are no run steps. *)
Section Blocks.

Lemma importHelperBlock_starts (w r d : BlueprintStep) :
  importHelperBlock w r d = true -> isImportHelperWrite w = true.
Proof. unfold importHelperBlock. intros H. now apply andb_prop in H as [H _]. Qed.

Lemma importHelperBlockOn_starts (abspath : string) (w r d : BlueprintStep) :
  importHelperBlockOn abspath w r d = true -> isImportHelperWrite w = true.
Proof. unfold importHelperBlockOn. intros H. now apply andb_prop in H as [H _]. Qed.

Lemma importHelperBlock_third (w r : BlueprintStep) (p : string) (data : string + FileResource) :
  importHelperBlock w r (WriteFile p data) = false.
Proof.
  unfold importHelperBlock. cbn [unlinkedPath calledOn].
  destruct (requiredPath r); apply andb_false_r.
Qed.

Lemma importHelperBlock_second (w d : BlueprintStep) (p : string) (data : string + FileResource) :
  importHelperBlock w (WriteFile p data) d = false.
Proof. unfold importHelperBlock. cbn [requiredPath calledOn]. apply andb_false_r. Qed.



End Blocks.
(** ** The generator of [src/blueprint/generator.ts] *)

Section GeneratorSteps.

Import Generator.

Lemma generated_steps (options : BlueprintGeneratorOptions) :
  stepsOf (generateWooCommerceBlueprint options)
  = initialSteps (siteNameOf options) (additionalPluginsOf options)
    ++ (if (0 <? Z.of_nat (length (productsOf options)))%Z
        then productImportSteps (productsOf options)
        else [ RunPHP sampleProductsCode ])
    ++ additionalStepsOf options ++ [ playgroundHelpersStep ].
Proof.
  unfold stepsOf, generateWooCommerceBlueprint. cbv zeta. cbn [steps default].
  rewrite push_all.
  fold (productsOf options) (siteNameOf options) (additionalPluginsOf options)
    (additionalStepsOf options).
  destruct (0 <? Z.of_nat (length (productsOf options)))%Z;
    now rewrite <- !app_assoc.
Qed.

Lemma initialSteps_no_write (siteName : string) (ps : list string) :
  existsb isImportHelperWrite (initialSteps siteName ps) = false.
Proof.
  unfold initialSteps. rewrite !existsb_app.
  rewrite !existsb_map_false by reflexivity. reflexivity.
Qed.

Lemma initialSteps_no_sample (siteName : string) (ps : list string) :
  existsb isSampleDataStep (initialSteps siteName ps) = false.
Proof.
  unfold initialSteps. rewrite !existsb_app.
  rewrite !existsb_map_false by reflexivity. reflexivity.
Qed.

Lemma sample_step_recognised : createsSampleCatalogue sampleProductsCode = true.
Proof. vm_compute. reflexivity. Qed.

(** The three import steps, as the source writes them. *)
Lemma productImportSteps_written (products : list ProductImport) :
  productImportSteps products
  = [ WriteFile "/wp-content/mu-plugins/import-products.php"
        (inl (generateProductImportScript products));
      RunPHP "<?php require_once(ABSPATH . 'wp-content/mu-plugins/import-products.php'); ?>";
      RunPHP "<?php unlink(ABSPATH . 'wp-content/mu-plugins/import-products.php'); ?>" ].
Proof. reflexivity. Qed.

Lemma import_run_path :
  requiredPath
    (RunPHP "<?php require_once(ABSPATH . 'wp-content/mu-plugins/import-products.php'); ?>")
  = Some (Php.UnderRoot "wp-content/mu-plugins/import-products.php").
Proof. vm_compute. reflexivity. Qed.

Lemma import_removal_path :
  unlinkedPath
    (RunPHP "<?php unlink(ABSPATH . 'wp-content/mu-plugins/import-products.php'); ?>")
  = Some (Php.UnderRoot "wp-content/mu-plugins/import-products.php").
Proof. vm_compute. reflexivity. Qed.

Lemma productImportSteps_block (products : list ProductImport) (post : list BlueprintStep) :
  firstWindow importHelperBlock (productImportSteps products ++ post) = true.
Proof.
  rewrite productImportSteps_written. cbn [app firstWindow]. unfold importHelperBlock.
  rewrite import_run_path, import_removal_path. reflexivity.
Qed.

Lemma productImportSteps_no_sample (products : list ProductImport) :
  existsb isSampleDataStep (productImportSteps products) = false.
Proof.
  rewrite productImportSteps_written. cbn [existsb isSampleDataStep].
  assert (R : createsSampleCatalogue
                "<?php require_once(ABSPATH . 'wp-content/mu-plugins/import-products.php'); ?>"
              = false) by (vm_compute; reflexivity).
  assert (D : createsSampleCatalogue
                "<?php unlink(ABSPATH . 'wp-content/mu-plugins/import-products.php'); ?>"
              = false) by (vm_compute; reflexivity).
  now rewrite R, D.
Qed.

(** The import block of the generated steps: the generator's own when there
    are products, the one of the additional steps otherwise. *)
Lemma generated_block (options : BlueprintGeneratorOptions) :
  hasImportHelperBlock (stepsOf (generateWooCommerceBlueprint options))
  = match productsOf options with
    | [] => hasImportHelperBlock (additionalStepsOf options)
    | _ :: _ => true
    end.
Proof.
  rewrite generated_steps. unfold hasImportHelperBlock.
  destruct (productsOf options) as [|p ps].
  - replace (0 <? Z.of_nat (length (@nil ProductImport)))%Z with false by reflexivity.
    rewrite app_assoc.
    rewrite (existsWindow_skip _ _ importHelperBlock_starts)
      by (rewrite existsb_app, initialSteps_no_write; reflexivity).
    apply existsWindow_snoc; intros; [apply importHelperBlock_third
                                     | apply importHelperBlock_second].
  - replace (0 <? Z.of_nat (length (p :: ps)))%Z with true by reflexivity.
    rewrite (existsWindow_skip _ _ importHelperBlock_starts)
      by apply initialSteps_no_write.
    pose proof (productImportSteps_block (p :: ps)
                  (additionalStepsOf options ++ [playgroundHelpersStep])) as H.
    rewrite productImportSteps_written in *. cbn [app] in *.
    rewrite existsWindow_cons, H. reflexivity.
Qed.

(** The sample-data steps of the generated steps: the generator's own when
    there are no products, those of the additional steps otherwise. *)
Lemma generated_sample (options : BlueprintGeneratorOptions) :
  existsb isSampleDataStep (stepsOf (generateWooCommerceBlueprint options))
  = match productsOf options with
    | [] => true
    | _ :: _ => existsb isSampleDataStep (additionalStepsOf options)
    end.
Proof.
  rewrite generated_steps. rewrite !existsb_app, initialSteps_no_sample.
  destruct (productsOf options) as [|p ps].
  - replace (0 <? Z.of_nat (length (@nil ProductImport)))%Z with false by reflexivity.
    cbn [existsb isSampleDataStep]. now rewrite sample_step_recognised.
  - replace (0 <? Z.of_nat (length (p :: ps)))%Z with true by reflexivity.
    rewrite productImportSteps_no_sample. cbn [existsb isSampleDataStep orb].
    now rewrite orb_false_r.
Qed.

End GeneratorSteps.

(** Mutual exclusion, from what the generated steps hold. *)
Lemma exclusive_iff (products : list ProductImport) (l additional : list BlueprintStep) :
  hasImportHelperBlock l
  = match products with
    | [] => hasImportHelperBlock additional
    | _ :: _ => true
    end ->
  existsb isSampleDataStep l
  = match products with
    | [] => true
    | _ :: _ => existsb isSampleDataStep additional
    end ->
  importXorSample products l <-> additionsKeepExclusive products additional.
Proof.
  intros Hb Hs. unfold importXorSample, additionsKeepExclusive. rewrite Hb, Hs.
  clear Hb Hs. destruct products as [|p ps].
  - split.
    + intros [[H _] _]. split; [|congruence]. intros _.
      destruct (hasImportHelperBlock additional); [|reflexivity].
      now destruct (H eq_refl).
    + intros [H _]. rewrite (H eq_refl). split; split; congruence.
  - split.
    + intros [_ [H _]]. split; [discriminate|]. intros _.
      destruct (existsb isSampleDataStep additional); [|reflexivity].
      discriminate (H eq_refl).
    + intros [_ H]. rewrite H by discriminate. split; split; congruence.
Qed.

(** ** The claims about the generator *)

Section GeneratorClaims.

Import Generator.

(** C9: whatever the options, the generated document has [login] true,
    [phpExtensionBundles] equal to the one bundle "kitchen-sink" and
    [features] equal to networking true. *)
Theorem generated_constants (options : BlueprintGeneratorOptions) :
  login (generateWooCommerceBlueprint options) = Some (LoginBool true)
  /\ phpExtensionBundles (generateWooCommerceBlueprint options) = Some ["kitchen-sink"]
  /\ features (generateWooCommerceBlueprint options) = Some {| networking := Some true |}.
Proof. repeat split. Qed.

(** C10: the i-th additional plugin slug [p] has its install step, which
    names the slug [p] of the wordpress.org plugin directory, at index 2 + i
    and its activation step, with plugin path p/p.php, at index 2 + n + 2 + i,
    where n is the number of additional slugs: later than its install step,
    and in the order of the slugs in both groups. *)
Theorem additional_plugin_steps (options : BlueprintGeneratorOptions) (i : nat) (p : string) :
  additionalPluginsOf options !! i = Some p ->
  let n := length (additionalPluginsOf options) in
  let l := stepsOf (generateWooCommerceBlueprint options) in
  l !! (2 + i)
  = Some (InstallPlugin
            (Some {| resource := "wordpress.org/plugins"; slug := Some p;
                     url := None; path := None |})
            None None)
  /\ l !! (2 + n + 2 + i) = Some (ActivatePlugin (p +:+ "/" +:+ p +:+ ".php") None)
  /\ 2 + i < 2 + n + 2 + i.
Proof.
  intros Hp n l. subst l. rewrite generated_steps. unfold initialSteps.
  set (ps := additionalPluginsOf options) in *.
  assert (Hi : i < length ps) by (apply lookup_lt_is_Some; eauto).
  split; [|split; [|lia]].
  - rewrite <- !app_assoc.
    rewrite lookup_app_r by (simpl; lia).
    match goal with
    | |- _ !! ?k = _ => replace k with i by (simpl; lia)
    end.
    rewrite lookup_app_l by (now rewrite length_map).
    now rewrite list_lookup_fmap, Hp.
  - rewrite <- !app_assoc.
    rewrite lookup_app_r by (simpl; lia).
    rewrite lookup_app_r by (rewrite length_map; simpl; fold n; lia).
    rewrite lookup_app_r by (rewrite length_map; simpl; fold n; lia).
    rewrite length_map. fold n.
    match goal with
    | |- _ !! ?k = _ => replace k with i by (simpl; lia)
    end.
    rewrite lookup_app_l by (now rewrite length_map).
    now rewrite list_lookup_fmap, Hp.
Qed.

Lemma additional_plugin_steps_witness :
  additionalPluginsOf twoPluginsOptions !! 1 = Some "jetpack"
  /\ stepsOf (generateWooCommerceBlueprint twoPluginsOptions) !! 3
     = Some (InstallPlugin
               (Some {| resource := "wordpress.org/plugins"; slug := Some "jetpack";
                        url := None; path := None |})
               None None)
  /\ stepsOf (generateWooCommerceBlueprint twoPluginsOptions) !! 7
     = Some (ActivatePlugin "jetpack/jetpack.php" None)
  /\ 3 < 7.
Proof.
  split; [reflexivity|].
  exact (additional_plugin_steps twoPluginsOptions 1 "jetpack" eq_refl).
Defined.

(** C4, as stated, fails: with products and an additional step that is a
    sample-data run step, the sequence holds the import block and a
    sample-data step. *)
Lemma import_xor_sample_counterexample :
  ~ importXorSample (productsOf productsAndSampleOptions)
      (stepsOf (generateWooCommerceBlueprint productsAndSampleOptions)).
Proof.
  intros [_ [H _]].
  assert (E : productsOf productsAndSampleOptions = []); [|discriminate E].
  apply H. vm_compute. reflexivity.
Qed.

(** It fails as well without products, when the additional steps are an
    import block of their own. *)
Example import_block_in_additional_steps :
  productsOf importBlockOptions = []
  /\ hasImportHelperBlock (stepsOf (generateWooCommerceBlueprint importBlockOptions)) = true
  /\ ~ importXorSample (productsOf importBlockOptions)
         (stepsOf (generateWooCommerceBlueprint importBlockOptions)).
Proof.
  split; [reflexivity|]. split; [vm_compute; reflexivity|].
  intros [[H _] _]. apply H; [vm_compute|]; reflexivity.
Qed.

(** C4, amended: the sequence holds the import block exactly when the
    products are a non-empty list and a sample-data step exactly when they
    are empty or absent, one of the two and never both, if and only if the
    additional steps bring no import block of their own when there are no
    products and no sample-data step when there are products.  The block is
    a write of the helper file followed at once by a run step that loads a
    file of the helper's name and a run step that deletes the file of the
    same expression. *)
Theorem import_xor_sample (options : BlueprintGeneratorOptions) :
  importXorSample (productsOf options) (stepsOf (generateWooCommerceBlueprint options))
  <-> additionsKeepExclusive (productsOf options) (additionalStepsOf options).
Proof. apply exclusive_iff; [apply generated_block | apply generated_sample]. Qed.

Lemma import_xor_sample_witness :
  additionsKeepExclusive (productsOf productsAndLoginOptions)
    (additionalStepsOf productsAndLoginOptions)
  /\ importXorSample (productsOf productsAndLoginOptions)
       (stepsOf (generateWooCommerceBlueprint productsAndLoginOptions)).
Proof.
  assert (H : additionsKeepExclusive (productsOf productsAndLoginOptions)
                (additionalStepsOf productsAndLoginOptions)).
  { split; [discriminate | reflexivity]. }
  split; [exact H|].
  exact (proj2 (import_xor_sample productsAndLoginOptions) H).
Defined.





(** The failing input, evaluated: with WordPress under /wordpress/, the
    root the helper script itself loads WordPress from, the file that the
    run steps load and delete is not the file written. *)
Example product_import_block_wordpress :
  let l := stepsOf (generateWooCommerceBlueprint (withProducts [exampleProduct])) in
  hasImportHelperBlockOn "/wordpress/" l = false
  /\ ~ importBlockAsStated "/wordpress/" l
  /\ includes (generateProductImportScript [exampleProduct])
       "require_once('/wordpress/wp-load.php');" = true.
Proof.
  split; [vm_compute; reflexivity|].
  split; [|vm_compute; reflexivity].
  intros (_ & _ & H). vm_compute in H. discriminate H.
Qed.

End GeneratorClaims.

(** ** The generator revision for [@wp-playground/cli] *)

Section PlaygroundClaims.

Import PlaygroundGenerator.

(** The constants of generation are the same in this revision. *)
Lemma playground_generated_constants (options : BlueprintGeneratorOptions) :
  login (generateWooCommerceBlueprint options) = Some (LoginBool true)
  /\ phpExtensionBundles (generateWooCommerceBlueprint options) = Some ["kitchen-sink"]
  /\ features (generateWooCommerceBlueprint options) = Some {| networking := Some true |}.
Proof. repeat split. Qed.

Lemma playground_generated_steps (options : BlueprintGeneratorOptions) :
  stepsOf (generateWooCommerceBlueprint options)
  = initialSteps (siteNameOf options) (additionalPluginsOf options)
    ++ [ RunPHP wcTablesCode ]
    ++ (if (0 <? Z.of_nat (length (productsOf options)))%Z
        then productImportSteps (productsOf options)
        else [ RunPHP sampleProductsCode ])
    ++ additionalStepsOf options ++ [ playgroundHelpersStep ].
Proof.
  unfold stepsOf, generateWooCommerceBlueprint. cbv zeta. cbn [steps default].
  rewrite push_all.
  fold (productsOf options) (siteNameOf options) (additionalPluginsOf options)
    (additionalStepsOf options).
  destruct (0 <? Z.of_nat (length (productsOf options)))%Z;
    now rewrite <- !app_assoc.
Qed.

Lemma playground_initialSteps_no_write (siteName : string) (ps : list string) :
  existsb isImportHelperWrite (initialSteps siteName ps ++ [ RunPHP wcTablesCode ]) = false.
Proof.
  unfold initialSteps. rewrite !existsb_app.
  rewrite !existsb_map_false by reflexivity. reflexivity.
Qed.

Lemma playground_initialSteps_no_sample (siteName : string) (ps : list string) :
  existsb isSampleDataStep (initialSteps siteName ps ++ [ RunPHP wcTablesCode ]) = false.
Proof.
  assert (C : createsSampleCatalogue coreReadyCode = false) by (vm_compute; reflexivity).
  assert (T : createsSampleCatalogue wcTablesCode = false) by (vm_compute; reflexivity).
  unfold initialSteps. rewrite !existsb_app.
  rewrite !existsb_map_false by reflexivity.
  cbn [existsb isSampleDataStep]. now rewrite C, T.
Qed.

Lemma playground_sample_step_recognised : createsSampleCatalogue sampleProductsCode = true.
Proof. vm_compute. reflexivity. Qed.

Lemma playground_productImportSteps_written (products : list ProductImport) :
  productImportSteps products
  = [ WriteFile "/wordpress/wp-content/mu-plugins/import-products.php"
        (inl (generateProductImportScript products));
      RunPHP "<?php require_once('/wordpress/wp-content/mu-plugins/import-products.php'); ?>";
      RunPHP "<?php unlink('/wordpress/wp-content/mu-plugins/import-products.php'); ?>" ].
Proof. reflexivity. Qed.

Lemma playground_import_run_path :
  requiredPath
    (RunPHP "<?php require_once('/wordpress/wp-content/mu-plugins/import-products.php'); ?>")
  = Some (Php.Literal "/wordpress/wp-content/mu-plugins/import-products.php").
Proof. vm_compute. reflexivity. Qed.

Lemma playground_import_removal_path :
  unlinkedPath
    (RunPHP "<?php unlink('/wordpress/wp-content/mu-plugins/import-products.php'); ?>")
  = Some (Php.Literal "/wordpress/wp-content/mu-plugins/import-products.php").
Proof. vm_compute. reflexivity. Qed.

Lemma playground_productImportSteps_no_sample (products : list ProductImport) :
  existsb isSampleDataStep (productImportSteps products) = false.
Proof.
  rewrite playground_productImportSteps_written. cbn [existsb isSampleDataStep].
  assert (R : createsSampleCatalogue
                "<?php require_once('/wordpress/wp-content/mu-plugins/import-products.php'); ?>"
              = false) by (vm_compute; reflexivity).
  assert (D : createsSampleCatalogue
                "<?php unlink('/wordpress/wp-content/mu-plugins/import-products.php'); ?>"
              = false) by (vm_compute; reflexivity).
  now rewrite R, D.
Qed.

Lemma playground_generated_block (options : BlueprintGeneratorOptions) :
  hasImportHelperBlock (stepsOf (generateWooCommerceBlueprint options))
  = match productsOf options with
    | [] => hasImportHelperBlock (additionalStepsOf options)
    | _ :: _ => true
    end.
Proof.
  rewrite playground_generated_steps. unfold hasImportHelperBlock.
  rewrite app_assoc.
  rewrite (existsWindow_skip _ _ importHelperBlock_starts)
    by apply playground_initialSteps_no_write.
  destruct (productsOf options) as [|p ps].
  - replace (0 <? Z.of_nat (length (@nil ProductImport)))%Z with false by reflexivity.
    change ([RunPHP sampleProductsCode] ++ additionalStepsOf options ++ [playgroundHelpersStep])
      with (RunPHP sampleProductsCode
            :: (additionalStepsOf options ++ [playgroundHelpersStep])).
    rewrite existsWindow_cons.
    rewrite (firstWindow_starts _ _ importHelperBlock_starts) by reflexivity.
    cbn [orb].
    apply existsWindow_snoc; intros; [apply importHelperBlock_third
                                     | apply importHelperBlock_second].
  - replace (0 <? Z.of_nat (length (p :: ps)))%Z with true by reflexivity.
    rewrite playground_productImportSteps_written. cbn [app].
    rewrite existsWindow_cons. cbn [firstWindow]. unfold importHelperBlock.
    rewrite playground_import_run_path, playground_import_removal_path. reflexivity.
Qed.

Lemma playground_generated_sample (options : BlueprintGeneratorOptions) :
  existsb isSampleDataStep (stepsOf (generateWooCommerceBlueprint options))
  = match productsOf options with
    | [] => true
    | _ :: _ => existsb isSampleDataStep (additionalStepsOf options)
    end.
Proof.
  rewrite playground_generated_steps. rewrite app_assoc.
  rewrite existsb_app, playground_initialSteps_no_sample, !existsb_app.
  destruct (productsOf options) as [|p ps].
  - replace (0 <? Z.of_nat (length (@nil ProductImport)))%Z with false by reflexivity.
    cbn [existsb isSampleDataStep]. now rewrite playground_sample_step_recognised.
  - replace (0 <? Z.of_nat (length (p :: ps)))%Z with true by reflexivity.
    rewrite playground_productImportSteps_no_sample. cbn [existsb isSampleDataStep orb].
    now rewrite orb_false_r.
Qed.

Lemma playground_products_only_steps (products : list ProductImport) :
  products <> [] ->
  stepsOf (generateWooCommerceBlueprint (withProducts products))
  = (initialSteps "My WooCommerce Store" [] ++ [ RunPHP wcTablesCode ])
    ++ [ WriteFile "/wordpress/wp-content/mu-plugins/import-products.php"
           (inl (generateProductImportScript products));
         RunPHP "<?php require_once('/wordpress/wp-content/mu-plugins/import-products.php'); ?>";
         RunPHP "<?php unlink('/wordpress/wp-content/mu-plugins/import-products.php'); ?>" ]
    ++ [ WriteFile "/wordpress/wp-content/mu-plugins/playground-helpers.php"
           (inl playgroundHelpersPhp) ].
Proof.
  intros Hne. rewrite playground_generated_steps.
  change (productsOf (withProducts products)) with products.
  destruct products as [|p ps]; [congruence|].
  replace (0 <? Z.of_nat (length (p :: ps)))%Z with true by reflexivity.
  now rewrite <- app_assoc.
Qed.

(** X25: in this revision the i-th additional plugin slug [p] has its
    install step, which names the slug [p] of the wordpress.org plugin
    directory, at index 2 + i and its activation step, with plugin path
    p/p.php, at index 2 + n + 1 + i: one step less before the activations,
    since query-monitor is gone and the readiness step comes first. *)
Lemma playground_additional_plugin_steps
    (options : BlueprintGeneratorOptions) (i : nat) (p : string) :
  additionalPluginsOf options !! i = Some p ->
  let n := length (additionalPluginsOf options) in
  let l := stepsOf (generateWooCommerceBlueprint options) in
  l !! (2 + i)
  = Some (InstallPlugin None
            (Some {| resource := "wordpress.org/plugins"; slug := Some p;
                     url := None; path := None |})
            None)
  /\ l !! (2 + n + 1 + i) = Some (ActivatePlugin (p +:+ "/" +:+ p +:+ ".php") None).
Proof.
  intros Hp n l. subst l. rewrite playground_generated_steps. unfold initialSteps.
  set (ps := additionalPluginsOf options) in *.
  assert (Hi : i < length ps) by (apply lookup_lt_is_Some; eauto).
  split.
  - rewrite <- !app_assoc.
    rewrite lookup_app_r by (simpl; lia).
    match goal with
    | |- _ !! ?k = _ => replace k with i by (simpl; lia)
    end.
    rewrite lookup_app_l by (now rewrite length_map).
    now rewrite list_lookup_fmap, Hp.
  - rewrite <- !app_assoc.
    rewrite lookup_app_r by (simpl; lia).
    rewrite lookup_app_r by (rewrite length_map; simpl; fold n; lia).
    rewrite lookup_app_r by (rewrite length_map; simpl; fold n; lia).
    rewrite length_map. fold n.
    match goal with
    | |- _ !! ?k = _ => replace k with i by (simpl; lia)
    end.
    rewrite lookup_app_l by (now rewrite length_map).
    now rewrite list_lookup_fmap, Hp.
Qed.

(** X26: in this revision too, the sequence holds the import block exactly
    when there are products and a sample-data step exactly when there are
    none, if and only if the additional steps bring no import block of their
    own when there are no products and no sample-data step when there are. *)
Lemma playground_import_xor_sample (options : BlueprintGeneratorOptions) :
  importXorSample (productsOf options) (stepsOf (generateWooCommerceBlueprint options))
  <-> additionsKeepExclusive (productsOf options) (additionalStepsOf options).
Proof.
  apply exclusive_iff; [apply playground_generated_block | apply playground_generated_sample].
Qed.

(** X27: in this revision the import block of [{ products }] is on one
    file, whatever [ABSPATH] is: after eight steps come the write of
    /wordpress/wp-content/mu-plugins/import-products.php, the run step that
    loads that path and the run step that deletes that path, then the write
    of the developer helper; no other step writes the helper file and no
    step is a sample-data step. *)
Lemma playground_product_import_block (abspath : string) (products : list ProductImport) :
  products <> [] ->
  let l := stepsOf (generateWooCommerceBlueprint (withProducts products)) in
  importBlockAsStated abspath l
  /\ exists (pre : list BlueprintStep) (helpers : BlueprintStep),
       l = pre
           ++ [ WriteFile "/wordpress/wp-content/mu-plugins/import-products.php"
                  (inl (generateProductImportScript products));
                RunPHP "<?php require_once('/wordpress/wp-content/mu-plugins/import-products.php'); ?>";
                RunPHP "<?php unlink('/wordpress/wp-content/mu-plugins/import-products.php'); ?>" ]
           ++ [ helpers ]
       /\ length pre = 8
       /\ existsb isImportHelperWrite pre = false
       /\ isDeveloperHelperWrite helpers = true.
Proof.
  intros Hne l. split.
  - unfold importBlockAsStated. split; [|split].
    + subst l. rewrite playground_generated_sample.
      change (productsOf (withProducts products)) with products.
      destruct products; [congruence | reflexivity].
    + subst l. rewrite (playground_products_only_steps _ Hne), List.filter_app.
      rewrite (filter_none _ _ (playground_initialSteps_no_write _ _)). reflexivity.
    + subst l. rewrite (playground_products_only_steps _ Hne).
      unfold hasImportHelperBlockOn.
      rewrite (existsWindow_skip _ _ (importHelperBlockOn_starts abspath))
        by apply playground_initialSteps_no_write.
      cbn [app]. rewrite existsWindow_cons. cbn [firstWindow].
      unfold importHelperBlockOn.
      rewrite playground_import_run_path, playground_import_removal_path. reflexivity.
  - eexists _, _. split; [exact (playground_products_only_steps _ Hne)|].
    split; [reflexivity|].
    split; [apply playground_initialSteps_no_write | vm_compute; reflexivity].
Qed.

End PlaygroundClaims.

(** ** The scenario of the empty options object *)

(** C1, as stated, fails on [src/blueprint/generator.ts]: there the second
    step installs query-monitor. *)
Lemma default_blueprint_counterexample :
  ~ defaultBlueprintAsStated (Generator.generateWooCommerceBlueprint noOptions).
Proof. intros (_ & H & _). vm_compute in H. discriminate H. Qed.

(** C1, amended: for the empty options object both revisions give the
    preferred versions php 8.0 and wp latest and end with the write of the
    developer helper, the playground-helpers mu-plugin.  In the revision for
    [@wp-playground/cli] the second step, after the readiness run step,
    installs the plugin of slug woocommerce, as the claim says; in
    [src/blueprint/generator.ts] that install step is the first step and the
    second step installs query-monitor. *)
Theorem default_blueprint :
  defaultBlueprintAsStated (PlaygroundGenerator.generateWooCommerceBlueprint noOptions)
  /\ isCoreReadinessStep
       <$> stepsOf (PlaygroundGenerator.generateWooCommerceBlueprint noOptions) !! 0
     = Some true
  /\ stepsOf (PlaygroundGenerator.generateWooCommerceBlueprint noOptions) !! 1
     = Some (InstallPlugin None
               (Some {| resource := "wordpress.org/plugins"; slug := Some "woocommerce";
                        url := None; path := None |})
               None)
  /\ last (stepsOf (PlaygroundGenerator.generateWooCommerceBlueprint noOptions))
     = Some (WriteFile "/wordpress/wp-content/mu-plugins/playground-helpers.php"
               (inl playgroundHelpersPhp))
  /\ preferredVersions (Generator.generateWooCommerceBlueprint noOptions)
     = Some {| pv_php := Some "8.0"; pv_wp := Some "latest" |}
  /\ stepsOf (Generator.generateWooCommerceBlueprint noOptions) !! 0
     = Some (InstallPlugin
               (Some {| resource := "wordpress.org/plugins"; slug := Some "woocommerce";
                        url := None; path := None |})
               None None)
  /\ stepsOf (Generator.generateWooCommerceBlueprint noOptions) !! 1
     = Some (InstallPlugin
               (Some {| resource := "wordpress.org/plugins"; slug := Some "query-monitor";
                        url := None; path := None |})
               None None)
  /\ last (stepsOf (Generator.generateWooCommerceBlueprint noOptions))
     = Some (WriteFile "/wp-content/mu-plugins/playground-helpers.php"
               (inl playgroundHelpersPhp))
  /\ isDeveloperHelperWrite
       (WriteFile "/wp-content/mu-plugins/playground-helpers.php" (inl playgroundHelpersPhp))
     = true.
Proof.
  split; [|repeat split; vm_compute; reflexivity].
  split; [reflexivity|]. split; vm_compute; reflexivity.
Qed.

(** * Further properties of the code *)

(** ** [escapePHP] and the helper script *)

Section EscapingMore.

Import Generator.

Lemma escapePHP_app (a b : string) :
  escapePHP (a +:+ b) = escapePHP a +:+ escapePHP b.
Proof.
  induction a as [|c a IH]; [reflexivity|].
  rewrite string_app_cons. simpl.
  destruct (Ascii.eqb c "'"%char); rewrite !string_app_cons; now rewrite IH.
Qed.

Lemma escapePHP_length (s : string) :
  String.length (escapePHP s) = String.length s + countQuotes s.
Proof.
  induction s as [|c s IH]; [reflexivity|].
  simpl. destruct (Ascii.eqb c "'"%char); simpl; rewrite IH; lia.
Qed.

(** X1: [escapePHP] works character by character: the escaped form of a
    concatenation is the concatenation of the escaped forms, and it is longer
    than the text by one character for each single quote. *)
Theorem escapePHP_app_length (a b : string) :
  escapePHP (a +:+ b) = escapePHP a +:+ escapePHP b
  /\ String.length (escapePHP a) = String.length a + countQuotes a.
Proof. split; [apply escapePHP_app | apply escapePHP_length]. Qed.

Lemma escapePHP_backslashes (s : string) :
  countBackslashes (escapePHP s) = countBackslashes s + countQuotes s.
Proof.
  induction s as [|c s IH]; [reflexivity|].
  simpl. destruct (Ascii.eqb c "'"%char) eqn:E.
  - apply Ascii.eqb_eq in E. subst c. simpl. rewrite IH. lia.
  - simpl. rewrite IH. destruct (Ascii.eqb c "092"%char); lia.
Qed.

(** X2: [escapePHP] leaves a text unchanged exactly when the text has no
    single quote; backslashes are never escaped: the escaped text has the
    backslashes of the text plus one for each single quote. *)
Theorem escapePHP_fixed_point (s : string) :
  (escapePHP s = s <-> countQuotes s = 0)
  /\ countBackslashes (escapePHP s) = countBackslashes s + countQuotes s.
Proof.
  split; [|apply escapePHP_backslashes].
  split.
  - intros E. pose proof (escapePHP_length s) as L. rewrite E in L. lia.
  - induction s as [|c s IH]; [reflexivity|].
    simpl. destruct (Ascii.eqb c "'"%char); [discriminate|].
    simpl. intros H. now rewrite IH.
Qed.

(** X28: for a text without a backslash the escaping is right for the target
    syntax: the escaped text followed by a quote reads, as a single-quoted
    PHP literal, as the text itself, and the literal ends at that closing
    quote, whatever follows it. *)
Theorem escapePHP_literal (s rest : string) :
  countBackslashes s = 0 ->
  Php.singleQuoted (escapePHP s +:+ "'" +:+ rest) = Some (s, rest).
Proof.
  assert (T : Php.singleQuoted ("'" +:+ rest) = Some (EmptyString, rest)) by reflexivity.
  set (tail := "'" +:+ rest) in *.
  induction s as [|c s IH]; intros H; [exact T|].
  simpl in H.
  destruct (Ascii.eqb c "092"%char) eqn:Eb; [discriminate H|].
  simpl in H. specialize (IH H).
  simpl escapePHP. destruct (Ascii.eqb c "'"%char) eqn:Eq.
  - apply Ascii.eqb_eq in Eq. subst c.
    rewrite !string_app_cons. cbn [Php.singleQuoted].
    replace (Ascii.eqb "092"%char "'"%char) with false by reflexivity.
    replace (Ascii.eqb "092"%char "092"%char) with true by reflexivity.
    replace (Ascii.eqb "'"%char "'"%char) with true by reflexivity.
    cbn [orb]. cbv iota. fold Php.singleQuoted. now rewrite IH.
  - rewrite string_app_cons. cbn [Php.singleQuoted]. rewrite Eq, Eb.
    now rewrite IH.
Qed.

Lemma escapePHP_literal_witness :
  countBackslashes "Joe's Tea" = 0
  /\ Php.singleQuoted (escapePHP "Joe's Tea" +:+ "'" +:+ ", 'sku' => 'TEA-001'")
     = Some ("Joe's Tea", ", 'sku' => 'TEA-001'").
Proof.
  split; [reflexivity|].
  exact (escapePHP_literal "Joe's Tea" ", 'sku' => 'TEA-001'" eq_refl).
Defined.

Lemma productPhpEntry_name (p : ProductImport) :
  exists pre post,
    productPhpEntry p = pre +:+ ("'name' => '" +:+ escapePHP (name p) +:+ "',") +:+ post.
Proof.
  exists ("array(" +:+ nl +:+ "        "). eexists.
  unfold productPhpEntry, unlines.
  cbn [String.concat].
  rewrite !string_app_assoc. reflexivity.
Qed.

(** X3: the helper script holds the PHP array entry of every product of the
    list, and with it the line that gives the product's escaped name. *)
Theorem script_holds_every_product (products : list ProductImport) (p : ProductImport) :
  In p products ->
  includes (generateProductImportScript products) (productPhpEntry p) = true
  /\ includes (generateProductImportScript products)
       ("'name' => '" +:+ escapePHP (name p) +:+ "',") = true.
Proof.
  intros Hin. unfold generateProductImportScript, productsPhpArray.
  destruct (concat_member ("," +:+ nl) productPhpEntry products p Hin)
    as (pre & post & ->).
  split.
  - replace (importScriptHeader +:+ nl +:+ (pre +:+ productPhpEntry p +:+ post)
             +:+ nl +:+ importScriptFooter)
      with ((importScriptHeader +:+ nl +:+ pre) +:+ productPhpEntry p
            +:+ (post +:+ nl +:+ importScriptFooter))
      by now rewrite !string_app_assoc.
    apply includes_intro.
  - destruct (productPhpEntry_name p) as (pre' & post' & ->).
    replace (importScriptHeader +:+ nl
             +:+ (pre +:+ (pre' +:+ ("'name' => '" +:+ escapePHP (name p) +:+ "',")
                           +:+ post') +:+ post)
             +:+ nl +:+ importScriptFooter)
      with ((importScriptHeader +:+ nl +:+ pre +:+ pre')
            +:+ ("'name' => '" +:+ escapePHP (name p) +:+ "',")
            +:+ (post' +:+ post +:+ nl +:+ importScriptFooter))
      by now rewrite !string_app_assoc.
    apply includes_intro.
Qed.

Lemma script_holds_every_product_witness :
  In exampleProduct [exampleProduct]
  /\ includes (generateProductImportScript [exampleProduct])
       (productPhpEntry exampleProduct) = true
  /\ includes (generateProductImportScript [exampleProduct])
       ("'name' => '" +:+ escapePHP (name exampleProduct) +:+ "',") = true.
Proof.
  split; [now left|].
  apply (script_holds_every_product [exampleProduct] exampleProduct). now left.
Defined.

End EscapingMore.

(** ** The normaliser, field by field *)

Section NormaliserMore.

(** X4: the image list of a normalised product never holds an empty URL; it
    holds exactly the non-empty [src] values of the remote images, so it is
    no longer than the remote list, and it is empty when the remote record
    has no image list. *)
Theorem transformed_images (p : PublicWooCommerceProduct) :
  Forall (fun u => u <> EmptyString) (t_images (transformProduct p))
  /\ length (t_images (transformProduct p)) <= length (default [] (r_images p))
  /\ (forall u : string,
        In u (t_images (transformProduct p))
        <-> u <> EmptyString /\ In {| img_src := Some u |} (default [] (r_images p))).
Proof.
  unfold transformProduct. cbn [t_images].
  destruct (r_images p) as [imgs|]; cbn [fmap option_fmap option_map from_option]; cbv beta; unfold id.
  2:{ split; [constructor|]. split; [reflexivity|]. intros u. simpl. tauto. }
  assert (Hne : forall u, negb (String.eqb u EmptyString) = true <-> u <> EmptyString).
  { intros u. rewrite negb_true_iff. split.
    - intros E ->. discriminate E.
    - intros N. destruct (String.eqb u EmptyString) eqn:E; [|reflexivity].
      apply String.eqb_eq in E. contradiction. }
  split; [|split].
  - apply List.Forall_forall. intros u Hu. apply List.filter_In in Hu as [_ Hu].
    now apply Hne.
  - etransitivity; [apply List.filter_length_le|]. now rewrite length_map.
  - intros u. rewrite List.filter_In, Hne, List.in_map_iff. split.
    + intros [([s] & Hs & Hin) Hu]. split; [exact Hu|].
      destruct s as [s|]; simpl in Hs.
      * destruct (String.eqb s EmptyString) eqn:E.
        -- subst u. now destruct Hu.
        -- now subst u.
      * subst u. now destruct Hu.
    + intros [Hu Hin]. split; [|exact Hu].
      exists {| img_src := Some u |}. split; [|exact Hin].
      simpl. destruct (String.eqb u EmptyString) eqn:E; [|reflexivity].
      apply String.eqb_eq in E. contradiction.
Qed.

Lemma or_else_cases (v : option string) (d : string) :
  or_else v d = d \/ (v = Some (or_else v d) /\ or_else v d <> EmptyString).
Proof.
  destruct v as [s|]; simpl; [|now left].
  destruct (String.eqb s EmptyString) eqn:E; [now left|].
  right. split; [reflexivity|]. intros ->. discriminate E.
Qed.

(** [v || d]: the value when there is a non-empty one, [d] when the value is
    missing or empty. *)
Lemma or_else_when (v : option string) (d : string) :
  (forall s : string, v = Some s -> s <> EmptyString -> or_else v d = s)
  /\ (v = None \/ v = Some EmptyString -> or_else v d = d).
Proof.
  split.
  - intros s -> Hs. simpl. destruct (String.eqb s EmptyString) eqn:E; [|reflexivity].
    apply String.eqb_eq in E. contradiction.
  - intros [->| ->]; reflexivity.
Qed.

(** X5: the price and the regular price of a normalised product are the
    remote value when the remote record has a prices object with a
    non-empty such price, and "0" when it has no prices object, no such
    price, or an empty one, so they are never empty; the sale price and the
    SKU are the remote value when there is a non-empty one and the empty
    string otherwise. *)
Theorem transformed_prices (p : PublicWooCommerceProduct) :
  ((forall v : string,
      r_prices p ≫= prices_price = Some v -> v <> EmptyString ->
      t_price (transformProduct p) = v)
   /\ (r_prices p ≫= prices_price = None \/ r_prices p ≫= prices_price = Some EmptyString ->
       t_price (transformProduct p) = "0"))
  /\ ((forall v : string,
         r_prices p ≫= prices_regular_price = Some v -> v <> EmptyString ->
         t_regular_price (transformProduct p) = v)
      /\ (r_prices p ≫= prices_regular_price = None
          \/ r_prices p ≫= prices_regular_price = Some EmptyString ->
          t_regular_price (transformProduct p) = "0"))
  /\ ((forall v : string,
         r_prices p ≫= prices_sale_price = Some v -> v <> EmptyString ->
         t_sale_price (transformProduct p) = v)
      /\ (r_prices p ≫= prices_sale_price = None
          \/ r_prices p ≫= prices_sale_price = Some EmptyString ->
          t_sale_price (transformProduct p) = EmptyString))
  /\ ((forall v : string,
         r_sku p = Some v -> v <> EmptyString -> t_sku (transformProduct p) = v)
      /\ (r_sku p = None \/ r_sku p = Some EmptyString ->
          t_sku (transformProduct p) = EmptyString))
  /\ (r_prices p = None ->
      t_price (transformProduct p) = "0" /\ t_regular_price (transformProduct p) = "0"
      /\ t_sale_price (transformProduct p) = EmptyString)
  /\ t_price (transformProduct p) <> EmptyString
  /\ t_regular_price (transformProduct p) <> EmptyString.
Proof.
  unfold transformProduct.
  cbn [t_price t_regular_price t_sale_price t_sku].
  split; [apply or_else_when|]. split; [apply or_else_when|].
  split; [apply or_else_when|]. split; [apply or_else_when|].
  split; [now intros ->|].
  split.
  - destruct (or_else_cases (r_prices p ≫= prices_price) "0") as [->|[_ H]];
      [discriminate | exact H].
  - destruct (or_else_cases (r_prices p ≫= prices_regular_price) "0") as [->|[_ H]];
      [discriminate | exact H].
Qed.

End NormaliserMore.

(** ** The layout of the generated steps *)

Section GeneratorLayout.

Import Generator.

Lemma initialSteps_length (siteName : string) (ps : list string) :
  length (initialSteps siteName ps) = 2 * length ps + 8.
Proof. unfold initialSteps. rewrite !length_app, !length_map. simpl. lia. Qed.

(** X6: for every option set the additional steps stand, as given and in
    their order, right before the last step, which is always the write of
    the developer helper to /wp-content/mu-plugins/playground-helpers.php;
    before them come 2n + 8 initial steps for n additional plugins and then,
    when there are products, the write of the import helper, the run step
    that loads it and the run step that deletes it, and otherwise one run
    step that creates the built-in sample catalogue. *)
Theorem additional_steps_layout (options : BlueprintGeneratorOptions) :
  exists (initial middle : list BlueprintStep) (data : string),
    stepsOf (generateWooCommerceBlueprint options)
    = initial ++ middle ++ additionalStepsOf options
      ++ [ WriteFile "/wp-content/mu-plugins/playground-helpers.php" (inl data) ]
    /\ developerHelperScript data = true
    /\ length initial = 2 * length (additionalPluginsOf options) + 8
    /\ match productsOf options with
       | [] => exists code : string,
                 middle = [ RunPHP code ] /\ createsSampleCatalogue code = true
       | _ :: _ =>
           middle
           = [ WriteFile "/wp-content/mu-plugins/import-products.php"
                 (inl (generateProductImportScript (productsOf options)));
               RunPHP "<?php require_once(ABSPATH . 'wp-content/mu-plugins/import-products.php'); ?>";
               RunPHP "<?php unlink(ABSPATH . 'wp-content/mu-plugins/import-products.php'); ?>" ]
       end.
Proof.
  rewrite generated_steps.
  exists (initialSteps (siteNameOf options) (additionalPluginsOf options)).
  destruct (productsOf options) as [|p ps] eqn:E.
  - exists [ RunPHP sampleProductsCode ], playgroundHelpersPhp.
    split; [reflexivity|]. split; [vm_compute; reflexivity|].
    split; [apply initialSteps_length|].
    exists sampleProductsCode. split; [reflexivity | apply sample_step_recognised].
  - exists (productImportSteps (p :: ps)), playgroundHelpersPhp.
    split; [reflexivity|]. split; [vm_compute; reflexivity|].
    split; [apply initialSteps_length | reflexivity].
Qed.

(** X7: the site name reaches the document in one place, the [blogname]
    entry of the set-site-options step at index 2n + 6; every other entry
    of that step is the same for every site name. *)
Theorem site_name_reaches_blogname (options : BlueprintGeneratorOptions) (other : string) :
  stepsOf (generateWooCommerceBlueprint options)
    !! (2 * length (additionalPluginsOf options) + 6)
  = Some (SetSiteOptions (wooCommerceSiteOptions (siteNameOf options)))
  /\ wooCommerceSiteOptions (siteNameOf options) !! "blogname"
     = Some (JString (siteNameOf options))
  /\ delete "blogname" (wooCommerceSiteOptions (siteNameOf options))
     = delete "blogname" (wooCommerceSiteOptions other).
Proof.
  split; [|split].
  - rewrite generated_steps. unfold initialSteps.
    set (ps := additionalPluginsOf options).
    rewrite <- !app_assoc.
    rewrite lookup_app_r by (simpl; lia).
    rewrite lookup_app_r by (rewrite length_map; simpl; lia).
    rewrite lookup_app_r by (rewrite length_map; simpl; lia).
    rewrite lookup_app_r by (rewrite !length_map; simpl; lia).
    rewrite !length_map.
    match goal with
    | |- _ !! ?k = _ => replace k with 2 by (simpl; lia)
    end.
    reflexivity.
  - unfold wooCommerceSiteOptions. cbn [list_to_map foldr curry uncurry fst snd].
    apply lookup_insert_eq.
  - unfold wooCommerceSiteOptions.
    change (list_to_map (?x :: ?l)) with (<[x.1 := x.2]> (list_to_map l : gmap string JSON)).
    cbn [fst snd]. now rewrite !delete_insert_eq.
Qed.

Lemma existsb_map_true_all {A B : Type} (f : B -> bool) (g : A -> B) (l : list A) :
  (forall a, f (g a) = true) -> forallb f (map g l) = true.
Proof.
  intros H. induction l as [|a l IH]; simpl; [reflexivity|]. now rewrite H, IH.
Qed.

(** X8: the generated sequence starts with n + 2 install steps followed by
    n + 2 activation steps (n additional plugins), so every plugin is
    installed before any plugin is activated; after them the generator
    itself adds no install or activation step: the rest has one exactly when
    the caller's additional steps have one. *)
Theorem installs_before_activations (options : BlueprintGeneratorOptions) :
  exists installs activations rest : list BlueprintStep,
    stepsOf (generateWooCommerceBlueprint options) = installs ++ activations ++ rest
    /\ forallb isInstallPlugin installs = true
    /\ forallb isActivatePlugin activations = true
    /\ length installs = length (additionalPluginsOf options) + 2
    /\ length activations = length (additionalPluginsOf options) + 2
    /\ existsb (fun s => isInstallPlugin s || isActivatePlugin s) rest
       = existsb (fun s => isInstallPlugin s || isActivatePlugin s)
           (additionalStepsOf options).
Proof.
  rewrite generated_steps. unfold initialSteps.
  set (ps := additionalPluginsOf options).
  set (stage := if (0 <? Z.of_nat (length (productsOf options)))%Z
                then productImportSteps (productsOf options)
                else [ RunPHP sampleProductsCode ]).
  exists ([ InstallPlugin (Some (directoryPlugin "woocommerce")) None None;
            InstallPlugin (Some (directoryPlugin "query-monitor")) None None ]
          ++ map (fun plugin => InstallPlugin (Some (directoryPlugin plugin)) None None) ps),
    ([ ActivatePlugin "woocommerce/woocommerce.php" None;
       ActivatePlugin "query-monitor/query-monitor.php" None ]
     ++ map (fun plugin => ActivatePlugin (plugin +:+ "/" +:+ plugin +:+ ".php") None) ps),
    ([ Mkdir "/wp-content/mu-plugins";
       WriteFile "/wp-content/mu-plugins/rewrite.php" (inl rewritePhp);
       SetSiteOptions (wooCommerceSiteOptions (siteNameOf options));
       WriteFile "/wp-content/mu-plugins/debug-config.php" (inl debugConfigPhp) ]
     ++ stage ++ additionalStepsOf options ++ [ playgroundHelpersStep ]).
  split; [now rewrite <- !app_assoc|].
  split; [rewrite forallb_app, existsb_map_true_all by reflexivity; reflexivity|].
  split; [rewrite forallb_app, existsb_map_true_all by reflexivity; reflexivity|].
  split; [rewrite length_app, length_map; simpl; lia|].
  split; [rewrite length_app, length_map; simpl; lia|].
  assert (Hstage : existsb (fun s => isInstallPlugin s || isActivatePlugin s) stage = false).
  { subst stage. now destruct (0 <? Z.of_nat (length (productsOf options)))%Z. }
  rewrite !existsb_app, Hstage.
  cbn [existsb isInstallPlugin isActivatePlugin orb].
  unfold playgroundHelpersStep. cbn [isInstallPlugin isActivatePlugin orb].
  now rewrite orb_false_r.
Qed.

End GeneratorLayout.

(** ** The merge as an operation on documents *)

(** A projection of the merged document, one stage of [mergeBlueprints] at
    a time. *)
Ltac merge_component :=
  unfold mergeBlueprints; cbv zeta;
  repeat first
    [ reflexivity
    | match goal with
      | |- ?f (match ?o with Some _ => _ | None => ?M end) = _ =>
          transitivity (f M); [destruct o; reflexivity|]
      | |- ?f (if ?c then _ else ?M) = _ =>
          transitivity (f M); [destruct c; reflexivity|]
      end
    | match goal with
      | |- _ (match ?o with Some _ => _ | None => _ end) = _ => destruct o
      | |- _ (if ?c then _ else _) = _ => destruct c
      end ].

Section MergeAlgebra.

(** Appending an optional list to an optional list, as the merge does for
    [plugins], [themes] and [steps]. *)
Lemma merge_steps (base custom : Blueprint) :
  steps (mergeBlueprints base custom)
  = match steps custom with
    | Some cs => Some (default [] (steps base) ++ cs)
    | None => steps base
    end.
Proof. merge_component. Qed.

Lemma merge_plugins (base custom : Blueprint) :
  plugins (mergeBlueprints base custom)
  = match plugins custom with
    | Some cp => Some (default [] (plugins base) ++ cp)
    | None => plugins base
    end.
Proof. merge_component. Qed.

Lemma merge_themes (base custom : Blueprint) :
  themes (mergeBlueprints base custom)
  = match themes custom with
    | Some ct => Some (default [] (themes base) ++ ct)
    | None => themes base
    end.
Proof. merge_component. Qed.

Lemma merge_preferredVersions (base custom : Blueprint) :
  preferredVersions (mergeBlueprints base custom)
  = match preferredVersions custom with
    | Some cv => Some (spreadVersions (preferredVersions base) cv)
    | None => preferredVersions base
    end.
Proof. merge_component. Qed.

Lemma merge_features (base custom : Blueprint) :
  features (mergeBlueprints base custom)
  = match features custom with
    | Some cf => Some (spreadFeatures (features base) cf)
    | None => features base
    end.
Proof. merge_component. Qed.

Lemma merge_constants (base custom : Blueprint) :
  constants (mergeBlueprints base custom)
  = match constants custom with
    | Some cc => Some (spreadMap (constants base) cc)
    | None => constants base
    end.
Proof. merge_component. Qed.

Lemma blueprint_eq (a b : Blueprint) :
  schema a = schema b -> landingPage a = landingPage b ->
  preferredVersions a = preferredVersions b ->
  phpExtensionBundles a = phpExtensionBundles b -> features a = features b ->
  login a = login b -> steps a = steps b -> constants a = constants b ->
  plugins a = plugins b -> themes a = themes b -> siteOptions a = siteOptions b ->
  a = b.
Proof. destruct a, b; simpl; intros; subst; reflexivity. Qed.

(** X9: the step sequence of the merged document is the base's steps
    followed by the override's steps, whichever of the two has steps; the
    same holds for [plugins] and [themes], without deduplication. *)
Theorem merge_appends_lists (base custom : Blueprint) :
  stepsOf (mergeBlueprints base custom) = stepsOf base ++ stepsOf custom
  /\ default [] (plugins (mergeBlueprints base custom))
     = default [] (plugins base) ++ default [] (plugins custom)
  /\ default [] (themes (mergeBlueprints base custom))
     = default [] (themes base) ++ default [] (themes custom).
Proof.
  unfold stepsOf. rewrite merge_steps, merge_plugins, merge_themes.
  destruct (steps custom), (plugins custom), (themes custom); simpl;
    rewrite ?app_nil_r; auto.
Qed.

(** X10: merging the document without any property into a base returns the
    base unchanged, duplicates of its extension bundles included. *)
Theorem merge_empty_override (base : Blueprint) :
  mergeBlueprints base emptyBlueprint = base.
Proof. destruct base. reflexivity. Qed.

(** X11: in the merged document the PHP version, the WordPress version and
    the networking flag are the override's when the override gives one and
    the base's otherwise, key by key; the constants and the site options are
    the base's entries with the override's entries written over them. *)
Theorem merge_keywise (base custom : Blueprint) :
  preferredVersions (mergeBlueprints base custom) ≫= pv_php
  = spreadProperty (preferredVersions base ≫= pv_php) (preferredVersions custom ≫= pv_php)
  /\ preferredVersions (mergeBlueprints base custom) ≫= pv_wp
     = spreadProperty (preferredVersions base ≫= pv_wp) (preferredVersions custom ≫= pv_wp)
  /\ features (mergeBlueprints base custom) ≫= networking
     = spreadProperty (features base ≫= networking) (features custom ≫= networking)
  /\ default ∅ (constants (mergeBlueprints base custom))
     = default ∅ (constants custom) ∪ default ∅ (constants base)
  /\ default ∅ (siteOptions (mergeBlueprints base custom))
     = default ∅ (siteOptions custom) ∪ default ∅ (siteOptions base).
Proof.
  rewrite merge_preferredVersions, merge_features, merge_constants, merge_siteOptions.
  repeat split.
  - destruct (preferredVersions custom); reflexivity.
  - destruct (preferredVersions custom); reflexivity.
  - destruct (features custom); reflexivity.
  - destruct (constants custom); simpl; [reflexivity|]. now rewrite (left_id_L ∅ (∪)).
  - destruct (siteOptions custom); simpl; [reflexivity|]. now rewrite (left_id_L ∅ (∪)).
Qed.

Lemma existsb_eqb_In (v : string) (l : list string) :
  existsb (String.eqb v) l = true <-> In v l.
Proof.
  rewrite existsb_exists. split.
  - intros (x & Hx & E). apply String.eqb_eq in E. now subst.
  - intros H. exists v. split; [exact H | apply String.eqb_refl].
Qed.

Lemma dedupFirstFrom_ext (s1 s2 l : list string) :
  (forall v, existsb (String.eqb v) s1 = existsb (String.eqb v) s2) ->
  dedupFirstFrom s1 l = dedupFirstFrom s2 l.
Proof.
  revert s1 s2. induction l as [|x l IH]; intros s1 s2 H; [reflexivity|].
  simpl. rewrite (H x). destruct (existsb (String.eqb x) s2); [now apply IH|].
  f_equal. apply IH. intros v. simpl. now rewrite H.
Qed.

Lemma dedupFirstFrom_app (seen a b : list string) :
  dedupFirstFrom seen (a ++ b)
  = dedupFirstFrom seen a ++ dedupFirstFrom (rev a ++ seen) b.
Proof.
  revert seen. induction a as [|x a IH]; intros seen; [reflexivity|].
  cbn [app dedupFirstFrom]. destruct (existsb (String.eqb x) seen) eqn:E.
  - rewrite IH. f_equal. apply dedupFirstFrom_ext. intros v.
    cbn [rev]. rewrite !existsb_app. cbn [existsb].
    destruct (String.eqb v x) eqn:Ev; [|now rewrite !orb_false_r].
    apply String.eqb_eq in Ev. subst v. rewrite E. now rewrite !orb_true_r.
  - cbn [app]. f_equal. rewrite IH. f_equal.
    cbn [rev]. now rewrite <- app_assoc.
Qed.

Lemma dedupFirstFrom_nested (seen seen' l : list string) :
  (forall v, existsb (String.eqb v) seen' = true -> existsb (String.eqb v) seen = true) ->
  dedupFirstFrom seen (dedupFirstFrom seen' l) = dedupFirstFrom seen l.
Proof.
  revert seen seen'. induction l as [|x l IH]; intros seen seen' H; [reflexivity|].
  cbn [dedupFirstFrom]. destruct (existsb (String.eqb x) seen') eqn:E'.
  - rewrite (H x E'). now apply IH.
  - cbn [dedupFirstFrom]. destruct (existsb (String.eqb x) seen) eqn:E.
    + apply IH. intros v. simpl. destruct (String.eqb v x) eqn:Ev.
      * apply String.eqb_eq in Ev. now subst v.
      * simpl. apply H.
    + f_equal. apply IH. intros v. simpl.
      destruct (String.eqb v x); [reflexivity|]. simpl. apply H.
Qed.

Lemma dedupFirst_app_l (a b : list string) :
  dedupFirst (dedupFirst a ++ b) = dedupFirst (a ++ b).
Proof.
  unfold dedupFirst. rewrite !dedupFirstFrom_app.
  rewrite dedupFirstFrom_nested by auto. f_equal.
  apply dedupFirstFrom_ext. intros v. rewrite !app_nil_r.
  apply eq_true_iff_eq. rewrite !existsb_eqb_In, <- !in_rev.
  rewrite dedupFirstFrom_elem. simpl. tauto.
Qed.

Lemma dedupFirst_app_r (a b : list string) :
  dedupFirst (a ++ dedupFirst b) = dedupFirst (a ++ b).
Proof.
  unfold dedupFirst. rewrite !dedupFirstFrom_app. f_equal.
  apply dedupFirstFrom_nested. discriminate.
Qed.

Lemma dedupFirstFrom_seen (seen l : list string) :
  (forall v, In v l -> existsb (String.eqb v) seen = true) ->
  dedupFirstFrom seen l = [].
Proof.
  induction l as [|x l IH]; intros H; [reflexivity|].
  simpl. rewrite (H x) by now left. apply IH. intros v Hv. apply H. now right.
Qed.

Lemma dedupFirst_app_twice (a b : list string) :
  dedupFirst ((a ++ b) ++ b) = dedupFirst (a ++ b).
Proof.
  unfold dedupFirst. rewrite (dedupFirstFrom_app [] (a ++ b) b).
  rewrite (dedupFirstFrom_seen _ b); [now rewrite app_nil_r|].
  intros v Hv. rewrite existsb_eqb_In, app_nil_r, <- in_rev.
  apply in_or_app. now right.
Qed.

Lemma truthy_pick_assoc (a b c : option string) :
  (if truthy c then c else if truthy b then b else a)
  = (if truthy (if truthy c then c else b) then (if truthy c then c else b) else a).
Proof.
  destruct (truthy c) eqn:Ec.
  - change (c = if truthy c then c else a). now rewrite Ec.
  - change ((if truthy b then b else a) = (if truthy b then b else a)). reflexivity.
Qed.

(** X12: the merge is associative: merging an override C into the merge of
    A and B gives the same document as merging into A the merge of B and C,
    so a chain of overrides can be combined first and applied once. *)
Theorem merge_associative (a b c : Blueprint) :
  mergeBlueprints (mergeBlueprints a b) c = mergeBlueprints a (mergeBlueprints b c).
Proof.
  apply blueprint_eq.
  - rewrite !merge_schema. apply truthy_pick_assoc.
  - rewrite !merge_landingPage. apply truthy_pick_assoc.
  - rewrite !merge_preferredVersions.
    destruct (preferredVersions c) as [[cp cw]|]; [|reflexivity].
    destruct (preferredVersions b) as [[bp bw]|], (preferredVersions a) as [[ap aw]|];
      unfold spreadVersions; simpl; destruct cp, cw; reflexivity.
  - rewrite !merge_phpExtensionBundles.
    destruct (phpExtensionBundles c) as [cb|]; [|reflexivity].
    destruct (phpExtensionBundles b) as [bb|]; cbn [from_option]; unfold id;
      rewrite !filter_indexed_dedup.
    + rewrite dedupFirst_app_l, dedupFirst_app_r. now rewrite app_assoc.
    + change ([] ++ cb) with cb. now rewrite dedupFirst_app_r.
  - rewrite !merge_features.
    destruct (features c) as [[cn]|]; [|reflexivity].
    destruct (features b) as [[bn]|], (features a) as [[an]|];
      unfold spreadFeatures; simpl; destruct cn; reflexivity.
  - rewrite !merge_login. destruct (login c), (login b); reflexivity.
  - rewrite !merge_steps.
    destruct (steps c) as [cs|]; [|reflexivity].
    destruct (steps b); simpl; [now rewrite app_assoc | reflexivity].
  - rewrite !merge_constants.
    destruct (constants c) as [cc|]; [|reflexivity].
    unfold spreadMap. destruct (constants b); simpl.
    + now rewrite (assoc_L (∪)).
    + now rewrite (right_id_L ∅ (∪)).
  - rewrite !merge_plugins.
    destruct (plugins c) as [cs|]; [|reflexivity].
    destruct (plugins b); simpl; [now rewrite app_assoc | reflexivity].
  - rewrite !merge_themes.
    destruct (themes c) as [cs|]; [|reflexivity].
    destruct (themes b); simpl; [now rewrite app_assoc | reflexivity].
  - rewrite !merge_siteOptions.
    destruct (siteOptions c) as [cc|]; [|reflexivity].
    unfold spreadMap. destruct (siteOptions b); simpl.
    + now rewrite (assoc_L (∪)).
    + now rewrite (right_id_L ∅ (∪)).
Qed.

Lemma truthy_pick_twice (a c : option string) :
  (if truthy c then c else if truthy c then c else a) = (if truthy c then c else a).
Proof. now destruct (truthy c). Qed.

(** X13: applying the same override a second time changes nothing, provided
    the override has no steps, plugins or themes (those would be appended a
    second time). *)
Theorem merge_twice (base custom : Blueprint) :
  steps custom = None -> plugins custom = None -> themes custom = None ->
  mergeBlueprints (mergeBlueprints base custom) custom = mergeBlueprints base custom.
Proof.
  intros Hs Hp Ht. apply blueprint_eq.
  - rewrite !merge_schema. apply truthy_pick_twice.
  - rewrite !merge_landingPage. apply truthy_pick_twice.
  - rewrite !merge_preferredVersions.
    destruct (preferredVersions custom) as [[cp cw]|]; [|reflexivity].
    unfold spreadVersions; simpl. destruct cp, cw; reflexivity.
  - rewrite !merge_phpExtensionBundles.
    destruct (phpExtensionBundles custom) as [cb|]; [|reflexivity].
    cbn [from_option]; unfold id.
    rewrite !filter_indexed_dedup, dedupFirst_app_l.
    now rewrite dedupFirst_app_twice.
  - rewrite !merge_features.
    destruct (features custom) as [[cn]|]; [|reflexivity].
    unfold spreadFeatures; simpl. destruct cn; reflexivity.
  - rewrite !merge_login. now destruct (login custom).
  - rewrite !merge_steps. now rewrite Hs.
  - rewrite !merge_constants.
    destruct (constants custom) as [cc|]; [|reflexivity].
    unfold spreadMap. simpl. now rewrite (assoc_L (∪)), (idemp_L (∪)).
  - rewrite !merge_plugins. now rewrite Hp.
  - rewrite !merge_themes. now rewrite Ht.
  - rewrite !merge_siteOptions.
    destruct (siteOptions custom) as [cc|]; [|reflexivity].
    unfold spreadMap. simpl. now rewrite (assoc_L (∪)), (idemp_L (∪)).
Qed.

Lemma merge_twice_witness :
  steps exampleOverride = None /\ plugins exampleOverride = None
  /\ themes exampleOverride = None
  /\ mergeBlueprints (mergeBlueprints exampleBase exampleOverride) exampleOverride
     = mergeBlueprints exampleBase exampleOverride.
Proof.
  split; [reflexivity|]. split; [reflexivity|]. split; [reflexivity|].
  apply (merge_twice exampleBase exampleOverride); reflexivity.
Defined.

End MergeAlgebra.

(** ** The command line of [src/cli/index.ts] *)

Section CommandLine.

Import JsString CliMain Generator.

Lemma split_noEquals (v : string) : noEquals v = true -> split "="%char v = [v].
Proof.
  induction v as [|c v IH]; [reflexivity|].
  simpl. intros H. apply andb_prop in H as [Hc Hv].
  apply negb_true_iff in Hc. rewrite Hc. now rewrite (IH Hv).
Qed.

Lemma split_key (key rest : string) :
  noEquals key = true ->
  split "="%char (key +:+ "=" +:+ rest) = key :: split "="%char rest.
Proof.
  induction key as [|c key IH]; intros H.
  - reflexivity.
  - simpl in H. apply andb_prop in H as [Hc Hk]. apply negb_true_iff in Hc.
    rewrite string_app_cons. simpl. rewrite Hc. now rewrite (IH Hk).
Qed.

Lemma split_nonempty (s : string) :
  exists seg segs, split "="%char s = seg :: segs.
Proof.
  induction s as [|c s (seg & segs & IH)]; simpl; [eauto|].
  destruct (Ascii.eqb c "="%char); [eauto|]. rewrite IH. eauto.
Qed.

Lemma prefix_inv (p s : string) :
  String.prefix p s = true -> exists rest, s = p +:+ rest.
Proof.
  revert s. induction p as [|x p IH]; intros s H.
  - exists s. reflexivity.
  - destruct s as [|y s]; [discriminate|]. simpl in H.
    destruct (ascii_dec x y) as [->|]; [|discriminate].
    destruct (IH s H) as [rest ->]. exists rest. reflexivity.
Qed.

Lemma valueOf_key (key rest : string) :
  noEquals key = true -> valueOf (key +:+ "=" +:+ rest) = split "="%char rest !! 0.
Proof. intros H. unfold valueOf. now rewrite split_key. Qed.

Lemma argument_value_first (key v : string) :
  noEquals key = true -> noEquals v = true -> valueOf (key +:+ "=" +:+ v) = Some v.
Proof.
  intros Hk Hv. rewrite valueOf_key by exact Hk. now rewrite split_noEquals.
Qed.

(** X14: the value the command line reads from an argument is the text
    between its first and its second equals sign: the whole value when the
    value has no equals sign, only its beginning when it has one, and
    nothing when the argument has no equals sign at all. *)
Theorem argument_value (key v tail : string) :
  noEquals key = true -> noEquals v = true ->
  valueOf (key +:+ "=" +:+ v) = Some v
  /\ valueOf (key +:+ "=" +:+ v +:+ "=" +:+ tail) = Some v
  /\ valueOf key = None.
Proof.
  intros Hk Hv. split; [|split].
  - now apply argument_value_first.
  - rewrite valueOf_key by exact Hk. now rewrite split_key.
  - unfold valueOf. now rewrite split_noEquals.
Qed.

Lemma argument_value_witness :
  noEquals "--source-url" = true /\ noEquals "https://tea.example/?page" = true
  /\ valueOf "--source-url=https://tea.example/?page" = Some "https://tea.example/?page"
  /\ valueOf "--source-url=https://tea.example/?page=2" = Some "https://tea.example/?page"
  /\ valueOf "--source-url" = None.
Proof.
  split; [reflexivity|]. split; [reflexivity|].
  exact (argument_value "--source-url" "https://tea.example/?page" "2" eq_refl eq_refl).
Defined.

(** X15: [extractVersionArg] answers from the first argument that starts
    with the prefix and ignores every later one, also when the first one is
    another flag that merely starts with the same letters; without such an
    argument it returns nothing. *)
Theorem extractVersionArg_first_match
    (before after : list string) (prefix key v : string) :
  forallb (fun a => negb (startsWith a prefix)) before = true ->
  startsWith (key +:+ "=" +:+ v) prefix = true ->
  noEquals key = true -> noEquals v = true ->
  extractVersionArg (before ++ (key +:+ "=" +:+ v) :: after) prefix = Some v
  /\ extractVersionArg before prefix = None.
Proof.
  intros Hb Hs Hk Hv.
  assert (Hnone : List.find (fun a => startsWith a prefix) before = None).
  { induction before as [|x l IH]; [reflexivity|].
    simpl in Hb. apply andb_prop in Hb as [Hx Hl]. apply negb_true_iff in Hx.
    simpl. rewrite Hx. now apply IH. }
  split.
  - unfold extractVersionArg.
    assert (Hfind : List.find (fun a => startsWith a prefix)
                      (before ++ (key +:+ "=" +:+ v) :: after)
                    = Some (key +:+ "=" +:+ v)).
    { clear Hnone. induction before as [|x l IH]; simpl.
      - now rewrite Hs.
      - simpl in Hb. apply andb_prop in Hb as [Hx Hl]. apply negb_true_iff in Hx.
        rewrite Hx. now apply IH. }
    rewrite Hfind.
    destruct (String.eqb (key +:+ "=" +:+ v) EmptyString) eqn:E.
    + apply String.eqb_eq in E. destruct key; discriminate E.
    + now apply argument_value_first.
  - unfold extractVersionArg. now rewrite Hnone.
Qed.

Lemma extractVersionArg_first_match_witness :
  forallb (fun a => negb (startsWith a "--php")) ["start"] = true
  /\ startsWith "--phpunit=9" "--php" = true
  /\ noEquals "--phpunit" = true /\ noEquals "9" = true
  /\ extractVersionArg (["start"] ++ "--phpunit=9" :: ["--php=8.2"]) "--php" = Some "9"
  /\ extractVersionArg ["start"] "--php" = None.
Proof.
  do 4 (split; [reflexivity|]).
  exact (extractVersionArg_first_match ["start"] ["--php=8.2"] "--php" "--phpunit" "9"
           eq_refl eq_refl eq_refl eq_refl).
Defined.

End CommandLine.

(** ** [main]: from the arguments to the spawn of wp-now *)

Section Main.

Import JsString CliMain Generator.

Lemma parseArg_wpNowArgs (st : ParsedArgs) (arg : string) :
  wpNowArgs (parseArg st arg)
  = wpNowArgs st ++ (if isOwnArgument arg then [] else [arg]).
Proof.
  unfold parseArg, isOwnArgument.
  destruct (startsWith arg "--blueprint="); [simpl; now rewrite app_nil_r|].
  destruct (startsWith arg "--source-url="); [simpl; now rewrite app_nil_r|].
  destruct (startsWith arg "--site-name="); [simpl; now rewrite app_nil_r|].
  reflexivity.
Qed.

Lemma fold_parseArg_wpNowArgs (args : list string) (st : ParsedArgs) :
  wpNowArgs (fold_left parseArg args st)
  = wpNowArgs st ++ List.filter (fun a => negb (isOwnArgument a)) args.
Proof.
  revert st. induction args as [|a args IH]; intros st.
  - simpl. now rewrite app_nil_r.
  - cbn [fold_left List.filter]. rewrite IH, parseArg_wpNowArgs.
    destruct (isOwnArgument a); simpl; now rewrite <- app_assoc.
Qed.

Lemma parseArgs_wpNowArgs (args : list string) :
  wpNowArgs (parseArgs args) = List.filter (fun a => negb (isOwnArgument a)) args.
Proof. unfold parseArgs. now rewrite fold_parseArg_wpNowArgs. Qed.

(** X16: [main] ends in one of two ways.  It exits with code 1 exactly when
    a blueprint path was given and the file is missing or unreadable;
    otherwise it spawns wp-now with the caller's arguments in their order,
    without any --blueprint=, --source-url= or --site-name= argument, and
    followed by one --blueprint= argument that names the temporary file. *)
Theorem main_outcome (env : Environment) (args : list string) :
  (truthy (customBlueprintPath (parseArgs args)) = true
   /\ readBlueprint env (default EmptyString (customBlueprintPath (parseArgs args))) = None
   /\ main env args = Exit 1)
  \/ (~ (truthy (customBlueprintPath (parseArgs args)) = true
         /\ readBlueprint env
              (default EmptyString (customBlueprintPath (parseArgs args))) = None)
      /\ exists blueprint : Blueprint,
           main env args
           = SpawnWpNow
               (List.filter (fun a => negb (isOwnArgument a)) args
                ++ ["--blueprint=" +:+ tempBlueprintPath env])
               blueprint).
Proof.
  unfold main. rewrite parseArgs_wpNowArgs.
  destruct (truthy (customBlueprintPath (parseArgs args))) eqn:Et.
  - destruct (readBlueprint env _) eqn:Er.
    + right. split; [intros (_ & H); discriminate H | eauto].
    + left. auto.
  - right. split; [intros (H & _); discriminate H | eauto].
Qed.

Lemma startsWith_value (arg key : string) :
  noEquals key = true -> startsWith arg (key +:+ "=") = true ->
  exists v, valueOf arg = Some v.
Proof.
  intros Hk Hs. apply prefix_inv in Hs as [rest ->].
  rewrite string_app_assoc, valueOf_key by exact Hk.
  destruct (split_nonempty rest) as (seg & segs & ->). eauto.
Qed.

Lemma parseArg_siteName (st : ParsedArgs) (arg : string) :
  is_Some (siteName st) -> is_Some (siteName (parseArg st arg)).
Proof.
  intros H. unfold parseArg.
  destruct (startsWith arg "--blueprint="); [exact H|].
  destruct (startsWith arg "--source-url="); [exact H|].
  destruct (startsWith arg "--site-name=") eqn:E; [|exact H].
  cbn [siteName].
  destruct (startsWith_value arg "--site-name" eq_refl E) as [v ->]. eauto.
Qed.

Lemma fold_parseArg_siteName (args : list string) (st : ParsedArgs) :
  is_Some (siteName st) -> is_Some (siteName (fold_left parseArg args st)).
Proof.
  revert st. induction args as [|a args IH]; intros st H; [exact H|].
  apply IH. now apply parseArg_siteName.
Qed.

Lemma fold_parseArg_keeps_siteName (rest : list string) (st : ParsedArgs) :
  forallb (fun a => negb (startsWith a "--site-name=")) rest = true ->
  siteName (fold_left parseArg rest st) = siteName st.
Proof.
  revert st. induction rest as [|a rest IH]; intros st H; [reflexivity|].
  simpl in H. apply andb_prop in H as [Ha Hr]. apply negb_true_iff in Ha.
  cbn [fold_left]. rewrite (IH _ Hr). unfold parseArg.
  destruct (startsWith a "--blueprint="); [reflexivity|].
  destruct (startsWith a "--source-url="); [reflexivity|].
  now rewrite Ha.
Qed.

(** X17: the site name is never undefined after the argument loop, and the
    last --site-name= argument decides it: later arguments of other kinds
    do not change it, earlier --site-name= arguments are forgotten. *)
Theorem site_name_last_wins (before after : list string) (v : string) :
  noEquals v = true ->
  forallb (fun a => negb (startsWith a "--site-name=")) after = true ->
  siteName (parseArgs (before ++ ("--site-name=" +:+ v) :: after)) = Some v
  /\ is_Some (siteName (parseArgs before)).
Proof.
  intros Hv Ha. split.
  - unfold parseArgs. rewrite fold_left_app. cbn [fold_left].
    rewrite (fold_parseArg_keeps_siteName _ _ Ha).
    unfold parseArg at 1.
    assert (B : startsWith ("--site-name=" +:+ v) "--blueprint=" = false)
      by (vm_compute; reflexivity).
    assert (S : startsWith ("--site-name=" +:+ v) "--source-url=" = false)
      by (vm_compute; reflexivity).
    assert (N : startsWith ("--site-name=" +:+ v) "--site-name=" = true)
      by apply prefix_app.
    rewrite B, S, N. cbn [siteName].
    exact (argument_value_first "--site-name" v eq_refl Hv).
  - unfold parseArgs. apply fold_parseArg_siteName. simpl. eauto.
Qed.

Lemma site_name_last_wins_witness :
  noEquals "Tea Shop" = true
  /\ forallb (fun a => negb (startsWith a "--site-name=")) ["--php=7.4"] = true
  /\ siteName (parseArgs (["--site-name=Old"; "start"]
                          ++ "--site-name=Tea Shop" :: ["--php=7.4"])) = Some "Tea Shop"
  /\ is_Some (siteName (parseArgs ["--site-name=Old"; "start"])).
Proof.
  do 2 (split; [reflexivity|]).
  exact (site_name_last_wins ["--site-name=Old"; "start"] ["--php=7.4"] "Tea Shop"
           eq_refl eq_refl).
Defined.

(** X18: without a store URL and without a custom blueprint the document
    handed to wp-now is [generateWooCommerceBlueprint({ siteName })]: its
    preferred versions are php 8.0 and wp latest whatever --php= or --wp=
    argument is passed through, and it carries the sample-data step. *)
Theorem main_without_store (env : Environment) (args : list string) :
  truthy (sourceUrl (parseArgs args)) = false ->
  truthy (customBlueprintPath (parseArgs args)) = false ->
  main env args
  = SpawnWpNow
      (List.filter (fun a => negb (isOwnArgument a)) args
       ++ ["--blueprint=" +:+ tempBlueprintPath env])
      (defaultBlueprint (parseArgs args))
  /\ preferredVersions (defaultBlueprint (parseArgs args))
     = Some {| pv_php := Some "8.0"; pv_wp := Some "latest" |}
  /\ In (RunPHP sampleProductsCode) (stepsOf (defaultBlueprint (parseArgs args)))
  /\ existsb isSampleDataStep
       (stepsOf (defaultBlueprint (parseArgs args))) = true.
Proof.
  intros Hs Hb. split; [|split; [|split]].
  - unfold main, withFetchedProducts. now rewrite parseArgs_wpNowArgs, Hs, Hb.
  - reflexivity.
  - unfold defaultBlueprint. rewrite generated_steps.
    change (productsOf _) with (@nil ProductImport).
    replace (0 <? Z.of_nat (length (@nil ProductImport)))%Z with false by reflexivity.
    apply List.in_or_app. right. now left.
  - unfold defaultBlueprint. now rewrite generated_sample.
Qed.

Lemma main_without_store_witness :
  truthy (sourceUrl (parseArgs ["start"; "--php=7.4"; "--wp=6.4"])) = false
  /\ truthy (customBlueprintPath (parseArgs ["start"; "--php=7.4"; "--wp=6.4"])) = false
  /\ main exampleEnvironment ["start"; "--php=7.4"; "--wp=6.4"]
     = SpawnWpNow
         (List.filter (fun a => negb (isOwnArgument a)) ["start"; "--php=7.4"; "--wp=6.4"]
          ++ ["--blueprint=" +:+ tempBlueprintPath exampleEnvironment])
         (defaultBlueprint (parseArgs ["start"; "--php=7.4"; "--wp=6.4"]))
  /\ preferredVersions (defaultBlueprint (parseArgs ["start"; "--php=7.4"; "--wp=6.4"]))
     = Some {| pv_php := Some "8.0"; pv_wp := Some "latest" |}
  /\ In (RunPHP sampleProductsCode)
       (stepsOf (defaultBlueprint (parseArgs ["start"; "--php=7.4"; "--wp=6.4"])))
  /\ existsb isSampleDataStep
       (stepsOf (defaultBlueprint (parseArgs ["start"; "--php=7.4"; "--wp=6.4"]))) = true.
Proof.
  do 2 (split; [reflexivity|]).
  exact (main_without_store exampleEnvironment ["start"; "--php=7.4"; "--wp=6.4"]
           eq_refl eq_refl).
Defined.

End Main.

(** ** [main]: products fetched from a store, and the custom blueprint *)

Section MainProducts.

Import JsString CliMain Generator.

Lemma asProductImport_transform (r : PublicWooCommerceProduct) :
  asProductImport (transformProduct r) = None
  <-> r_name r = None \/ r_description r = None.
Proof.
  unfold asProductImport, transformProduct. cbn [t_name t_description].
  destruct (r_name r), (r_description r); split; try tauto; try discriminate.
  intros [H|H]; discriminate H.
Qed.



(** X20: when the store gives no data, an empty list, or a list in which a
    product lacks its name or its description, the document stays the
    default one with the sample-data step: the last case is the exception
    that [escapePHP] raises on [undefined], caught inside [main]. *)
Theorem store_fallback (env : Environment) (args : list string) :
  (getProductsData env (default EmptyString (sourceUrl (parseArgs args))) = None
   \/ getProductsData env (default EmptyString (sourceUrl (parseArgs args))) = Some []
   \/ exists data,
        getProductsData env (default EmptyString (sourceUrl (parseArgs args))) = Some data
        /\ Exists (fun r => r_name r = None \/ r_description r = None) data) ->
  withFetchedProducts env (parseArgs args) = defaultBlueprint (parseArgs args).
Proof.
  intros H. unfold withFetchedProducts.
  destruct (truthy (sourceUrl (parseArgs args))); [|reflexivity].
  destruct H as [->|[->|(data & -> & Hex)]]; [reflexivity | reflexivity |].
  destruct (0 <? Z.of_nat (length data))%Z; [|reflexivity].
  unfold regenerate.
  assert (E : mapM asProductImport (transformWooCommerceProducts data) = None).
  { apply mapM_None_2. unfold transformWooCommerceProducts.
    apply Exists_fmap. eapply Exists_impl; [exact Hex|].
    intros r Hr. now apply asProductImport_transform. }
  now rewrite E.
Qed.

Lemma store_fallback_witness :
  (getProductsData namelessEnvironment
     (default EmptyString (sourceUrl (parseArgs exampleArgs))) = None
   \/ getProductsData namelessEnvironment
        (default EmptyString (sourceUrl (parseArgs exampleArgs))) = Some []
   \/ exists data,
        getProductsData namelessEnvironment
          (default EmptyString (sourceUrl (parseArgs exampleArgs))) = Some data
        /\ Exists (fun r => r_name r = None \/ r_description r = None) data)
  /\ withFetchedProducts namelessEnvironment (parseArgs exampleArgs)
     = defaultBlueprint (parseArgs exampleArgs).
Proof.
  assert (H : getProductsData namelessEnvironment
                (default EmptyString (sourceUrl (parseArgs exampleArgs))) = None
              \/ getProductsData namelessEnvironment
                   (default EmptyString (sourceUrl (parseArgs exampleArgs))) = Some []
              \/ exists data,
                   getProductsData namelessEnvironment
                     (default EmptyString (sourceUrl (parseArgs exampleArgs))) = Some data
                   /\ Exists (fun r => r_name r = None \/ r_description r = None) data).
  { right. right. exists [namelessRemoteProduct]. split; [reflexivity|].
    constructor. now left. }
  split; [exact H|].
  exact (store_fallback namelessEnvironment exampleArgs H).
Defined.

(** X21: when a blueprint path was given and the file reads as a document,
    wp-now gets the merge of the generated document with it, so the steps
    of the custom blueprint come after every generated step, the
    playground-helpers write included. *)
Theorem main_merges_custom_blueprint
    (env : Environment) (args : list string) (custom : Blueprint) :
  truthy (customBlueprintPath (parseArgs args)) = true ->
  readBlueprint env (default EmptyString (customBlueprintPath (parseArgs args)))
  = Some custom ->
  main env args
  = SpawnWpNow
      (List.filter (fun a => negb (isOwnArgument a)) args
       ++ ["--blueprint=" +:+ tempBlueprintPath env])
      (mergeBlueprints (withFetchedProducts env (parseArgs args)) custom)
  /\ stepsOf (mergeBlueprints (withFetchedProducts env (parseArgs args)) custom)
     = stepsOf (withFetchedProducts env (parseArgs args)) ++ stepsOf custom.
Proof.
  intros Ht Hr. split.
  - unfold main. now rewrite parseArgs_wpNowArgs, Ht, Hr.
  - unfold stepsOf. rewrite merge_steps.
    destruct (steps custom); simpl; now rewrite ?app_nil_r.
Qed.

Lemma main_merges_custom_blueprint_witness :
  truthy (customBlueprintPath (parseArgs ["start"; "--blueprint=custom.json"])) = true
  /\ readBlueprint exampleEnvironment
       (default EmptyString
          (customBlueprintPath (parseArgs ["start"; "--blueprint=custom.json"])))
     = Some exampleCustomBlueprint
  /\ main exampleEnvironment ["start"; "--blueprint=custom.json"]
     = SpawnWpNow
         (List.filter (fun a => negb (isOwnArgument a)) ["start"; "--blueprint=custom.json"]
          ++ ["--blueprint=" +:+ tempBlueprintPath exampleEnvironment])
         (mergeBlueprints
            (withFetchedProducts exampleEnvironment
               (parseArgs ["start"; "--blueprint=custom.json"]))
            exampleCustomBlueprint)
  /\ stepsOf
       (mergeBlueprints
          (withFetchedProducts exampleEnvironment
             (parseArgs ["start"; "--blueprint=custom.json"]))
          exampleCustomBlueprint)
     = stepsOf
         (withFetchedProducts exampleEnvironment
            (parseArgs ["start"; "--blueprint=custom.json"]))
       ++ stepsOf exampleCustomBlueprint.
Proof.
  do 2 (split; [reflexivity|]).
  exact (main_merges_custom_blueprint exampleEnvironment
           ["start"; "--blueprint=custom.json"] exampleCustomBlueprint eq_refl eq_refl).
Defined.

End MainProducts.

(** ** Witnesses for the generator revision for [@wp-playground/cli] *)

Section PlaygroundWitnesses.

Import PlaygroundGenerator.

Lemma playground_additional_plugin_steps_witness :
  additionalPluginsOf twoPluginsOptions !! 1 = Some "jetpack"
  /\ stepsOf (generateWooCommerceBlueprint twoPluginsOptions) !! 3
     = Some (InstallPlugin None
               (Some {| resource := "wordpress.org/plugins"; slug := Some "jetpack";
                        url := None; path := None |})
               None)
  /\ stepsOf (generateWooCommerceBlueprint twoPluginsOptions) !! 6
     = Some (ActivatePlugin "jetpack/jetpack.php" None).
Proof.
  split; [reflexivity|].
  exact (playground_additional_plugin_steps twoPluginsOptions 1 "jetpack" eq_refl).
Defined.

Lemma playground_import_xor_sample_witness :
  additionsKeepExclusive (productsOf productsAndLoginOptions)
    (additionalStepsOf productsAndLoginOptions)
  /\ importXorSample (productsOf productsAndLoginOptions)
       (stepsOf (generateWooCommerceBlueprint productsAndLoginOptions)).
Proof.
  assert (H : additionsKeepExclusive (productsOf productsAndLoginOptions)
                (additionalStepsOf productsAndLoginOptions)).
  { split; [discriminate | reflexivity]. }
  split; [exact H|].
  exact (proj2 (playground_import_xor_sample productsAndLoginOptions) H).
Defined.

Lemma playground_product_import_block_witness :
  [exampleProduct] <> []
  /\ let l := stepsOf (generateWooCommerceBlueprint (withProducts [exampleProduct])) in
     importBlockAsStated "/wordpress/" l
     /\ exists (pre : list BlueprintStep) (helpers : BlueprintStep),
          l = pre
              ++ [ WriteFile "/wordpress/wp-content/mu-plugins/import-products.php"
                     (inl (generateProductImportScript [exampleProduct]));
                   RunPHP "<?php require_once('/wordpress/wp-content/mu-plugins/import-products.php'); ?>";
                   RunPHP "<?php unlink('/wordpress/wp-content/mu-plugins/import-products.php'); ?>" ]
              ++ [ helpers ]
          /\ length pre = 8
          /\ existsb isImportHelperWrite pre = false
          /\ isDeveloperHelperWrite helpers = true.
Proof.
  split; [discriminate|].
  apply (playground_product_import_block "/wordpress/" [exampleProduct]). discriminate.
Defined.

End PlaygroundWitnesses.

(** ** The command line revision for [@wp-playground/cli] *)

Section PlaygroundCommandLine.

Import JsString PlaygroundCli.

Variable parseInt10 : option string -> JsNumber.
Variable numberToString : JsNumber -> string.


Lemma startsWith_shorter (arg long short : string) :
  startsWith long short = true -> startsWith arg long = true ->
  startsWith arg short = true.
Proof.
  unfold startsWith. intros Hl Ha.
  apply prefix_inv in Ha as [rest ->]. apply prefix_inv in Hl as [rest' ->].
  rewrite string_app_assoc. apply prefix_app.
Qed.





Lemma fold_parseArg_port (args : list string) (st : ParsedArgs) :
  existsb (fun arg => startsWith arg "--port") args = false ->
  port (fold_left (PlaygroundCli.parseArg parseInt10) args st) = port st.
Proof.
  revert st. induction args as [|a args IH]; intros st H; [reflexivity|].
  simpl in H. apply orb_false_elim in H as [Ha Hr].
  cbn [fold_left]. rewrite (IH _ Hr). unfold PlaygroundCli.parseArg.
  destruct (startsWith a "--blueprint="); [reflexivity|].
  destruct (startsWith a "--source-url="); [reflexivity|].
  destruct (startsWith a "--site-name="); [reflexivity|].
  destruct (startsWith a "--port=") eqn:E.
  - rewrite (startsWith_shorter a "--port=" "--port" eq_refl E) in Ha. discriminate Ha.
  - destruct (startsWith a "--php="); [reflexivity|].
    destruct (startsWith a "--wp="); [reflexivity|].
    destruct (startsWith a "--mount="); [reflexivity|].
    now destruct (String.eqb a "--autoMount" || String.eqb a "--auto-mount").
Qed.


(** X23: a --port= argument is added by [main] only for the server command
    and only when no argument starts with --port, and then it always names
    the default port 9400: a port given by the caller is passed on as it is
    and never doubled. *)
Theorem playground_default_port (args : list string) :
  portArgument numberToString (extractCommand args).1 (extractCommand args).2
    ((PlaygroundCli.parseArgs parseInt10) args)
  = if String.eqb (extractCommand args).1 "server"
       && negb (existsb (fun arg => startsWith arg "--port") (extractCommand args).2)
    then ["--port=" +:+ numberToString (Num 9400)]
    else [].
Proof.
  unfold portArgument.
  destruct (String.eqb (extractCommand args).1 "server"); [|reflexivity].
  destruct (existsb (fun arg => startsWith arg "--port") (extractCommand args).2) eqn:E;
    [reflexivity|].
  cbn [andb negb]. unfold PlaygroundCli.parseArgs.
  now rewrite (fold_parseArg_port _ _ E).
Qed.

Lemma fold_parseArg_keeps_php (rest : list string) (st : ParsedArgs) :
  forallb (fun a => negb (startsWith a "--php=")) rest = true ->
  phpVersion (fold_left (PlaygroundCli.parseArg parseInt10) rest st) = phpVersion st.
Proof.
  revert st. induction rest as [|a rest IH]; intros st H; [reflexivity|].
  simpl in H. apply andb_prop in H as [Ha Hr]. apply negb_true_iff in Ha.
  cbn [fold_left]. rewrite (IH _ Hr). unfold PlaygroundCli.parseArg.
  destruct (startsWith a "--blueprint="); [reflexivity|].
  destruct (startsWith a "--source-url="); [reflexivity|].
  destruct (startsWith a "--site-name="); [reflexivity|].
  destruct (startsWith a "--port="); [reflexivity|].
  rewrite Ha.
  destruct (startsWith a "--wp="); [reflexivity|].
  destruct (startsWith a "--mount="); [reflexivity|].
  now destruct (String.eqb a "--autoMount" || String.eqb a "--auto-mount").
Qed.

Lemma withFetchedProducts_versions (env : CliMain.Environment) (p : ParsedArgs) :
  preferredVersions (PlaygroundCli.withFetchedProducts env p)
  = Some {| pv_php := Some (default "8.0" (phpVersion p));
            pv_wp := Some (default "latest" (wpVersion p)) |}.
Proof.
  unfold PlaygroundCli.withFetchedProducts.
  destruct (truthy (sourceUrl p)); [|reflexivity].
  destruct (CliMain.getProductsData env _) as [data|]; [|reflexivity].
  destruct (0 <? Z.of_nat (length data))%Z; [|reflexivity].
  unfold PlaygroundCli.regenerate.
  now destruct (mapM asProductImport (transformWooCommerceProducts data)).
Qed.

(** X24: in this revision the last --php= argument reaches the preferred
    versions of the document whether or not products are fetched from a
    store, whatever the store answers, and whichever command comes first
    (or none): what counts are the arguments left once the command word is
    taken off. *)
Theorem playground_php_reaches_document
    (env : CliMain.Environment) (args before after : list string) (v : string) :
  (extractCommand args).2 = before ++ ("--php=" +:+ v) :: after ->
  noEquals v = true ->
  forallb (fun a => negb (startsWith a "--php=")) after = true ->
  preferredVersions
    (PlaygroundCli.withFetchedProducts env ((PlaygroundCli.parseArgs parseInt10) args))
  ≫= pv_php = Some v.
Proof.
  intros Hargs Hv Ha. rewrite withFetchedProducts_versions. cbn [mbind option_bind pv_php].
  f_equal. unfold PlaygroundCli.parseArgs. rewrite Hargs.
  rewrite fold_left_app. cbn [fold_left].
  rewrite (fold_parseArg_keeps_php _ _ Ha).
  unfold PlaygroundCli.parseArg at 1.
  assert (B : startsWith ("--php=" +:+ v) "--blueprint=" = false)
    by (vm_compute; reflexivity).
  assert (S : startsWith ("--php=" +:+ v) "--source-url=" = false)
    by (vm_compute; reflexivity).
  assert (N : startsWith ("--php=" +:+ v) "--site-name=" = false)
    by (vm_compute; reflexivity).
  assert (P : startsWith ("--php=" +:+ v) "--port=" = false)
    by (vm_compute; reflexivity).
  assert (H : startsWith ("--php=" +:+ v) "--php=" = true) by apply prefix_app.
  rewrite B, S, N, P, H. cbn [phpVersion].
  change ("--php=" +:+ v) with ("--php" +:+ "=" +:+ v).
  now rewrite (argument_value_first "--php" v eq_refl Hv).
Qed.

End PlaygroundCommandLine.

Lemma playground_php_reaches_document_witness :
  (PlaygroundCli.extractCommand ["run-blueprint"; "--php=8.1"; "--php=7.4"; "--auto-mount"]).2
  = ["--php=8.1"] ++ ("--php=" +:+ "7.4") :: ["--auto-mount"]
  /\ noEquals "7.4" = true
  /\ forallb (fun a => negb (JsString.startsWith a "--php=")) ["--auto-mount"] = true
  /\ preferredVersions
       (PlaygroundCli.withFetchedProducts exampleEnvironment
          (PlaygroundCli.parseArgs exampleParseInt10
             ["run-blueprint"; "--php=8.1"; "--php=7.4"; "--auto-mount"]))
     ≫= pv_php = Some "7.4".
Proof.
  do 3 (split; [reflexivity|]).
  exact (playground_php_reaches_document exampleParseInt10 exampleEnvironment
           ["run-blueprint"; "--php=8.1"; "--php=7.4"; "--auto-mount"]
           ["--php=8.1"] ["--auto-mount"] "7.4" eq_refl eq_refl eq_refl).
Defined.

(** The same without a command word, where the command is server. *)
Example playground_php_without_command :
  PlaygroundCli.extractCommand ["--php=7.4"; "--port=8080"] = ("server", ["--php=7.4"; "--port=8080"])
  /\ preferredVersions
       (PlaygroundCli.withFetchedProducts namelessEnvironment
          (PlaygroundCli.parseArgs exampleParseInt10 ["--php=7.4"; "--port=8080"]))
     ≫= pv_php = Some "7.4".
Proof. split; reflexivity. Qed.
